(** * gerador-de-dxf: the record-preparation and drawing pipeline of [app.py]

    A shallow embedding of [_prepare_data_for_dxf], [create_dxf_drawing],
    the loop of [generate_dxf_batch] and [generate_dxf_from_form], with the
    properties of the specification stated over it, followed by further
    properties of the code.

    Conventions of the embedding.
    - A Python [float] is an IEEE 754 binary64 value: [spec_float] of the
      Standard Library with [prec = 53] and [emax = 1024], NaN, the
      infinities and the signed zeros included.
    - The integer literals of the source that meet floats ([0], [5], [25],
      [35], [200], [1_000], [1_000_000], [7850], ...) are exactly
      representable, and Python converts the [int] operand of a mixed
      operation or comparison exactly; they are embedded as floats.  Values
      that the source makes [int] on purpose (the quantity, the colours) are
      [Z].
    - A Python [str] is a [string], the bytes of its text in UTF-8.
      [lower], [upper] and [strip] act on the ASCII range and leave the
      bytes above 127 alone, and [float()] reads ASCII digits only; the
      class [\w] is decided on the characters that the bytes spell.
    - A raised exception is a value: [Raise e]. *)

From Stdlib Require Import ZArith Lia Bool List Ascii String SpecFloat DecimalString.
From stdpp Require Import base option list strings gmap.

Local Open Scope string_scope.
Local Open Scope Z_scope.

(* ===================================================================== *)
(** * Strings *)
(* ===================================================================== *)

Module PyStr.

Definition code (c : ascii) : Z := Z.of_nat (nat_of_ascii c).

Definition chr (z : Z) : ascii := ascii_of_nat (Z.to_nat z).

Definition is_digit (c : ascii) : bool := (48 <=? code c) && (code c <=? 57).

Definition is_upper (c : ascii) : bool := (65 <=? code c) && (code c <=? 90).

Definition is_lower (c : ascii) : bool := (97 <=? code c) && (code c <=? 122).

Definition is_ascii (c : ascii) : bool := code c <? 128.

(** White space of [str.strip()] in the ASCII range. *)
Definition is_space (c : ascii) : bool :=
  ((9 <=? code c) && (code c <=? 13)) || ((28 <=? code c) && (code c <=? 32)).

(** White space that [float()] skips around a literal ([Py_ISSPACE]). *)
Definition is_cspace (c : ascii) : bool :=
  ((9 <=? code c) && (code c <=? 13)) || (code c =? 32).

Definition lower_char (c : ascii) : ascii := if is_upper c then chr (code c + 32) else c.

Definition upper_char (c : ascii) : ascii := if is_lower c then chr (code c - 32) else c.

Fixpoint map_chars (f : ascii -> ascii) (s : string) : string :=
  match s with
  | EmptyString => EmptyString
  | String c r => String (f c) (map_chars f r)
  end.

Definition lower : string -> string := map_chars lower_char.

Definition upper : string -> string := map_chars upper_char.

(** [s.replace(a, b)] for one-character [a] and [b]. *)
Definition replace_char (a b : ascii) : string -> string :=
  map_chars (fun c => if Ascii.eqb c a then b else c).

Fixpoint lstrip_by (sp : ascii -> bool) (s : string) : string :=
  match s with
  | EmptyString => EmptyString
  | String c r => if sp c then lstrip_by sp r else s
  end.

Fixpoint rstrip_by (sp : ascii -> bool) (s : string) : string :=
  match s with
  | EmptyString => EmptyString
  | String c r =>
      match rstrip_by sp r with
      | EmptyString => if sp c then EmptyString else String c EmptyString
      | r' => String c r'
      end
  end.

Definition strip_by (sp : ascii -> bool) (s : string) : string :=
  rstrip_by sp (lstrip_by sp s).

Definition strip : string -> string := strip_by is_space.

Fixpoint all_chars (p : ascii -> bool) (s : string) : bool :=
  match s with
  | EmptyString => true
  | String c r => p c && all_chars p r
  end.

(** Decimal numeral of an integer, as [str(n)] prints it. *)
Definition of_int (n : Z) : string := NilZero.string_of_int (Z.to_int n).

Fixpoint zeros (k : nat) : string :=
  match k with
  | O => EmptyString
  | S k' => String "0" (zeros k')
  end.

(** The digits of [n >= 0], padded with zeros on the left to [w] characters. *)
Definition zfill (w : nat) (n : Z) : string :=
  let d := of_int n in zeros (w - String.length d) +:+ d.

(** ** The characters of a text

    A string holds the bytes of a text in UTF-8; the classes of [re] are
    decided on its characters. *)

(** A continuation byte, [10xxxxxx], and the six bits it carries. *)
Definition is_cont (c : ascii) : bool := (128 <=? code c) && (code c <=? 191).

Definition cont (c : ascii) : Z := code c - 128.

(** The code points that two, three and four bytes spell. *)
Definition point2 (b0 b1 : ascii) : Z := (code b0 - 192) * 64 + cont b1.

Definition point3 (b0 b1 b2 : ascii) : Z := ((code b0 - 224) * 64 + cont b1) * 64 + cont b2.

Definition point4 (b0 b1 b2 b3 : ascii) : Z :=
  (((code b0 - 240) * 64 + cont b1) * 64 + cont b2) * 64 + cont b3.

(** The well-formed sequences: the shortest form of a code point up to
    U+10FFFF that is not a surrogate. *)
Definition two (b0 b1 : ascii) : bool :=
  (194 <=? code b0) && (code b0 <=? 223) && is_cont b1.

Definition three (b0 b1 b2 : ascii) : bool :=
  (224 <=? code b0) && (code b0 <=? 239) && is_cont b1 && is_cont b2
  && (2048 <=? point3 b0 b1 b2)
  && negb ((55296 <=? point3 b0 b1 b2) && (point3 b0 b1 b2 <=? 57343)).

Definition four (b0 b1 b2 b3 : ascii) : bool :=
  (240 <=? code b0) && (code b0 <=? 244) && is_cont b1 && is_cont b2 && is_cont b3
  && (65536 <=? point4 b0 b1 b2 b3) && (point4 b0 b1 b2 b3 <=? 1114111).

(** A byte that begins no well-formed sequence spells no character of a
    text; it stands alone, with no code point. *)
Definition stray (b : ascii) : Z * string := (-1, String b "").

(** The characters of a string in their order, each with its code point
    and the bytes that spell it. *)
Fixpoint characters (s : string) : list (Z * string) :=
  match s with
  | EmptyString => []
  | String b0 r0 =>
      if is_ascii b0 then (code b0, String b0 "") :: characters r0
      else
        match r0 with
        | String b1 r1 =>
            if two b0 b1 then (point2 b0 b1, String b0 (String b1 "")) :: characters r1
            else
              match r1 with
              | String b2 r2 =>
                  if three b0 b1 b2
                  then (point3 b0 b1 b2, String b0 (String b1 (String b2 ""))) :: characters r2
                  else
                    match r2 with
                    | String b3 r3 =>
                        if four b0 b1 b2 b3
                        then (point4 b0 b1 b2 b3,
                              String b0 (String b1 (String b2 (String b3 ""))))
                             :: characters r3
                        else stray b0 :: characters r0
                    | EmptyString => stray b0 :: characters r0
                    end
              | EmptyString => stray b0 :: characters r0
              end
        | EmptyString => stray b0 :: characters r0
        end
  end.

(** The code points that [\w] matches in a [str] pattern: the underscore
    and the alphanumeric characters of Unicode 14.0 ([str.isalnum]), as
    inclusive ranges in increasing order. *)
Definition word_ranges : list (Z * Z) :=
  [(48, 57); (65, 90); (95, 95); (97, 122); (170, 170); (178, 179); (181, 181); (185, 186);
   (188, 190); (192, 214); (216, 246); (248, 705); (710, 721); (736, 740); (748, 748);
   (750, 750); (880, 884); (886, 887); (890, 893); (895, 895); (902, 902); (904, 906);
   (908, 908); (910, 929); (931, 1013); (1015, 1153); (1162, 1327); (1329, 1366);
   (1369, 1369); (1376, 1416); (1488, 1514); (1519, 1522); (1568, 1610); (1632, 1641);
   (1646, 1647); (1649, 1747); (1749, 1749); (1765, 1766); (1774, 1788); (1791, 1791);
   (1808, 1808); (1810, 1839); (1869, 1957); (1969, 1969); (1984, 2026); (2036, 2037);
   (2042, 2042); (2048, 2069); (2074, 2074); (2084, 2084); (2088, 2088); (2112, 2136);
   (2144, 2154); (2160, 2183); (2185, 2190); (2208, 2249); (2308, 2361); (2365, 2365);
   (2384, 2384); (2392, 2401); (2406, 2415); (2417, 2432); (2437, 2444); (2447, 2448);
   (2451, 2472); (2474, 2480); (2482, 2482); (2486, 2489); (2493, 2493); (2510, 2510);
   (2524, 2525); (2527, 2529); (2534, 2545); (2548, 2553); (2556, 2556); (2565, 2570);
   (2575, 2576); (2579, 2600); (2602, 2608); (2610, 2611); (2613, 2614); (2616, 2617);
   (2649, 2652); (2654, 2654); (2662, 2671); (2674, 2676); (2693, 2701); (2703, 2705);
   (2707, 2728); (2730, 2736); (2738, 2739); (2741, 2745); (2749, 2749); (2768, 2768);
   (2784, 2785); (2790, 2799); (2809, 2809); (2821, 2828); (2831, 2832); (2835, 2856);
   (2858, 2864); (2866, 2867); (2869, 2873); (2877, 2877); (2908, 2909); (2911, 2913);
   (2918, 2927); (2929, 2935); (2947, 2947); (2949, 2954); (2958, 2960); (2962, 2965);
   (2969, 2970); (2972, 2972); (2974, 2975); (2979, 2980); (2984, 2986); (2990, 3001);
   (3024, 3024); (3046, 3058); (3077, 3084); (3086, 3088); (3090, 3112); (3114, 3129);
   (3133, 3133); (3160, 3162); (3165, 3165); (3168, 3169); (3174, 3183); (3192, 3198);
   (3200, 3200); (3205, 3212); (3214, 3216); (3218, 3240); (3242, 3251); (3253, 3257);
   (3261, 3261); (3293, 3294); (3296, 3297); (3302, 3311); (3313, 3314); (3332, 3340);
   (3342, 3344); (3346, 3386); (3389, 3389); (3406, 3406); (3412, 3414); (3416, 3425);
   (3430, 3448); (3450, 3455); (3461, 3478); (3482, 3505); (3507, 3515); (3517, 3517);
   (3520, 3526); (3558, 3567); (3585, 3632); (3634, 3635); (3648, 3654); (3664, 3673);
   (3713, 3714); (3716, 3716); (3718, 3722); (3724, 3747); (3749, 3749); (3751, 3760);
   (3762, 3763); (3773, 3773); (3776, 3780); (3782, 3782); (3792, 3801); (3804, 3807);
   (3840, 3840); (3872, 3891); (3904, 3911); (3913, 3948); (3976, 3980); (4096, 4138);
   (4159, 4169); (4176, 4181); (4186, 4189); (4193, 4193); (4197, 4198); (4206, 4208);
   (4213, 4225); (4238, 4238); (4240, 4249); (4256, 4293); (4295, 4295); (4301, 4301);
   (4304, 4346); (4348, 4680); (4682, 4685); (4688, 4694); (4696, 4696); (4698, 4701);
   (4704, 4744); (4746, 4749); (4752, 4784); (4786, 4789); (4792, 4798); (4800, 4800);
   (4802, 4805); (4808, 4822); (4824, 4880); (4882, 4885); (4888, 4954); (4969, 4988);
   (4992, 5007); (5024, 5109); (5112, 5117); (5121, 5740); (5743, 5759); (5761, 5786);
   (5792, 5866); (5870, 5880); (5888, 5905); (5919, 5937); (5952, 5969); (5984, 5996);
   (5998, 6000); (6016, 6067); (6103, 6103); (6108, 6108); (6112, 6121); (6128, 6137);
   (6160, 6169); (6176, 6264); (6272, 6276); (6279, 6312); (6314, 6314); (6320, 6389);
   (6400, 6430); (6470, 6509); (6512, 6516); (6528, 6571); (6576, 6601); (6608, 6618);
   (6656, 6678); (6688, 6740); (6784, 6793); (6800, 6809); (6823, 6823); (6917, 6963);
   (6981, 6988); (6992, 7001); (7043, 7072); (7086, 7141); (7168, 7203); (7232, 7241);
   (7245, 7293); (7296, 7304); (7312, 7354); (7357, 7359); (7401, 7404); (7406, 7411);
   (7413, 7414); (7418, 7418); (7424, 7615); (7680, 7957); (7960, 7965); (7968, 8005);
   (8008, 8013); (8016, 8023); (8025, 8025); (8027, 8027); (8029, 8029); (8031, 8061);
   (8064, 8116); (8118, 8124); (8126, 8126); (8130, 8132); (8134, 8140); (8144, 8147);
   (8150, 8155); (8160, 8172); (8178, 8180); (8182, 8188); (8304, 8305); (8308, 8313);
   (8319, 8329); (8336, 8348); (8450, 8450); (8455, 8455); (8458, 8467); (8469, 8469);
   (8473, 8477); (8484, 8484); (8486, 8486); (8488, 8488); (8490, 8493); (8495, 8505);
   (8508, 8511); (8517, 8521); (8526, 8526); (8528, 8585); (9312, 9371); (9450, 9471);
   (10102, 10131); (11264, 11492); (11499, 11502); (11506, 11507); (11517, 11517);
   (11520, 11557); (11559, 11559); (11565, 11565); (11568, 11623); (11631, 11631);
   (11648, 11670); (11680, 11686); (11688, 11694); (11696, 11702); (11704, 11710);
   (11712, 11718); (11720, 11726); (11728, 11734); (11736, 11742); (11823, 11823);
   (12293, 12295); (12321, 12329); (12337, 12341); (12344, 12348); (12353, 12438);
   (12445, 12447); (12449, 12538); (12540, 12543); (12549, 12591); (12593, 12686);
   (12690, 12693); (12704, 12735); (12784, 12799); (12832, 12841); (12872, 12879);
   (12881, 12895); (12928, 12937); (12977, 12991); (13312, 19903); (19968, 42124);
   (42192, 42237); (42240, 42508); (42512, 42539); (42560, 42606); (42623, 42653);
   (42656, 42735); (42775, 42783); (42786, 42888); (42891, 42954); (42960, 42961);
   (42963, 42963); (42965, 42969); (42994, 43009); (43011, 43013); (43015, 43018);
   (43020, 43042); (43056, 43061); (43072, 43123); (43138, 43187); (43216, 43225);
   (43250, 43255); (43259, 43259); (43261, 43262); (43264, 43301); (43312, 43334);
   (43360, 43388); (43396, 43442); (43471, 43481); (43488, 43492); (43494, 43518);
   (43520, 43560); (43584, 43586); (43588, 43595); (43600, 43609); (43616, 43638);
   (43642, 43642); (43646, 43695); (43697, 43697); (43701, 43702); (43705, 43709);
   (43712, 43712); (43714, 43714); (43739, 43741); (43744, 43754); (43762, 43764);
   (43777, 43782); (43785, 43790); (43793, 43798); (43808, 43814); (43816, 43822);
   (43824, 43866); (43868, 43881); (43888, 44002); (44016, 44025); (44032, 55203);
   (55216, 55238); (55243, 55291); (63744, 64109); (64112, 64217); (64256, 64262);
   (64275, 64279); (64285, 64285); (64287, 64296); (64298, 64310); (64312, 64316);
   (64318, 64318); (64320, 64321); (64323, 64324); (64326, 64433); (64467, 64829);
   (64848, 64911); (64914, 64967); (65008, 65019); (65136, 65140); (65142, 65276);
   (65296, 65305); (65313, 65338); (65345, 65370); (65382, 65470); (65474, 65479);
   (65482, 65487); (65490, 65495); (65498, 65500); (65536, 65547); (65549, 65574);
   (65576, 65594); (65596, 65597); (65599, 65613); (65616, 65629); (65664, 65786);
   (65799, 65843); (65856, 65912); (65930, 65931); (66176, 66204); (66208, 66256);
   (66273, 66299); (66304, 66339); (66349, 66378); (66384, 66421); (66432, 66461);
   (66464, 66499); (66504, 66511); (66513, 66517); (66560, 66717); (66720, 66729);
   (66736, 66771); (66776, 66811); (66816, 66855); (66864, 66915); (66928, 66938);
   (66940, 66954); (66956, 66962); (66964, 66965); (66967, 66977); (66979, 66993);
   (66995, 67001); (67003, 67004); (67072, 67382); (67392, 67413); (67424, 67431);
   (67456, 67461); (67463, 67504); (67506, 67514); (67584, 67589); (67592, 67592);
   (67594, 67637); (67639, 67640); (67644, 67644); (67647, 67669); (67672, 67702);
   (67705, 67742); (67751, 67759); (67808, 67826); (67828, 67829); (67835, 67867);
   (67872, 67897); (67968, 68023); (68028, 68047); (68050, 68096); (68112, 68115);
   (68117, 68119); (68121, 68149); (68160, 68168); (68192, 68222); (68224, 68255);
   (68288, 68295); (68297, 68324); (68331, 68335); (68352, 68405); (68416, 68437);
   (68440, 68466); (68472, 68497); (68521, 68527); (68608, 68680); (68736, 68786);
   (68800, 68850); (68858, 68899); (68912, 68921); (69216, 69246); (69248, 69289);
   (69296, 69297); (69376, 69415); (69424, 69445); (69457, 69460); (69488, 69505);
   (69552, 69579); (69600, 69622); (69635, 69687); (69714, 69743); (69745, 69746);
   (69749, 69749); (69763, 69807); (69840, 69864); (69872, 69881); (69891, 69926);
   (69942, 69951); (69956, 69956); (69959, 69959); (69968, 70002); (70006, 70006);
   (70019, 70066); (70081, 70084); (70096, 70106); (70108, 70108); (70113, 70132);
   (70144, 70161); (70163, 70187); (70272, 70278); (70280, 70280); (70282, 70285);
   (70287, 70301); (70303, 70312); (70320, 70366); (70384, 70393); (70405, 70412);
   (70415, 70416); (70419, 70440); (70442, 70448); (70450, 70451); (70453, 70457);
   (70461, 70461); (70480, 70480); (70493, 70497); (70656, 70708); (70727, 70730);
   (70736, 70745); (70751, 70753); (70784, 70831); (70852, 70853); (70855, 70855);
   (70864, 70873); (71040, 71086); (71128, 71131); (71168, 71215); (71236, 71236);
   (71248, 71257); (71296, 71338); (71352, 71352); (71360, 71369); (71424, 71450);
   (71472, 71483); (71488, 71494); (71680, 71723); (71840, 71922); (71935, 71942);
   (71945, 71945); (71948, 71955); (71957, 71958); (71960, 71983); (71999, 71999);
   (72001, 72001); (72016, 72025); (72096, 72103); (72106, 72144); (72161, 72161);
   (72163, 72163); (72192, 72192); (72203, 72242); (72250, 72250); (72272, 72272);
   (72284, 72329); (72349, 72349); (72368, 72440); (72704, 72712); (72714, 72750);
   (72768, 72768); (72784, 72812); (72818, 72847); (72960, 72966); (72968, 72969);
   (72971, 73008); (73030, 73030); (73040, 73049); (73056, 73061); (73063, 73064);
   (73066, 73097); (73112, 73112); (73120, 73129); (73440, 73458); (73648, 73648);
   (73664, 73684); (73728, 74649); (74752, 74862); (74880, 75075); (77712, 77808);
   (77824, 78894); (82944, 83526); (92160, 92728); (92736, 92766); (92768, 92777);
   (92784, 92862); (92864, 92873); (92880, 92909); (92928, 92975); (92992, 92995);
   (93008, 93017); (93019, 93025); (93027, 93047); (93053, 93071); (93760, 93846);
   (93952, 94026); (94032, 94032); (94099, 94111); (94176, 94177); (94179, 94179);
   (94208, 100343); (100352, 101589); (101632, 101640); (110576, 110579); (110581, 110587);
   (110589, 110590); (110592, 110882); (110928, 110930); (110948, 110951);
   (110960, 111355); (113664, 113770); (113776, 113788); (113792, 113800);
   (113808, 113817); (119520, 119539); (119648, 119672); (119808, 119892);
   (119894, 119964); (119966, 119967); (119970, 119970); (119973, 119974);
   (119977, 119980); (119982, 119993); (119995, 119995); (119997, 120003);
   (120005, 120069); (120071, 120074); (120077, 120084); (120086, 120092);
   (120094, 120121); (120123, 120126); (120128, 120132); (120134, 120134);
   (120138, 120144); (120146, 120485); (120488, 120512); (120514, 120538);
   (120540, 120570); (120572, 120596); (120598, 120628); (120630, 120654);
   (120656, 120686); (120688, 120712); (120714, 120744); (120746, 120770);
   (120772, 120779); (120782, 120831); (122624, 122654); (123136, 123180);
   (123191, 123197); (123200, 123209); (123214, 123214); (123536, 123565);
   (123584, 123627); (123632, 123641); (124896, 124902); (124904, 124907);
   (124909, 124910); (124912, 124926); (124928, 125124); (125127, 125135);
   (125184, 125251); (125259, 125259); (125264, 125273); (126065, 126123);
   (126125, 126127); (126129, 126132); (126209, 126253); (126255, 126269);
   (126464, 126467); (126469, 126495); (126497, 126498); (126500, 126500);
   (126503, 126503); (126505, 126514); (126516, 126519); (126521, 126521);
   (126523, 126523); (126530, 126530); (126535, 126535); (126537, 126537);
   (126539, 126539); (126541, 126543); (126545, 126546); (126548, 126548);
   (126551, 126551); (126553, 126553); (126555, 126555); (126557, 126557);
   (126559, 126559); (126561, 126562); (126564, 126564); (126567, 126570);
   (126572, 126578); (126580, 126583); (126585, 126588); (126590, 126590);
   (126592, 126601); (126603, 126619); (126625, 126627); (126629, 126633);
   (126635, 126651); (127232, 127244); (130032, 130041); (131072, 173791);
   (173824, 177976); (177984, 178205); (178208, 183969); (183984, 191456);
   (194560, 195101); (196608, 201546)].

Definition in_ranges (ranges : list (Z * Z)) (point : Z) : bool :=
  existsb (fun '(first, last) => (first <=? point) && (point <=? last)) ranges.

(** The class [\w]. *)
Definition is_word (point : Z) : bool := in_ranges word_ranges point.

End PyStr.

(* ===================================================================== *)
(** * Binary64 arithmetic *)
(* ===================================================================== *)

Module PyFloat.

Definition prec : Z := 53.
Definition emax : Z := 1024.

Abbreviation float := spec_float.

Definition nan : float := S754_nan.
Definition inf (s : bool) : float := S754_infinity s.

(** [float(n)] for an integer [n]: round to nearest, ties to even. *)
Definition of_Z (n : Z) : float := binary_normalize prec emax n 0 false.

Definition mul (x y : float) : float := SFmul prec emax x y.
Definition sub (x y : float) : float := SFsub prec emax x y.
Definition div (x y : float) : float := SFdiv prec emax x y.
Definition neg (x : float) : float := SFopp x.

(** [x < y], [x <= y] and [x > y]; all false when an operand is NaN. *)
Definition ltb (x y : float) : bool := SFltb x y.
Definition leb (x y : float) : bool := SFleb x y.
Definition gtb (x y : float) : bool := SFltb y x.

(** The correctly rounded value of the decimal [(-1)^s * n * 10^k], which
    is what [float()] returns for a decimal literal. Overflow gives an
    infinity and underflow a signed zero. *)
Definition of_decimal (s : bool) (n : Z) (k : Z) : float :=
  match n with
  | Z0 => S754_zero s
  | Zneg _ => S754_nan
  | Zpos p =>
      match k with
      | Zneg e =>
          let '(q, e', l) := SFdiv_core_binary prec emax (Zpos p) 0 (10 ^ Zpos e) 0 in
          binary_round_aux prec emax s q e' l
      | _ => binary_round prec emax s (Z.to_pos (Zpos p * 10 ^ k)) 0
      end
  end.

(** Truth value of a float: [bool(x)] is [x != 0.0], so NaN is true. *)
Definition truthy (x : float) : bool :=
  match x with
  | S754_zero _ => false
  | _ => true
  end.

(** The integer part of [(-1)^s * m * 2^e], truncated toward zero. *)
Definition trunc (s : bool) (m : positive) (e : Z) : Z :=
  let a := match e with
           | Zneg d => Z.shiftr (Zpos m) (Zpos d)
           | _ => Z.shiftl (Zpos m) e
           end in
  if s then - a else a.

(** ** Printing: [format(x, '.<d>f')] *)

Definition round_half_even (num den : Z) : Z :=
  let q := num / den in
  match 2 * (num mod den) ?= den with
  | Lt => q
  | Gt => q + 1
  | Eq => if Z.even q then q else q + 1
  end.

(** [m * 2^e * 10^d] rounded to an integer, ties to even. *)
Definition scaled (d : Z) (m : positive) (e : Z) : Z :=
  match e with
  | Zneg k => round_half_even (Zpos m * 10 ^ d) (2 ^ Zpos k)
  | _ => Zpos m * 2 ^ e * 10 ^ d
  end.

Definition sign_str (s : bool) : string := if s then "-" else "".

(** [f"{x:.<d>f}"] for [d >= 1]. *)
Definition format_f (d : nat) (x : float) : string :=
  match x with
  | S754_nan => "nan"
  | S754_infinity s => sign_str s +:+ "inf"
  | S754_zero s => sign_str s +:+ "0." +:+ PyStr.zeros d
  | S754_finite s m e =>
      let n := scaled (Z.of_nat d) m e in
      let p := 10 ^ Z.of_nat d in
      sign_str s +:+ PyStr.of_int (n / p) +:+ "." +:+ PyStr.zfill d (n mod p)
  end.

(** ** Reading: [float(s)] for a string [s] *)

Fixpoint span_digits (s : string) : string * string :=
  match s with
  | String c r =>
      if PyStr.is_digit c then let '(d, t) := span_digits r in (String c d, t)
      else (EmptyString, s)
  | EmptyString => (EmptyString, EmptyString)
  end.

Fixpoint digits_value (acc : Z) (s : string) : Z :=
  match s with
  | EmptyString => acc
  | String c r => digits_value (10 * acc + (PyStr.code c - 48)) r
  end.

(** The rule for underscores: one is allowed only between two digits. It
    returns the string without them, or [None] where [float()] rejects. *)
Fixpoint drop_underscores (prev : ascii) (s : string) : option string :=
  match s with
  | EmptyString => if Ascii.eqb prev "_" then None else Some EmptyString
  | String c r =>
      if Ascii.eqb c "_" then
        if PyStr.is_digit prev then drop_underscores c r else None
      else if Ascii.eqb prev "_" && negb (PyStr.is_digit c) then None
      else option_map (String c) (drop_underscores c r)
  end.

Definition split_sign (s : string) : bool * string :=
  match s with
  | String "-" r => (true, r)
  | String "+" r => (false, r)
  | _ => (false, s)
  end.

(** The exponent part: empty, or [e] or [E], an optional sign and at least
    one digit, up to the end of the string. *)
Definition parse_exponent (s : string) : option Z :=
  match s with
  | EmptyString => Some 0
  | String c r =>
      if Ascii.eqb c "e" || Ascii.eqb c "E" then
        let '(sg, r1) := split_sign r in
        let '(ds, r2) := span_digits r1 in
        match ds, r2 with
        | String _ _, EmptyString =>
            Some (if sg then - digits_value 0 ds else digits_value 0 ds)
        | _, _ => None
        end
      else None
  end.

Definition parse_number (sg : bool) (s : string) : option float :=
  let '(ip, r1) := span_digits s in
  let '(fp, r2) :=
    match r1 with
    | String "." r => span_digits r
    | _ => (EmptyString, r1)
    end in
  match ip +:+ fp with
  | EmptyString => None
  | ds =>
      match parse_exponent r2 with
      | Some ex => Some (of_decimal sg (digits_value 0 ds) (ex - Z.of_nat (String.length fp)))
      | None => None
      end
  end.

(** [float(s)]; [None] where Python raises [ValueError]. *)
Definition of_string (s : string) : option float :=
  match drop_underscores "000" s with
  | None => None
  | Some s0 =>
      let s1 := PyStr.strip_by PyStr.is_cspace s0 in
      let '(sg, body) := split_sign s1 in
      let lb := PyStr.lower body in
      if String.eqb lb "inf" || String.eqb lb "infinity" then Some (inf sg)
      else if String.eqb lb "nan" then Some nan
      else parse_number sg body
  end.

(** ** Printing: [repr(x)], the shortest numeral that reads back as [x] *)

(** [compare] of [m * 2^e] with [10^j], exactly. *)
Definition cmp_pow10 (m : positive) (e j : Z) : comparison :=
  (Zpos m * 2 ^ Z.max e 0 * 10 ^ Z.max (- j) 0 ?= 2 ^ Z.max (- e) 0 * 10 ^ Z.max j 0).

(** The least [k] with [m * 2^e < 10^k], found upward from an estimate that
    is below it by at most four; the fuel is never used up. *)
Fixpoint decimal_point_from (fuel : nat) (m : positive) (e k : Z) : Z :=
  match fuel with
  | O => k
  | S f =>
      match cmp_pow10 m e k with
      | Lt => k
      | _ => decimal_point_from f m e (k + 1)
      end
  end.

Definition decimal_point (m : positive) (e : Z) : Z :=
  let bits := Z.log2 (Zpos m) + e in
  decimal_point_from 8 m e (bits * 30102 / 100000 - 2).

(** The integers [D] with [D * 10^t] inside the rounding interval of
    [m * 2^e], and the one next to the exact quotient. Lengths are counted in
    quarters of the last binary place. *)
Definition repr_candidates (m : positive) (e t : Z) : Z * Z * Z :=
  let below := if Pos.eqb m (2 ^ 52)%positive && negb (e =? -1074) then 1 else 2 in
  let closed := Z.even (Zpos m) in
  let un := 2 ^ Z.max e 0 * 10 ^ Z.max (- t) 0 in
  let ud := 4 * 2 ^ Z.max (- e) 0 * 10 ^ Z.max t 0 in
  let lo := (4 * Zpos m - below) * un in
  let hi := (4 * Zpos m + 2) * un in
  let dlo := if closed then (lo + ud - 1) / ud else lo / ud + 1 in
  let dhi := if closed then hi / ud else (hi - 1) / ud in
  (dlo, dhi, round_half_even (4 * Zpos m * un) ud).

(** The digits are tried by their number, from one on; seventeen always
    read back, so the fuel is never used up. *)
Fixpoint shortest_from (fuel : nat) (m : positive) (e k n : Z) : Z * Z :=
  match fuel with
  | O => (Zpos m, e)
  | S f =>
      let t := k - n in
      let '(dlo, dhi, dx) := repr_candidates m e t in
      if dlo <=? dhi then (Z.max dlo (Z.min dhi dx), t)
      else shortest_from f m e k (n + 1)
  end.

Fixpoint strip_zeros (fuel : nat) (d t : Z) : Z * Z :=
  match fuel with
  | O => (d, t)
  | S f => if (d mod 10 =? 0) && negb (d =? 0) then strip_zeros f (d / 10) (t + 1) else (d, t)
  end.

(** The digits of [repr] and the position of the decimal point after the
    first of them. *)
Definition shortest_digits (m : positive) (e : Z) : string * Z :=
  let '(d, t) := shortest_from 17 m e (decimal_point m e) 1 in
  let '(d', t') := strip_zeros 20 d t in
  let ds := PyStr.of_int d' in
  (ds, t' + Z.of_nat (String.length ds)).

Definition repr_finite (m : positive) (e : Z) : string :=
  let '(ds, decpt) := shortest_digits m e in
  let len := String.length ds in
  let point := Z.to_nat decpt in
  if (decpt <=? -4) || (16 <? decpt) then
    let ex := decpt - 1 in
    String.substring 0 1 ds
    +:+ (if Nat.ltb 1 len then "." +:+ String.substring 1 (len - 1) ds else "")
    +:+ "e" +:+ (if ex <? 0 then "-" else "+") +:+ PyStr.zfill 2 (Z.abs ex)
  else if decpt <=? 0 then "0." +:+ PyStr.zeros (Z.to_nat (- decpt)) +:+ ds
  else if Nat.leb len point then ds +:+ PyStr.zeros (point - len) +:+ ".0"
  else String.substring 0 point ds +:+ "." +:+ String.substring point (len - point) ds.

(** [repr(x)], which is also [str(x)]. *)
Definition repr (x : float) : string :=
  match x with
  | S754_nan => "nan"
  | S754_infinity s => sign_str s +:+ "inf"
  | S754_zero s => sign_str s +:+ "0.0"
  | S754_finite s m e => sign_str s +:+ repr_finite m e
  end.

End PyFloat.

#[global] Arguments PyFloat.of_Z : simpl never.
#[global] Arguments PyFloat.of_decimal : simpl never.
#[global] Arguments PyFloat.mul : simpl never.
#[global] Arguments PyFloat.div : simpl never.
#[global] Arguments PyFloat.sub : simpl never.
#[global] Arguments PyFloat.neg : simpl never.
#[global] Arguments PyFloat.format_f : simpl never.
#[global] Arguments PyFloat.repr : simpl never.
#[global] Arguments PyFloat.of_string : simpl never.

Import PyFloat.

(* ===================================================================== *)
(** * Values, exceptions and the application log *)
(* ===================================================================== *)

(** The [styles] dictionary built by [_prepare_data_for_dxf]; it always has
    these seven keys. *)
Record styles := {
  contour_color : Z;
  holes_color : Z;
  text_color : Z;
  include_dims : bool;
  char_height : float;
  dim_distance : float;
  text_insert_point : float * float
}.

(** What a raw record holds: a form field is a [str]; a spreadsheet cell is
    a [str] or, when it is empty, the float NaN. *)
Inductive scalar :=
| SNone
| SStr (s : string)
| SInt (n : Z)
| SFloat (x : float).

(** What the parameter dictionary holds: the values of the raw record, the
    floats written by the coercion, the list of text lines and the styles
    dictionary. *)
Inductive pyval :=
| Scalar (v : scalar)
| VLines (l : list string)
| VStyles (st : styles).

Coercion Scalar : scalar >-> pyval.

Abbreviation VNone := (Scalar SNone).
Abbreviation VStr s := (Scalar (SStr s)).
Abbreviation VInt n := (Scalar (SInt n)).
Abbreviation VFloat x := (Scalar (SFloat x)).

(** A raw record and a parameter dictionary. The first keeps the order of
    its keys, which the key translation depends on. *)
Abbreviation raw_record := (list (string * scalar)).
Abbreviation params := (gmap string pyval).

Inductive exn :=
| ValueError
| OverflowError
| TypeError
| AttributeError
| ZeroDivisionError
| KeyError (key : string).

Inductive result (A : Type) :=
| Ok (a : A)
| Raise (e : exn).

Arguments Ok {A} a.
Arguments Raise {A} e.

#[global] Instance result_ret : MRet result := @Ok.

#[global] Instance result_bind : MBind result :=
  fun A B f m => match m with Ok a => f a | Raise e => Raise e end.

(** Calls of [app.logger], in the order they are made. *)
Inductive log_entry :=
| WeightWarning (part_name : option pyval) (e : exn)
| DrawingError (e : exn)
| RowIgnored (line : Z) (error : string)
| DrawingFailed (part_name : option pyval) (message : string).

(** Code that may raise and may write to the process-wide log. *)
Definition App (A : Type) : Type := list log_entry -> result A * list log_entry.

#[global] Instance App_ret : MRet App := fun A a log => (Ok a, log).

#[global] Instance App_bind : MBind App :=
  fun A B f m log =>
    match m log with
    | (Ok a, log') => f a log'
    | (Raise e, log') => (Raise e, log')
    end.

Definition lift {A} (r : result A) : App A := fun log => (r, log).

Definition logger (entry : log_entry) : App unit := fun log => (Ok tt, (log ++ [entry])%list).

(** The outcome of a run started with an empty log. *)
Definition eval {A} (m : App A) : result A := (m []).1.

Definition logged {A} (m : App A) : list log_entry := (m []).2.

(** ** Built-ins on values *)

Definition quote : ascii := PyStr.chr 39.
Definition dquote : ascii := PyStr.chr 34.
Definition backslash : ascii := PyStr.chr 92.

Fixpoint contains (c : ascii) (s : string) : bool :=
  match s with
  | EmptyString => false
  | String d r => Ascii.eqb c d || contains c r
  end.

Definition hex_digit (n : Z) : ascii :=
  if n <? 10 then PyStr.chr (48 + n) else PyStr.chr (87 + n).

Definition escape_char (q c : ascii) : string :=
  let n := PyStr.code c in
  if Ascii.eqb c q || Ascii.eqb c backslash then String backslash (String c "")
  else if n =? 9 then String backslash "t"
  else if n =? 10 then String backslash "n"
  else if n =? 13 then String backslash "r"
  else if (n <? 32) || (n =? 127) then
    String backslash (String "x" (String (hex_digit (n / 16)) (String (hex_digit (n mod 16)) "")))
  else String c "".

Fixpoint escape (q : ascii) (s : string) : string :=
  match s with
  | EmptyString => EmptyString
  | String c r => escape_char q c +:+ escape q r
  end.

(** [repr(s)] for a string. *)
Definition repr_str (s : string) : string :=
  let q := if contains quote s && negb (contains dquote s) then dquote else quote in
  String q (escape q s) +:+ String q "".

Fixpoint join (sep : string) (l : list string) : string :=
  match l with
  | [] => ""
  | [s] => s
  | s :: r => s +:+ sep +:+ join sep r
  end.

Definition str_scalar (v : scalar) : string :=
  match v with
  | SNone => "None"
  | SStr s => s
  | SInt n => PyStr.of_int n
  | SFloat x => repr x
  end.

Definition repr_bool (b : bool) : string := if b then "True" else "False".

(** [str] of the styles dictionary, its numbers printed as floats. *)
Definition str_styles (st : styles) : string :=
  "{'contour_color': " +:+ PyStr.of_int (contour_color st)
  +:+ ", 'holes_color': " +:+ PyStr.of_int (holes_color st)
  +:+ ", 'text_color': " +:+ PyStr.of_int (text_color st)
  +:+ ", 'include_dims': " +:+ repr_bool (include_dims st)
  +:+ ", 'char_height': " +:+ repr (char_height st)
  +:+ ", 'dim_distance': " +:+ repr (dim_distance st)
  +:+ ", 'text_insert_point': (" +:+ repr (text_insert_point st).1
  +:+ ", " +:+ repr (text_insert_point st).2 +:+ ")}".

(** [str(v)]. *)
Definition py_str (v : pyval) : string :=
  match v with
  | Scalar v => str_scalar v
  | VLines l => "[" +:+ join ", " (map repr_str l) +:+ "]"
  | VStyles st => str_styles st
  end.

(** [str(d.get(k))] and [str(d.get(k, ''))]: an absent key gives [None],
    respectively the empty string. *)
Definition str_get (d : params) (k : string) : string :=
  match d !! k with
  | Some v => py_str v
  | None => "None"
  end.

Definition str_get_empty (d : params) (k : string) : string :=
  match d !! k with
  | Some v => py_str v
  | None => ""
  end.

(** Truth value of a value: [bool(v)]. *)
Definition py_bool (v : pyval) : bool :=
  match v with
  | Scalar SNone => false
  | Scalar (SStr s) => negb (String.eqb s "")
  | Scalar (SInt n) => negb (n =? 0)
  | Scalar (SFloat x) => truthy x
  | VLines l => match l with [] => false | _ => true end
  | VStyles _ => true
  end.

(** Truth value of [d.get(k)], where an absent key gives [None]. *)
Definition truthy_get (d : params) (k : string) : bool :=
  match d !! k with
  | Some v => py_bool v
  | None => false
  end.

(** [float(s)] on a string. *)
Definition py_float (s : string) : result float :=
  match of_string s with
  | Some x => Ok x
  | None => Raise ValueError
  end.

(** [int(x)] on a float: truncation toward zero. *)
Definition py_int (x : float) : result Z :=
  match x with
  | S754_nan => Raise ValueError
  | S754_infinity _ => Raise OverflowError
  | S754_zero _ => Ok 0
  | S754_finite s m e => Ok (trunc s m e)
  end.

(** The number held under a key that the coercion has rewritten, or
    [default] when the key is absent. The arithmetic of the source raises
    [TypeError] on what is not a number. *)
Definition get_number (d : params) (k : string) (default : float) : result float :=
  match d !! k with
  | None => Ok default
  | Some (Scalar (SFloat x)) => Ok x
  | Some (Scalar (SInt n)) => Ok (of_Z n)
  | Some _ => Raise TypeError
  end.

(** [max(a, b)] and [min(a, b)]: the first argument is kept unless the
    second is strictly greater, respectively smaller. *)
Definition py_max (a b : float) : float := if gtb b a then b else a.

Definition py_min (a b : float) : float := if ltb b a then b else a.

(* ===================================================================== *)
(** * Preparation of a record: [_prepare_data_for_dxf] *)
(* ===================================================================== *)

(** ** Step 1: translation of the keys *)

Definition COLUMN_MAPPING : gmap string string :=
  list_to_map [
    ("nome_arquivo", "part_name");
    ("custom_filename", "part_name");
    ("drawing_code", "part_name");
    ("forma", "shape");
    ("largura", "width");
    ("altura", "height");
    ("diametro", "diameter");
    ("base_(cateto_1)", "rt_base");
    ("altura_(cateto_2)", "rt_height");
    ("base", "triangle_base");
    ("habilitar_bloco", "include_text_info");
    ("cotas", "include_dims");
    ("qtd", "part_quantity");
    ("espessura", "material_thickness")
  ].

Definition clean_key (old_key : string) : string :=
  PyStr.replace_char " " "_" (PyStr.lower (PyStr.strip old_key)).

Definition internal_key (old_key : string) : string :=
  let k := clean_key old_key in default k (COLUMN_MAPPING !! k).

Definition translate_keys (raw_data : raw_record) : params :=
  foldl (fun (p : params) '(old_key, value) => <[internal_key old_key := Scalar value]> p)
        ∅ raw_data.

(** ** Step 3: coercion of the numeric fields *)

Definition to_float (value : pyval) (default : float) : result float :=
  match value with
  | Scalar SNone => Ok default
  | _ =>
      match py_float (PyStr.replace_char "," "." (py_str value)) with
      | Ok x => Ok x
      | Raise ValueError | Raise TypeError => Ok default
      | Raise e => Raise e
      end
  end.

Definition numeric_keys : list string :=
  ["width"; "height"; "diameter"; "material_thickness"; "material_density"; "part_quantity"].

Definition default_of (key : string) : float :=
  if String.eqb key "part_quantity" then of_Z 1 else of_Z 0.

Definition coerce_key (acc : result params) (key : string) : result params :=
  p ← acc;
  match p !! key with
  | Some v => x ← to_float v (default_of key); Ok (<[key := VFloat x]> p)
  | None => Ok p
  end.

Definition coerce_numbers (p : params) : result params :=
  foldl coerce_key (Ok p) numeric_keys.

(** ** Step 4: the styles *)

(** [str(v).lower() in ['true', 'on', '1', 'sim']]. *)
Definition truthy_tokens : list string := ["true"; "on"; "1"; "sim"].

Definition is_truthy_token (s : string) : bool :=
  existsb (String.eqb (PyStr.lower s)) truthy_tokens.

(** [int(to_float(params.get(key, fallback)))]. *)
Definition color_of (p : params) (key : string) (fallback : Z) : result Z :=
  x ← to_float (default (VInt fallback) (p !! key)) (of_Z 0);
  py_int x.

Definition calc_char_height (width height diameter : float) : float :=
  let max_dim := py_max (py_max width height) diameter in
  let max_dim := if gtb max_dim (of_Z 0) then max_dim else of_Z 200 in
  py_min (py_max (div max_dim (of_Z 25)) (of_Z 5)) (of_Z 35).

Definition calc_styles (p : params) : result styles :=
  width ← get_number p "width" (of_Z 0);
  height ← get_number p "height" (of_Z 0);
  diameter ← get_number p "diameter" (of_Z 0);
  let char_height := calc_char_height width height diameter in
  contour ← color_of p "contour_color" 7;
  holes ← color_of p "holes_color" 1;
  text ← color_of p "text_color" 2;
  Ok {| contour_color := contour;
        holes_color := holes;
        text_color := text;
        include_dims := is_truthy_token (str_get_empty p "include_dims");
        char_height := char_height;
        dim_distance := py_max (of_Z 15) (mul char_height (of_Z 3));
        text_insert_point := (of_Z 0, mul (neg char_height) (of_Z 2)) |}.

(** ** Step 5: the text block *)

(** [f"{n:02d}"]. *)
Definition format_02d (n : Z) : string :=
  if n <? 0 then PyStr.of_int n else PyStr.zfill 2 n.

Definition part_area (p : params) : result float :=
  match p !! "shape" with
  | Some (Scalar (SStr "rectangle")) =>
      width ← get_number p "width" (of_Z 0);
      height ← get_number p "height" (of_Z 0);
      Ok (mul width height)
  | _ => Ok (of_Z 0)
  end.

Definition unit_weight (area_mm2 thickness density : float) : float :=
  let volume_m3 := mul (div area_mm2 (of_Z 1000000)) (div thickness (of_Z 1000)) in
  mul volume_m3 density.

(** The body of the [try]. *)
Definition weight_lines (p : params) : result (list string) :=
  area_mm2 ← part_area p;
  if leb area_mm2 (of_Z 0) then Raise ValueError
  else
    thickness ← get_number p "material_thickness" (of_Z 0);
    density ← get_number p "material_density" (of_Z 7850);
    let unit_weight_kg := unit_weight area_mm2 thickness density in
    q ← get_number p "part_quantity" (of_Z 1);
    quantity ← py_int q;
    let total_weight_kg := mul unit_weight_kg (of_Z quantity) in
    Ok [ PyStr.upper (str_get_empty p "part_name");
         "Espessura: " +:+ format_f 2 thickness +:+ " mm  (Qtd: " +:+ format_02d quantity +:+ "x)";
         PyStr.replace_char "." "," ("Peso Unitario: " +:+ format_f 3 unit_weight_kg +:+ " Kg");
         PyStr.replace_char "." "," ("Peso Total: " +:+ format_f 3 total_weight_kg +:+ " Kg") ].

Definition error_lines (p : params) : list string :=
  [PyStr.upper (str_get_empty p "part_name"); "ERRO NO CALCULO DE PESO"].

Definition should_include_text (p : params) : bool :=
  is_truthy_token (str_get_empty p "include_text_info").

Definition text_block (p : params) : App params :=
  if should_include_text p then
    match weight_lines p with
    | Ok lines => mret (<["text_lines" := VLines lines]> p)
    | Raise e =>
        logger (WeightWarning (p !! "part_name") e);;
        mret (<["text_lines" := VLines (error_lines p)]> p)
    end
  else mret p.

(** ** The whole function *)

Inductive prepared :=
| Prepared (p : params)
| Rejected (error : string).

Definition _prepare_data_for_dxf (raw_data : raw_record) : App prepared :=
  let p := translate_keys raw_data in
  if negb (truthy_get p "part_name") || negb (truthy_get p "shape") then
    mret (Rejected "Dados insuficientes: 'part_name' ou 'shape' ausentes.")
  else
    p ← lift (coerce_numbers p);
    st ← lift (calc_styles p);
    p ← text_block (<["styles" := VStyles st]> p);
    mret (Prepared p).

(* ===================================================================== *)
(** * The drawing: [create_dxf_drawing] *)
(* ===================================================================== *)

(** ** The document of the drawing library

    Layers, dimension styles and the entities of the model space, in the
    order the program creates them. The entries every new document has
    (layer [0], style [Standard]) are left out. Of the library the model
    has what the program meets: the colour of a layer that is no valid
    colour index is replaced by the default, a dimension takes the style
    of a new document, and a dimension between two coinciding points
    cannot be built. Other faults inside the library are not part of the
    model. *)

Record layer := { layer_name : string; layer_color : Z }.

Record dimstyle := { dimstyle_name : string; dimtxt : float }.

Abbreviation point := (float * float)%type.

Inductive entity :=
| LWPolyline (points : list point) (close : bool) (on_layer : string)
| Text (text : string) (on_layer : string) (height : float) (insert : point)
| AlignedDim (p1 p2 : point) (distance : float) (on_layer : string) (style : string).

Record drawing := {
  layers : list layer;
  dimstyles : list dimstyle;
  modelspace : list entity
}.

(** [ezdxf.new('R2000')]. *)
Definition new_drawing : drawing := {| layers := []; dimstyles := []; modelspace := [] |}.

(** Code that works on the document and may raise. *)
Definition Draw (A : Type) : Type := drawing -> result A * drawing.

#[global] Instance Draw_ret : MRet Draw := fun A a d => (Ok a, d).

#[global] Instance Draw_bind : MBind Draw :=
  fun A B f m d =>
    match m d with
    | (Ok a, d') => f a d'
    | (Raise e, d') => (Raise e, d')
    end.

Definition draw_lift {A} (r : result A) : Draw A := fun d => (r, d).

Definition get_document : Draw drawing := fun d => (Ok d, d).

(** The colour index that a layer keeps: the library checks the [color]
    attribute of a layer, which has to be one of -255..255 and not 0, and
    stores its default 7 in the place of any other value. *)
Definition layer_color_stored (color : Z) : Z :=
  if (-256 <? color) && (color <? 256) && negb (color =? 0) then color else 7.

(** [doc.layers.new(name, dxfattribs={'color': color})]. *)
Definition layers_new (name : string) (color : Z) : Draw unit :=
  fun d => (Ok tt, {| layers := (layers d ++ [{| layer_name := name;
                                                 layer_color := layer_color_stored color |}])%list;
                      dimstyles := dimstyles d;
                      modelspace := modelspace d |}).

(** [doc.dimstyles.new(name, dxfattribs={'dimtxt': h})]. *)
Definition dimstyles_new (name : string) (h : float) : Draw unit :=
  fun d => (Ok tt, {| layers := layers d;
                      dimstyles := (dimstyles d ++ [{| dimstyle_name := name; dimtxt := h |}])%list;
                      modelspace := modelspace d |}).

(** A new entity of the model space; the result is its handle, through
    which the caller may still change it. *)
Definition add_entity (e : entity) : Draw nat :=
  fun d => (Ok (length (modelspace d)),
            {| layers := layers d;
               dimstyles := dimstyles d;
               modelspace := (modelspace d ++ [e])%list |}).

Definition is_zero (x : float) : bool :=
  match x with S754_zero _ => true | _ => false end.

(** The distance from [p1] to [p2] is zero. *)
Definition no_length (p1 p2 : point) : bool :=
  is_zero (sub p2.1 p1.1) && is_zero (sub p2.2 p1.2).

(** [msp.add_aligned_dim(p1=p1, p2=p2, distance=distance,
    dxfattribs={'layer': on_layer, 'dimstyle': style}).render()]. The
    library places the dimension line by the unit vector of [p2 - p1]: for
    two coinciding points it divides by zero. It takes the style of the
    dimension from an argument of its own, which the program leaves to its
    default, and not from [dxfattribs]; in a new document that default
    falls back to the style [Standard]. *)
Definition add_aligned_dim (p1 p2 : point) (distance : float) (on_layer style : string)
  : Draw unit :=
  if no_length p1 p2 then draw_lift (Raise ZeroDivisionError)
  else add_entity (AlignedDim p1 p2 distance on_layer "Standard");; mret tt.

Definition with_layer (name : string) (e : entity) : entity :=
  match e with
  | LWPolyline pts c _ => LWPolyline pts c name
  | Text t _ h i => Text t name h i
  | AlignedDim p1 p2 dist _ st => AlignedDim p1 p2 dist name st
  end.

(** [entity.dxf.layer = name], on the entity the handle names. *)
Definition set_layer (handle : nat) (name : string) : Draw unit :=
  fun d => (Ok tt, {| layers := layers d;
                      dimstyles := dimstyles d;
                      modelspace := alter (with_layer name) handle (modelspace d) |}).

(** ** Reading the parameters *)

(** [p[key]]. *)
Definition item (p : params) (key : string) : result pyval :=
  match p !! key with
  | Some v => Ok v
  | None => Raise (KeyError key)
  end.

(** A coordinate handed to the library has to be a number. *)
Definition coordinate (v : pyval) : result float :=
  match v with
  | Scalar (SFloat x) => Ok x
  | Scalar (SInt n) => Ok (of_Z n)
  | _ => Raise TypeError
  end.

(** [styles = params.get('styles', {})]: [None] stands for the empty
    dictionary; a value without [get] raises at the first use. *)
Definition get_styles (p : params) : result (option styles) :=
  match p !! "styles" with
  | None => Ok None
  | Some (VStyles st) => Ok (Some st)
  | Some _ => Raise AttributeError
  end.

(** [styles.get(key, fallback)]. *)
Definition styles_get {A} (st : option styles) (field : styles -> A) (fallback : A) : A :=
  match st with
  | Some st => field st
  | None => fallback
  end.

Fixpoint chars (s : string) : list string :=
  match s with
  | EmptyString => []
  | String c r => String c "" :: chars r
  end.

Definition styles_keys : list string :=
  ["contour_color"; "holes_color"; "text_color"; "include_dims"; "char_height";
   "dim_distance"; "text_insert_point"].

(** What a loop over the value yields. *)
Definition iterate (v : pyval) : result (list string) :=
  match v with
  | VLines l => Ok l
  | Scalar (SStr s) => Ok (chars s)
  | VStyles _ => Ok styles_keys
  | _ => Raise TypeError
  end.

(** ** The registry of shapes *)

Definition rectangle_contour (p : params) : Draw nat :=
  w ← draw_lift (item p "width");
  h ← draw_lift (item p "height");
  w ← draw_lift (coordinate w);
  h ← draw_lift (coordinate h);
  add_entity (LWPolyline [(of_Z 0, of_Z 0); (w, of_Z 0); (w, h); (of_Z 0, h)] true "0").

Definition shape_creators : gmap string (params -> Draw nat) :=
  {[ "rectangle" := rectangle_contour ]}.

Definition rectangle_dims (dim_distance : float) (on_layer style : string) (p : params)
  : Draw unit :=
  h ← draw_lift (item p "height");
  w ← draw_lift (item p "width");
  w ← draw_lift (coordinate w);
  h ← draw_lift (coordinate h);
  add_aligned_dim (of_Z 0, h) (w, h) dim_distance on_layer style;;
  add_aligned_dim (of_Z 0, of_Z 0) (of_Z 0, h) (neg dim_distance) on_layer style;;
  mret tt.

Definition dims_creators (dim_distance : float) (on_layer style : string)
  : gmap string (params -> Draw unit) :=
  {[ "rectangle" := rectangle_dims dim_distance on_layer style ]}.

(** [shape_type in registry] and [registry[shape_type]]: only a string can
    equal a key. *)
Definition lookup_shape {A} (registry : gmap string A) (shape_type : option pyval) : option A :=
  match shape_type with
  | Some (Scalar (SStr s)) => registry !! s
  | _ => None
  end.

(** ** The text lines *)

Fixpoint add_text_lines (lines : list string) (i : Z) (start_point : point)
    (char_height line_spacing : float) : Draw unit :=
  match lines with
  | [] => mret tt
  | line :: rest =>
      let y_pos := sub start_point.2 (mul (of_Z i) line_spacing) in
      add_entity (Text line "TEXTO" char_height (start_point.1, y_pos));;
      add_text_lines rest (i + 1) start_point char_height line_spacing
  end.

(** ** The file name: [re.sub(r'[^\w.-]+', '_', name)] *)

Definition allowed (point : Z) : bool :=
  PyStr.is_word point || (point =? 46) || (point =? 45).

(** A left-to-right scan of the characters; [in_run] says that the previous
    character was already part of a match, which has given its underscore. *)
Fixpoint re_sub_from (in_run : bool) (l : list (Z * string)) : string :=
  match l with
  | [] => EmptyString
  | (point, bytes) :: r =>
      if allowed point then bytes +:+ re_sub_from false r
      else if in_run then re_sub_from true r
      else String "_" (re_sub_from true r)
  end.

Definition re_sub (s : string) : string := re_sub_from false (PyStr.characters s).

Definition sanitized_filename (p : params) : string := re_sub (str_get p "part_name").

(** ** The function *)

Inductive drawn :=
| Drawn (content : drawing) (filename : string)
| NotDrawn (message : string).

Definition when (b : bool) (m : Draw unit) : Draw unit := if b then m else mret tt.

(** The body of the [try]. *)
Definition draw_body (p : params) : Draw drawn :=
  st ← draw_lift (get_styles p);
  layers_new "CONTORNO" (styles_get st contour_color 7);;
  layers_new "FUROS" (styles_get st holes_color 1);;
  when (truthy_get p "text_lines")
       (layers_new "TEXTO" (styles_get st text_color 2));;
  when (styles_get st include_dims false)
       (layers_new "COTAS" (styles_get st text_color 2);;
        dimstyles_new "NOROACO_DIMSTYLE" (styles_get st char_height (of_Z 5)));;
  let shape_type := p !! "shape" in
  match lookup_shape shape_creators shape_type with
  | None => mret (NotDrawn ("Forma '" +:+ str_get p "shape" +:+ "' desconhecida."))
  | Some creator =>
      contour ← creator p;
      set_layer contour "CONTORNO";;
      when (truthy_get p "text_lines")
           (let start_point := styles_get st text_insert_point (of_Z 0, of_Z (-20)) in
            let char_height := styles_get st char_height (of_Z 5) in
            let line_spacing := mul char_height (of_decimal false 15 (-1)) in
            v ← draw_lift (item p "text_lines");
            lines ← draw_lift (iterate v);
            add_text_lines lines 0 start_point char_height line_spacing);;
      when (styles_get st include_dims false)
           (let dim_distance := styles_get st dim_distance (of_Z 20) in
            match lookup_shape (dims_creators dim_distance "COTAS" "NOROACO_DIMSTYLE") shape_type with
            | Some creator => creator p
            | None => mret tt
            end);;
      content ← get_document;
      mret (Drawn content (sanitized_filename p +:+ ".dxf"))
  end.

Definition missing_parameter (p : params) (key : string) : string :=
  "Parâmetro obrigatório ausente para a forma '" +:+ str_get p "shape" +:+ "': "
  +:+ repr_str key.

(** The body with its two handlers. The working document is kept next to
    the result, to state what had been built when the function returned. *)
Definition draw_with_document (p : params) : App (drawn * drawing) :=
  match draw_body p new_drawing with
  | (Ok r, d) => mret (r, d)
  | (Raise (KeyError key), d) => mret (NotDrawn (missing_parameter p key), d)
  | (Raise e, d) =>
      logger (DrawingError e);;
      mret (NotDrawn "Erro interno de desenho.", d)
  end.

Definition create_dxf_drawing (p : params) : App drawn :=
  r ← draw_with_document p; mret r.1.

(* ===================================================================== *)
(** * The batch: the loop of [generate_dxf_batch] *)
(* ===================================================================== *)

(** [d[key] = value] on a dictionary that keeps the order of its keys. *)
Fixpoint dict_set (d : raw_record) (key : string) (value : scalar) : raw_record :=
  match d with
  | [] => [(key, value)]
  | (k, v) :: r => if String.eqb k key then (k, value) :: r else (k, v) :: dict_set r key value
  end.

(** [d.update(other)]. *)
Definition dict_update (d other : raw_record) : raw_record :=
  foldl (fun d '(k, v) => dict_set d k v) d other.

Abbreviation archive := (list (string * drawing)).

(** One turn of the loop; [zf] is the archive written so far. *)
Definition batch_row (form : raw_record) (zf : archive) (index : Z) (row : raw_record)
  : App archive :=
  let raw_data := dict_update row form in
  r ← _prepare_data_for_dxf raw_data;
  match r with
  | Rejected error =>
      logger (RowIgnored (index + 2) error);;
      mret zf
  | Prepared prepared_data =>
      r ← create_dxf_drawing prepared_data;
      match r with
      | NotDrawn message =>
          logger (DrawingFailed (prepared_data !! "part_name") message);;
          mret zf
      | Drawn dxf_content filename => mret (zf ++ [(filename, dxf_content)])%list
      end
  end.

Fixpoint batch_loop (form : raw_record) (zf : archive) (rows : list (Z * raw_record))
  : App archive :=
  match rows with
  | [] => mret zf
  | (index, row) :: rest =>
      zf ← batch_row form zf index row;
      batch_loop form zf rest
  end.

(** The rows of the data frame with their index, and the fields of the
    form, which are applied on top of every row. *)
Definition generate_dxf_batch (rows : list (Z * raw_record)) (form : raw_record) : App archive :=
  batch_loop form [] rows.

(* ===================================================================== *)
(** * The single record: [generate_dxf_from_form] *)
(* ===================================================================== *)

(** What a view returns: a text with its status code, or a file that is
    sent as an attachment under a name. *)
Inductive response :=
| Status (code : Z) (body : string)
| SendFile (download_name : string) (dxf_content : drawing).

(** [form] is [request.form.to_dict(flat=True)]: the fields of the form,
    each with its first value. *)
Definition generate_dxf_from_form (form : raw_record) : App response :=
  let raw_data := form in
  r ← _prepare_data_for_dxf raw_data;
  match r with
  | Rejected error => mret (Status 400 ("Erro nos dados enviados: " +:+ error))
  | Prepared prepared_data =>
      r ← create_dxf_drawing prepared_data;
      match r with
      | NotDrawn filename => mret (Status 500 ("Erro ao gerar o desenho: " +:+ filename))
      | Drawn dxf_content filename => mret (SendFile filename dxf_content)
      end
  end.

(* ===================================================================== *)
(** * Definitions for the statements *)
(* ===================================================================== *)

(** ** Floats *)

Definition is_nan (x : float) : bool :=
  match x with S754_nan => true | _ => false end.



(** The greater of two numbers. A NaN is no number: next to a number, the
    number is the greater. *)
Definition greater (a b : float) : float :=
  if ltb a b then b else if ltb b a then a else if is_nan a then b else a.

Definition is_positive (x : float) : bool := gtb x (of_Z 0).

(** The dimension that scales the text, as the specification words it: the
    greatest of the three, with 200 in its place when none of them is
    positive. *)
Definition max_dim (width height diameter : float) : float :=
  if is_positive width || is_positive height || is_positive diameter
  then greater (greater width height) diameter
  else of_Z 200.

(** ** Prepared records *)

(** The float that [to_float] gives. *)
Definition coerced (v : pyval) (default : float) : float :=
  match to_float v default with
  | Ok x => x
  | Raise _ => default
  end.

Definition coerce_value (key : string) (v : pyval) : pyval :=
  VFloat (coerced v (default_of key)).

(** A dictionary whose numeric fields hold floats. *)
Definition coerced_fields (p : params) : Prop :=
  forall k, k ∈ numeric_keys -> p !! k = None \/ exists x, p !! k = Some (VFloat x).

(** The number under a key, as the later steps read it. *)
Definition number (p : params) (k : string) (default : float) : float :=
  match p !! k with
  | Some (Scalar (SFloat x)) => x
  | Some (Scalar (SInt n)) => of_Z n
  | _ => default
  end.

(** Two dictionaries that differ at most in [styles] and [text_lines]. *)
Definition same_fields (p q : params) : Prop :=
  forall k, k <> "styles" -> k <> "text_lines" -> p !! k = q !! k.

(** The text lines that step 5 writes when the option is on. *)
Definition lines_of (p : params) : list string :=
  match weight_lines p with
  | Ok lines => lines
  | Raise _ => error_lines p
  end.

(** ** Drawings *)

Definition is_lwpolyline (e : entity) : bool :=
  match e with LWPolyline _ _ _ => true | _ => false end.

Definition polylines (d : drawing) : list entity := List.filter is_lwpolyline (modelspace d).

Definition text_of (e : entity) : option string :=
  match e with Text t _ _ _ => Some t | _ => None end.

(** The strings of the text entities, in the order of the model space. *)
Definition texts (d : drawing) : list string := omap text_of (modelspace d).

(** The contour of a rectangle as the specification gives it. *)
Definition rectangle_polyline (w h : float) : entity :=
  LWPolyline [(of_Z 0, of_Z 0); (w, of_Z 0); (w, h); (of_Z 0, h)] true "CONTORNO".

(** The layers the function creates before it looks the shape up. *)
Definition first_layers (p : params) (st : styles) : list layer :=
  [ {| layer_name := "CONTORNO"; layer_color := layer_color_stored (contour_color st) |};
    {| layer_name := "FUROS"; layer_color := layer_color_stored (holes_color st) |} ]
  ++ (if truthy_get p "text_lines"
      then [ {| layer_name := "TEXTO"; layer_color := layer_color_stored (text_color st) |} ]
      else [])
  ++ (if include_dims st
      then [ {| layer_name := "COTAS"; layer_color := layer_color_stored (text_color st) |} ]
      else []).

Definition first_dimstyles (st : styles) : list dimstyle :=
  if include_dims st
  then [ {| dimstyle_name := "NOROACO_DIMSTYLE"; dimtxt := char_height st |} ] else [].

Fixpoint text_entities (lines : list string) (i : Z) (start_point : point)
    (char_height line_spacing : float) : list entity :=
  match lines with
  | [] => []
  | line :: rest =>
      Text line "TEXTO" char_height
           (start_point.1, sub start_point.2 (mul (of_Z i) line_spacing))
      :: text_entities rest (i + 1) start_point char_height line_spacing
  end.

Definition dim_entities (st : styles) (w h : float) : list entity :=
  if include_dims st then
    [ AlignedDim (of_Z 0, h) (w, h) (dim_distance st) "COTAS" "Standard";
      AlignedDim (of_Z 0, of_Z 0) (of_Z 0, h) (neg (dim_distance st)) "COTAS" "Standard" ]
  else [].

(** A side of the rectangle has no length, so that one of its two
    dimensions cannot be built. *)
Definition dims_fail (w h : float) : bool :=
  no_length (of_Z 0, h) (w, h) || no_length (of_Z 0, of_Z 0) (of_Z 0, h).

Definition is_finite (x : float) : bool :=
  match x with S754_zero _ | S754_finite _ _ _ => true | _ => false end.

(** The same for a rectangle of width [w] and height [h]: the width is
    zero, which leaves the top edge without length, or the height is zero,
    which does so to the left edge. *)
Definition zero_side (w h : float) : bool :=
  (is_zero w && is_finite h) || is_zero h.

(** The dimensions that had been built when one of the two failed. *)
Definition dims_before_failure (st : styles) (w h : float) : list entity :=
  if no_length (of_Z 0, h) (w, h) then []
  else [ AlignedDim (of_Z 0, h) (w, h) (dim_distance st) "COTAS" "Standard" ].

(** The lines to draw: none when [text_lines] is absent or false. *)
Definition lines_to_draw (p : params) : result (list string) :=
  match p !! "text_lines" with
  | Some v => if py_bool v then iterate v else Ok []
  | None => Ok []
  end.

Definition with_modelspace (d : drawing) (es : list entity) : drawing :=
  {| layers := layers d; dimstyles := dimstyles d; modelspace := es |}.

(** The working document of a rectangle and what the body returns. *)
Definition rectangle_document (p : params) (st : styles) (w h : float)
    (lines : list string) : drawing :=
  {| layers := first_layers p st;
     dimstyles := first_dimstyles st;
     modelspace :=
       rectangle_polyline w h
       :: text_entities lines 0 (text_insert_point st) (char_height st)
            (mul (char_height st) (of_decimal false 15 (-1)))
       ++ dim_entities st w h |}.

(** The working document of a rectangle one of whose dimensions could not
    be built. *)
Definition failed_document (p : params) (st : styles) (w h : float)
    (lines : list string) : drawing :=
  {| layers := first_layers p st;
     dimstyles := first_dimstyles st;
     modelspace :=
       rectangle_polyline w h
       :: text_entities lines 0 (text_insert_point st) (char_height st)
            (mul (char_height st) (of_decimal false 15 (-1)))
       ++ dims_before_failure st w h |}.

(** ** File names *)

(** The set the specification names: [A-Z], [a-z], [0-9], [.], [_], [-]. *)
Definition in_filename_set (point : Z) : bool :=
  ((65 <=? point) && (point <=? 90)) || ((97 <=? point) && (point <=? 122))
  || ((48 <=? point) && (point <=? 57))
  || (point =? 46) || (point =? 95) || (point =? 45).

Fixpoint concat_strings (l : list string) : string :=
  match l with
  | [] => ""
  | s :: r => s +:+ concat_strings r
  end.

(** The substitution as the specification words it: every character
    outside the set becomes an underscore. *)
Definition replace_each (s : string) : string :=
  concat_strings (map (fun '(point, bytes) => if in_filename_set point then bytes else "_")
                      (PyStr.characters s)).

(** Every character of the string passes the test. *)
Definition all_characters (test : Z -> bool) (s : string) : bool :=
  forallb (fun '(point, _) => test point) (PyStr.characters s).

(** The bytes of a list of characters. *)
Definition spelling (l : list (Z * string)) : string := concat_strings (map snd l).

(** The maximal runs of a list of characters, each with the side of
    [allowed] its characters are on. *)
Fixpoint runs (l : list (Z * string)) : list (bool * list (Z * string)) :=
  match l with
  | [] => []
  | ch :: r =>
      match runs r with
      | (b, t) :: rest =>
          if Bool.eqb (allowed ch.1) b then (b, ch :: t) :: rest
          else (allowed ch.1, [ch]) :: (b, t) :: rest
      | [] => [(allowed ch.1, [ch])]
      end
  end.

Definition render (l : list (bool * list (Z * string))) : string :=
  concat_strings (map (fun '(b, t) => if b : bool then spelling t else "_") l).

(** Each maximal run of characters that are not allowed becomes one
    underscore; the other runs stay. *)
Definition replace_runs (s : string) : string := render (runs (PyStr.characters s)).

(** Neighbouring runs are on different sides, so every run is maximal. *)
Fixpoint alternating {A} (l : list (bool * A)) : Prop :=
  match l with
  | (b, _) :: (((b', _) :: _) as r) => b <> b' /\ alternating r
  | _ => True
  end.

Definition after_match {A} (l : list (bool * A)) : list (bool * A) :=
  match l with
  | (false, _) :: rest => rest
  | _ => l
  end.

(** The characters of the result of the scan: those that are kept, and one
    underscore for each run. *)
Fixpoint kept (in_run : bool) (l : list (Z * string)) : list (Z * string) :=
  match l with
  | [] => []
  | (point, bytes) :: r =>
      if allowed point then (point, bytes) :: kept false r
      else if in_run then kept true r
      else (95, "_") :: kept true r
  end.

(** A character that stands by its bytes alone, whatever follows them. *)
Definition spelled (ch : Z * string) : Prop :=
  ch.2 <> "" /\ (allowed ch.1 = true ->
                 forall t, PyStr.characters (ch.2 +:+ t) = ch :: PyStr.characters t).

(** ** Example records *)

(** The prepared record of a raw record that passes the preparation. *)
Definition prepared_of (raw : raw_record) : params :=
  match eval (_prepare_data_for_dxf raw) with
  | Ok (Prepared p) => p
  | _ => ∅
  end.

(** The rectangle of the specification: 100 by 50. *)
Definition example_P1 : raw_record :=
  [("part_name", SStr "P1"); ("shape", SStr "rectangle");
   ("width", SInt 100); ("height", SInt 50)].



Definition example_options : raw_record :=
  [("part_name", SStr "P1"); ("shape", SStr "rectangle");
   ("width", SStr "100"); ("height", SStr "50");
   ("Cotas", SStr "Sim"); ("habilitar_bloco", SStr "ON")].

Definition example_comma : raw_record :=
  [("part_name", SStr "P1"); ("shape", SStr "rectangle");
   ("Largura", SStr "10,5"); ("altura", SStr ""); ("qtd", SStr "abc")].

(** A plate of 1000 by 1000 by 10 without a density of its own. *)
Definition example_no_density : raw_record :=
  [("part_name", SStr "P1"); ("shape", SStr "rectangle");
   ("width", SStr "1000"); ("height", SStr "1000");
   ("material_thickness", SStr "10"); ("include_text_info", SStr "true")].




Definition example_zero_width : raw_record :=
  [("part_name", SStr "p1"); ("shape", SStr "rectangle");
   ("width", SStr "0"); ("height", SStr "50"); ("include_text_info", SStr "on")].

(** The same rectangle with its dimensions asked for. *)
Definition example_zero_width_dims : raw_record :=
  [("part_name", SStr "p1"); ("shape", SStr "rectangle");
   ("width", SStr "0"); ("height", SStr "50"); ("include_text_info", SStr "on");
   ("cotas", SStr "on")].

Definition example_part_2024 : raw_record :=
  [("part_name", SStr "Part #1/2024"); ("shape", SStr "rectangle");
   ("width", SStr "100"); ("height", SStr "50")].

(** A name with a letter and a sign outside ASCII. *)
Definition example_part_45 : raw_record :=
  [("part_name", SStr "Peça 45°"); ("shape", SStr "rectangle");
   ("width", SInt 100); ("height", SInt 50)].

Definition example_circle : raw_record :=
  [("part_name", SStr "P1"); ("shape", SStr "circle"); ("diameter", SStr "80")].

(** Rows of a spreadsheet with the column names of the form. *)
Definition good_row (name : string) : raw_record :=
  [("nome_arquivo", SStr name); ("forma", SStr "rectangle");
   ("largura", SStr "100"); ("altura", SStr "50")].

Definition row_without_shape (name : string) : raw_record :=
  [("nome_arquivo", SStr name); ("largura", SStr "100"); ("altura", SStr "50")].

Definition row_infinite_color (name : string) : raw_record :=
  [("nome_arquivo", SStr name); ("forma", SStr "rectangle");
   ("largura", SStr "100"); ("altura", SStr "50"); ("contour_color", SStr "inf")].

Definition batch_of_five_rows : list (Z * raw_record) :=
  [(0, good_row "A"); (1, row_without_shape "B"); (2, good_row "C");
   (3, row_without_shape "D"); (4, good_row "E")].

Definition batch_with_infinite_color : list (Z * raw_record) :=
  [(0, good_row "A"); (1, row_infinite_color "B"); (2, good_row "C")].

(** ** Keys and dictionaries *)

(** The value of the last entry of a record whose key passes [test]. *)
Fixpoint last_where (test : string -> bool) (d : raw_record) : option scalar :=
  match d with
  | [] => None
  | (k, v) :: r =>
      match last_where test r with
      | Some w => Some w
      | None => if test k then Some v else None
      end
  end.

(** [d.get(key)] on a dictionary that keeps the order of its keys. *)
Fixpoint dict_get (d : raw_record) (key : string) : option scalar :=
  match d with
  | [] => None
  | (k, v) :: r => if String.eqb k key then Some v else dict_get r key
  end.

Definition dict_keys (d : raw_record) : list string := map fst d.

(** The record with its keys rewritten by [f]. *)
Definition rename (f : string -> string) (d : raw_record) : raw_record :=
  map (fun '(k, v) => (f k, v)) d.

(** The key of the cleaning and the alias translation, as one function on
    characters after the strip. *)
Definition clean_char (c : ascii) : ascii :=
  let c := PyStr.lower_char c in if Ascii.eqb c " " then "_"%char else c.

(** A string without white space at its ends. *)
Definition head_not_space (sp : ascii -> bool) (s : string) : Prop :=
  match s with
  | EmptyString => True
  | String c _ => sp c = false
  end.

(** ** The outcome of the preparation *)

(** The record passes the validation of step 2. *)
Definition valid (raw : raw_record) : bool :=
  truthy_get (translate_keys raw) "part_name" && truthy_get (translate_keys raw) "shape".

(** [float(str(v).replace(',', '.'))] returns for the value, which is not
    [None]. *)
Definition reads_as_number (v : pyval) : bool :=
  match v with
  | Scalar SNone => false
  | _ =>
      match py_float (PyStr.replace_char "," "." (py_str v)) with
      | Ok _ => true
      | Raise _ => false
      end
  end.

(** [int(to_float(d.get(key, fallback)))] by what the record holds. *)
Definition color_field (d : params) (key : string) (fallback : Z) : result Z :=
  match d !! key with
  | None => Ok fallback
  | Some v => if reads_as_number v then py_int (coerced v (of_Z 0)) else Ok 0
  end.

(** The three colours of the styles, in the order the source reads them. *)
Definition colors (p : params) : result (Z * Z * Z) :=
  contour ← color_of p "contour_color" 7;
  holes ← color_of p "holes_color" 1;
  text ← color_of p "text_color" 2;
  Ok (contour, holes, text).

Definition color_keys : list string := ["contour_color"; "holes_color"; "text_color"].

(** No entry of the record translates to a colour key. *)
Definition no_colors (raw : raw_record) : bool :=
  forallb (fun k => match translate_keys raw !! k with None => true | Some _ => false end)
          color_keys.

(** ** The log *)

(** A computation that only appends to the log and whose result does not
    depend on what the log already holds. *)
Definition appends {A} (m : App A) : Prop :=
  forall log, m log = (eval m, (log ++ logged m)%list).

(** The entries that report a row of the batch that gave no file. *)
Definition is_skip (entry : log_entry) : bool :=
  match entry with
  | RowIgnored _ _ | DrawingFailed _ _ => true
  | _ => false
  end.

(** ** Entities *)

Definition is_text (e : entity) : bool :=
  match e with Text _ _ _ _ => true | _ => false end.

Definition is_dim (e : entity) : bool :=
  match e with AlignedDim _ _ _ _ _ => true | _ => false end.

Definition text_items (d : drawing) : list entity := List.filter is_text (modelspace d).

Definition dimensions (d : drawing) : list entity := List.filter is_dim (modelspace d).

(** ** The outcomes of the drawing *)

(** The shape is absent or a value that can be looked up in a dictionary:
    [None], a string or a number. *)
Definition hashable_shape (p : params) : bool :=
  match p !! "shape" with
  | None | Some (Scalar _) => true
  | Some _ => false
  end.

(** The outcomes of the function on a prepared record. *)
Inductive drawing_case (p : params) (st : styles) : Prop :=
| UnknownShape :
    p !! "shape" <> Some (VStr "rectangle") ->
    eval (create_dxf_drawing p)
    = Ok (NotDrawn ("Forma '" +:+ str_get p "shape" +:+ "' desconhecida.")) ->
    logged (create_dxf_drawing p) = [] ->
    drawing_case p st
| MissingWidth :
    p !! "shape" = Some (VStr "rectangle") ->
    p !! "width" = None ->
    eval (create_dxf_drawing p) = Ok (NotDrawn (missing_parameter p "width")) ->
    logged (create_dxf_drawing p) = [] ->
    drawing_case p st
| MissingHeight w :
    p !! "shape" = Some (VStr "rectangle") ->
    p !! "width" = Some (VFloat w) ->
    p !! "height" = None ->
    eval (create_dxf_drawing p) = Ok (NotDrawn (missing_parameter p "height")) ->
    logged (create_dxf_drawing p) = [] ->
    drawing_case p st
| BadTextLines w h :
    p !! "shape" = Some (VStr "rectangle") ->
    p !! "width" = Some (VFloat w) ->
    p !! "height" = Some (VFloat h) ->
    lines_to_draw p = Raise TypeError ->
    eval (create_dxf_drawing p) = Ok (NotDrawn "Erro interno de desenho.") ->
    logged (create_dxf_drawing p) = [DrawingError TypeError] ->
    drawing_case p st
| DimensionFails w h lines :
    p !! "shape" = Some (VStr "rectangle") ->
    p !! "width" = Some (VFloat w) ->
    p !! "height" = Some (VFloat h) ->
    lines_to_draw p = Ok lines ->
    include_dims st = true ->
    dims_fail w h = true ->
    eval (create_dxf_drawing p) = Ok (NotDrawn "Erro interno de desenho.") ->
    logged (create_dxf_drawing p) = [DrawingError ZeroDivisionError] ->
    drawing_case p st
| Rectangle w h lines :
    p !! "shape" = Some (VStr "rectangle") ->
    p !! "width" = Some (VFloat w) ->
    p !! "height" = Some (VFloat h) ->
    lines_to_draw p = Ok lines ->
    include_dims st && dims_fail w h = false ->
    eval (create_dxf_drawing p)
    = Ok (Drawn (rectangle_document p st w h lines) (sanitized_filename p +:+ ".dxf")) ->
    logged (create_dxf_drawing p) = [] ->
    drawing_case p st.

(** ** The batch, row by row *)

(** What one row gives, on its own: a file, nothing, or an exception. *)
Definition row_file (form row : raw_record) : result (option (string * drawing)) :=
  match eval (_prepare_data_for_dxf (dict_update row form)) with
  | Raise e => Raise e
  | Ok (Rejected _) => Ok None
  | Ok (Prepared p) =>
      match eval (create_dxf_drawing p) with
      | Raise e => Raise e
      | Ok (NotDrawn _) => Ok None
      | Ok (Drawn dxf_content filename) => Ok (Some (filename, dxf_content))
      end
  end.

(** The files of the rows in their order; the first exception ends it. *)
Fixpoint collect {A} (l : list (result (option A))) : result (list A) :=
  match l with
  | [] => Ok []
  | Raise e :: _ => Raise e
  | Ok o :: rest =>
      match collect rest with
      | Raise e => Raise e
      | Ok files => Ok (match o with Some a => a :: files | None => files end)
      end
  end.

(** ** More example records *)

(** The styles of the prepared record of a raw record. *)
Definition styles_of (raw : raw_record) : styles :=
  match prepared_of raw !! "styles" with
  | Some (VStyles st) => st
  | _ => {| contour_color := 0; holes_color := 0; text_color := 0; include_dims := false;
            char_height := nan; dim_distance := nan; text_insert_point := (nan, nan) |}
  end.

(** The document and the file name that the drawing of the prepared record
    gives. *)
Definition document_of (raw : raw_record) : drawing :=
  match eval (create_dxf_drawing (prepared_of raw)) with
  | Ok (Drawn content _) => content
  | _ => new_drawing
  end.

Definition filename_of (raw : raw_record) : string :=
  match eval (create_dxf_drawing (prepared_of raw)) with
  | Ok (Drawn _ filename) => filename
  | _ => ""
  end.

Definition example_headers : raw_record :=
  [("  Nome Arquivo ", SStr "P1"); ("FORMA", SStr "rectangle");
   ("Largura", SStr "100"); ("width", SStr "80"); ("Altura", SStr "50");
   ("Obs", SStr "urgente")].

Definition example_dims_and_text : raw_record :=
  [("part_name", SStr "P1"); ("shape", SStr "rectangle");
   ("width", SStr "1000"); ("height", SStr "500");
   ("material_thickness", SStr "10"); ("cotas", SStr "sim");
   ("habilitar_bloco", SStr "on")].

Definition example_no_height : raw_record :=
  [("part_name", SStr "P1"); ("shape", SStr "rectangle"); ("width", SStr "50")].

Definition example_text_field : raw_record :=
  [("part_name", SStr "P1"); ("shape", SStr "rectangle");
   ("width", SStr "100"); ("height", SStr "50"); ("text_lines", SStr "AB")].

Definition example_number_as_text : raw_record :=
  [("part_name", SStr "P1"); ("shape", SStr "rectangle");
   ("width", SStr "100"); ("height", SStr "50"); ("text_lines", SFloat nan)].

Definition example_bad_color : raw_record :=
  [("part_name", SStr "P1"); ("shape", SStr "rectangle");
   ("width", SStr "100"); ("height", SStr "50"); ("contour_color", SStr "red")].

Definition example_form : raw_record :=
  [("espessura", SStr "10"); ("largura", SStr "200")].

(* ===================================================================== *)
(** * Facts on binary64 *)
(* ===================================================================== *)






(** Rounding keeps a mantissa that is not negative so. *)












(** ** The clamp of the character height *)





(** ** The greatest dimension *)












(* ===================================================================== *)
(** * Facts on the preparation *)
(* ===================================================================== *)

Ltac unfold_monads :=
  unfold eval, logged, mbind, mret, App_bind, App_ret, result_bind, result_ret,
    Draw_bind, Draw_ret, lift, draw_lift, logger in *.

Lemma to_float_ok v d : to_float v d = Ok (coerced v d).
Proof.
  unfold coerced, to_float. destruct v as [[]| |]; try reflexivity;
    unfold py_float; destruct (of_string _); reflexivity.
Qed.

Lemma coerce_key_ok (p : params) key :
  coerce_key (Ok p) key
  = Ok (match p !! key with Some v => <[key := coerce_value key v]> p | None => p end).
Proof.
  unfold coerce_key. unfold_monads. destruct (p !! key) as [v|]; [|reflexivity].
  rewrite to_float_ok. reflexivity.
Qed.

Lemma coerce_fold keys :
  NoDup keys -> forall p : params,
  exists p1 : params, foldl coerce_key (Ok p) keys = Ok p1
    /\ forall k, p1 !! k = if decide (k ∈ keys) then coerce_value k <$> p !! k else p !! k.
Proof.
  induction 1 as [|key keys Hnotin Hnodup IH]; intros p.
  - exists p. split; [reflexivity|]. intros k. rewrite decide_False; [reflexivity|].
    apply not_elem_of_nil.
  - change (foldl coerce_key (Ok p) (key :: keys))
      with (foldl coerce_key (coerce_key (Ok p) key) keys).
    rewrite coerce_key_ok.
    destruct (IH (match p !! key with
                  | Some v => <[key := coerce_value key v]> p
                  | None => p end)) as (p1 & Hp1 & Hlook).
    exists p1. split; [exact Hp1|]. intros k. rewrite Hlook.
    destruct (decide (k = key)) as [->|Hne].
    + rewrite (decide_False _ _ Hnotin), decide_True by apply list_elem_of_here.
      destruct (p !! key) as [v|] eqn:E; [|rewrite E; reflexivity].
      rewrite lookup_insert_eq. reflexivity.
    + assert (Hk : (match p !! key with
                    | Some v => <[key := coerce_value key v]> p
                    | None => p end) !! k = p !! k).
      { destruct (p !! key); [apply lookup_insert_ne; congruence|reflexivity]. }
      rewrite Hk. destruct (decide (k ∈ keys)) as [Hin|Hnin].
      * rewrite decide_True by (apply list_elem_of_further, Hin). reflexivity.
      * rewrite decide_False; [reflexivity|].
        intros [?|?]%elem_of_cons; contradiction.
Qed.

Lemma numeric_keys_nodup : NoDup numeric_keys.
Proof. apply (bool_decide_unpack _). vm_compute. exact I. Qed.

Lemma coerce_numbers_lookup (p : params) :
  exists p1 : params, coerce_numbers p = Ok p1
    /\ forall k, p1 !! k = if decide (k ∈ numeric_keys) then coerce_value k <$> p !! k else p !! k.
Proof. apply coerce_fold, numeric_keys_nodup. Qed.

Lemma coerce_numbers_fields (p p1 : params) :
  coerce_numbers p = Ok p1 -> coerced_fields p1.
Proof.
  intros H. destruct (coerce_numbers_lookup p) as (p1' & H' & Hlook).
  rewrite H in H'. injection H' as <-. intros k Hk.
  rewrite Hlook, decide_True by exact Hk.
  destruct (p !! k); simpl; eauto.
Qed.

Lemma get_number_coerced (p : params) k d :
  coerced_fields p -> k ∈ numeric_keys -> get_number p k d = Ok (number p k d).
Proof.
  intros Hp Hk. unfold get_number, number.
  destruct (Hp k Hk) as [->|[x ->]]; reflexivity.
Qed.

Lemma same_fields_sym p q : same_fields p q -> same_fields q p.
Proof. intros H k ? ?. symmetry. auto. Qed.

Lemma same_fields_insert_styles (p : params) v : same_fields (<["styles" := v]> p) p.
Proof. intros k ? ?. apply lookup_insert_ne. congruence. Qed.

Lemma same_fields_insert_lines (p : params) v : same_fields (<["text_lines" := v]> p) p.
Proof. intros k ? ?. apply lookup_insert_ne. congruence. Qed.

Lemma same_fields_trans p q r : same_fields p q -> same_fields q r -> same_fields p r.
Proof. intros H1 H2 k ? ?. rewrite H1, H2 by assumption. reflexivity. Qed.

Section same_fields.
Context (p q : params) (H : same_fields p q).

Lemma same_get_number k d :
  k <> "styles" -> k <> "text_lines" -> get_number p k d = get_number q k d.
Proof. intros. unfold get_number. rewrite H by assumption. reflexivity. Qed.


Lemma same_str_get_empty k :
  k <> "styles" -> k <> "text_lines" -> str_get_empty p k = str_get_empty q k.
Proof. intros. unfold str_get_empty. rewrite H by assumption. reflexivity. Qed.

Lemma same_str_get k :
  k <> "styles" -> k <> "text_lines" -> str_get p k = str_get q k.
Proof. intros. unfold str_get. rewrite H by assumption. reflexivity. Qed.

Lemma same_should_include_text : should_include_text p = should_include_text q.
Proof. unfold should_include_text. rewrite same_str_get_empty by discriminate. reflexivity. Qed.

Lemma same_part_area : part_area p = part_area q.
Proof.
  unfold part_area. rewrite (H "shape") by discriminate.
  rewrite !(same_get_number "width"), !(same_get_number "height") by discriminate.
  reflexivity.
Qed.

Lemma same_error_lines : error_lines p = error_lines q.
Proof. unfold error_lines. rewrite same_str_get_empty by discriminate. reflexivity. Qed.

Lemma same_weight_lines : weight_lines p = weight_lines q.
Proof.
  unfold weight_lines. rewrite same_part_area.
  rewrite (same_get_number "material_thickness"), (same_get_number "material_density"),
    (same_get_number "part_quantity"), (same_str_get_empty "part_name") by discriminate.
  reflexivity.
Qed.

Lemma same_lines_of : lines_of p = lines_of q.
Proof. unfold lines_of. rewrite same_weight_lines, same_error_lines. reflexivity. Qed.

Lemma same_coerced_fields : coerced_fields q -> coerced_fields p.
Proof.
  intros Hq k Hk. rewrite H; [apply Hq, Hk| |];
    intros ->; revert Hk; apply (bool_decide_unpack _); vm_compute; exact I.
Qed.

End same_fields.

Lemma text_block_eval (q : params) :
  eval (text_block q)
  = Ok (if should_include_text q then <["text_lines" := VLines (lines_of q)]> q else q).
Proof.
  unfold text_block, lines_of. unfold_monads.
  destruct (should_include_text q); [|reflexivity].
  destruct (weight_lines q); reflexivity.
Qed.

Lemma prepare_inv raw (p : params) :
  eval (_prepare_data_for_dxf raw) = Ok (Prepared p) ->
  exists (p1 : params) (st : styles),
    truthy_get (translate_keys raw) "part_name" = true
    /\ truthy_get (translate_keys raw) "shape" = true
    /\ coerce_numbers (translate_keys raw) = Ok p1
    /\ calc_styles p1 = Ok st
    /\ p = (let p2 := <["styles" := VStyles st]> p1 in
            if should_include_text p2 then <["text_lines" := VLines (lines_of p2)]> p2 else p2).
Proof.
  unfold _prepare_data_for_dxf. intros H.
  pose proof (text_block_eval) as Ht.
  unfold_monads.
  destruct (truthy_get (translate_keys raw) "part_name") eqn:Hn; [|discriminate].
  destruct (truthy_get (translate_keys raw) "shape") eqn:Hs; [|discriminate].
  simpl in H.
  destruct (coerce_numbers (translate_keys raw)) as [p1|e] eqn:Hc; [|discriminate].
  destruct (calc_styles p1) as [st|e] eqn:Hst; [|discriminate].
  exists p1, st. repeat split; try reflexivity; try assumption.
  specialize (Ht (<["styles" := VStyles st]> p1)).
  destruct (text_block (<["styles" := VStyles st]> p1) []) as [[q|e] log]; simpl in *;
    congruence.
Qed.

(** What the properties below use of a prepared record. *)
Lemma prepared_record raw (p : params) :
  eval (_prepare_data_for_dxf raw) = Ok (Prepared p) ->
  exists (p1 : params) (st : styles),
    coerce_numbers (translate_keys raw) = Ok p1
    /\ calc_styles p1 = Ok st
    /\ same_fields p p1
    /\ coerced_fields p
    /\ p !! "styles" = Some (VStyles st)
    /\ p !! "text_lines"
       = if should_include_text p then Some (VLines (lines_of p)) else p1 !! "text_lines".
Proof.
  intros (p1 & st & _ & _ & Hc & Hst & ->)%prepare_inv. exists p1, st.
  assert (H2 : same_fields (<["styles" := VStyles st]> p1) p1)
    by apply same_fields_insert_styles.
  cbv zeta.
  set (p2 := <["styles" := VStyles st]> p1) in *.
  assert (Hp : same_fields (if should_include_text p2
                            then <["text_lines" := VLines (lines_of p2)]> p2 else p2) p2).
  { destruct (should_include_text p2); [apply same_fields_insert_lines|].
    intros k _ _. reflexivity. }
  split; [exact Hc|]. split; [exact Hst|].
  split; [eapply same_fields_trans; eassumption|].
  split.
  { eapply same_coerced_fields; [eapply same_fields_trans; eassumption|].
    eapply coerce_numbers_fields, Hc. }
  rewrite (same_should_include_text _ _ Hp).
  destruct (should_include_text p2) eqn:E.
  - rewrite lookup_insert_ne by discriminate.
    rewrite (same_lines_of _ _ Hp). subst p2.
    rewrite !lookup_insert_eq. split; reflexivity.
  - subst p2. rewrite lookup_insert_eq, lookup_insert_ne by discriminate. auto.
Qed.

(* ===================================================================== *)
(** * Facts on the drawing *)
(* ===================================================================== *)

#[local] Arguments rectangle_contour : simpl never.
#[local] Arguments rectangle_dims : simpl never.
#[local] Arguments sanitized_filename : simpl never.
#[local] Arguments str_get : simpl never.
#[local] Arguments no_length : simpl never.

Lemma add_text_lines_spec lines : forall i sp ch ls d,
  add_text_lines lines i sp ch ls d
  = (Ok tt, with_modelspace d (modelspace d ++ text_entities lines i sp ch ls)).
Proof.
  induction lines as [|line rest IH]; intros i sp ch ls d; simpl.
  - unfold_monads. rewrite app_nil_r. destruct d; reflexivity.
  - unfold_monads. unfold add_entity. rewrite IH. unfold with_modelspace. simpl.
    rewrite <- app_assoc. reflexivity.
Qed.

Lemma texts_text_entities lines : forall i sp ch ls,
  omap text_of (text_entities lines i sp ch ls) = lines.
Proof. induction lines as [|l r IH]; intros; simpl; [reflexivity|]. rewrite IH. reflexivity. Qed.

Lemma polylines_text_entities lines : forall i sp ch ls,
  List.filter is_lwpolyline (text_entities lines i sp ch ls) = [].
Proof. induction lines as [|l r IH]; intros; simpl; auto. Qed.

Lemma shape_creators_lookup s :
  shape_creators !! s = if String.eqb s "rectangle" then Some rectangle_contour else None.
Proof.
  unfold shape_creators. destruct (String.eqb_spec s "rectangle") as [->|Hne].
  - apply lookup_singleton_eq.
  - apply lookup_singleton_ne. congruence.
Qed.

Lemma dims_creators_lookup dd l st s :
  dims_creators dd l st !! s
  = if String.eqb s "rectangle" then Some (rectangle_dims dd l st) else None.
Proof.
  unfold dims_creators. destruct (String.eqb_spec s "rectangle") as [->|Hne].
  - apply lookup_singleton_eq.
  - apply lookup_singleton_ne. congruence.
Qed.

Lemma rectangle_contour_spec (p : params) w h d :
  p !! "width" = Some (VFloat w) ->
  p !! "height" = Some (VFloat h) ->
  rectangle_contour p d
  = (Ok (length (modelspace d)),
     with_modelspace d
       (modelspace d
        ++ [LWPolyline [(of_Z 0, of_Z 0); (w, of_Z 0); (w, h); (of_Z 0, h)] true "0"])).
Proof.
  intros Hw Hh. unfold rectangle_contour, item. rewrite Hw, Hh. reflexivity.
Qed.

Lemma rectangle_dims_spec (p : params) dd l st w h d :
  p !! "width" = Some (VFloat w) ->
  p !! "height" = Some (VFloat h) ->
  rectangle_dims dd l st p d
  = if no_length (of_Z 0, h) (w, h) then (Raise ZeroDivisionError, d)
    else if no_length (of_Z 0, of_Z 0) (of_Z 0, h) then
      (Raise ZeroDivisionError,
       with_modelspace d (modelspace d ++ [AlignedDim (of_Z 0, h) (w, h) dd l "Standard"]))
    else
      (Ok tt,
       with_modelspace d
         (modelspace d
          ++ [AlignedDim (of_Z 0, h) (w, h) dd l "Standard";
              AlignedDim (of_Z 0, of_Z 0) (of_Z 0, h) (neg dd) l "Standard"])).
Proof.
  intros Hw Hh. unfold rectangle_dims, item, add_aligned_dim. rewrite Hw, Hh.
  unfold_monads. simpl.
  destruct (no_length (of_Z 0, h) (w, h)); [reflexivity|]. simpl.
  destruct (no_length (of_Z 0, of_Z 0) (of_Z 0, h)); [reflexivity|]. simpl.
  unfold with_modelspace. simpl. rewrite <- app_assoc. reflexivity.
Qed.

Lemma draw_body_rectangle (p : params) st w h :
  p !! "styles" = Some (VStyles st) ->
  p !! "shape" = Some (VStr "rectangle") ->
  p !! "width" = Some (VFloat w) ->
  p !! "height" = Some (VFloat h) ->
  draw_body p new_drawing
  = match lines_to_draw p with
    | Ok lines =>
        if include_dims st && dims_fail w h
        then (Raise ZeroDivisionError, failed_document p st w h lines)
        else
          let d := rectangle_document p st w h lines in
          (Ok (Drawn d (sanitized_filename p +:+ ".dxf")), d)
    | Raise e =>
        (Raise e, {| layers := first_layers p st;
                     dimstyles := first_dimstyles st;
                     modelspace := [rectangle_polyline w h] |})
    end.
Proof.
  intros Hst Hsh Hw Hh.
  unfold draw_body, lines_to_draw, rectangle_document, failed_document, first_layers,
    first_dimstyles, dim_entities, dims_fail, dims_before_failure, truthy_get, get_styles,
    lookup_shape, rectangle_dims.
  rewrite Hst, Hsh. simpl. rewrite shape_creators_lookup. simpl. unfold when.
  destruct (p !! "text_lines") as [v|] eqn:Hv; [destruct (py_bool v) eqn:Hb|];
    destruct (include_dims st) eqn:Hd; unfold_monads; unfold item; simpl;
    repeat (progress (rewrite ?Hd, ?Hv, ?dims_creators_lookup, ?add_text_lines_spec,
                        ?(rectangle_contour_spec p w h), ?(rectangle_dims_spec p _ _ _ w h)
                        by assumption; simpl));
    try (destruct (iterate v) as [lines|e]; simpl);
    repeat (progress (rewrite ?Hd, ?Hv, ?dims_creators_lookup, ?add_text_lines_spec,
                        ?(rectangle_contour_spec p w h), ?(rectangle_dims_spec p _ _ _ w h)
                        by assumption; simpl));
    try (destruct (no_length (of_Z 0, h) (w, h)); simpl;
         [|destruct (no_length (of_Z 0, of_Z 0) (of_Z 0, h)); simpl]);
    unfold with_modelspace; simpl; rewrite <- ?app_assoc, ?app_nil_r; simpl;
    reflexivity.
Qed.

Lemma sub_zero_r x : is_zero (sub x (of_Z 0)) = is_zero x.
Proof. destruct x as [[]|[]| |]; reflexivity. Qed.

Lemma sub_diag x : is_zero (sub x x) = is_finite x.
Proof.
  destruct x as [[]|[]| |s m e]; try reflexivity.
  unfold sub, SFsub. rewrite Z.sub_diag. reflexivity.
Qed.

Lemma dims_fail_zero_side w h : dims_fail w h = zero_side w h.
Proof.
  unfold dims_fail, zero_side, no_length. cbn [fst snd].
  rewrite !sub_zero_r, sub_diag. reflexivity.
Qed.

Lemma draw_body_unknown (p : params) st :
  p !! "styles" = Some (VStyles st) ->
  lookup_shape shape_creators (p !! "shape") = None ->
  draw_body p new_drawing
  = (Ok (NotDrawn ("Forma '" +:+ str_get p "shape" +:+ "' desconhecida.")),
     {| layers := first_layers p st; dimstyles := first_dimstyles st; modelspace := [] |}).
Proof.
  intros Hst Hsh. unfold draw_body, get_styles, first_layers, first_dimstyles, when.
  rewrite Hst, Hsh. unfold_monads. simpl.
  destruct (truthy_get p "text_lines"); simpl; destruct (include_dims st) eqn:Hd; simpl;
    rewrite ?Hd; reflexivity.
Qed.

Ltac break_match H :=
  match type of H with
  | context [match ?x with _ => _ end] => destruct x eqn:?
  | context [if ?x then _ else _] => destruct x eqn:?
  end.

Lemma draw_body_filename (p : params) d0 content filename d :
  draw_body p d0 = (Ok (Drawn content filename), d) ->
  filename = sanitized_filename p +:+ ".dxf".
Proof.
  unfold draw_body, when, get_document. unfold_monads. intros H.
  repeat (break_match H; try discriminate).
  all: congruence.
Qed.

Lemma create_filename (p : params) content filename :
  eval (create_dxf_drawing p) = Ok (Drawn content filename) ->
  filename = sanitized_filename p +:+ ".dxf".
Proof.
  unfold create_dxf_drawing, draw_with_document. unfold_monads.
  destruct (draw_body p new_drawing) as [[r|e] d] eqn:E; simpl.
  - intros [= ->]. eapply draw_body_filename, E.
  - destruct e; simpl; discriminate.
Qed.

(* ===================================================================== *)
(** * Facts on the characters of a string *)
(* ===================================================================== *)

Lemma append_cons c (s t : string) : String c s +:+ t = String c (s +:+ t).
Proof. reflexivity. Qed.

Lemma append_nil (t : string) : "" +:+ t = t.
Proof. reflexivity. Qed.

Lemma characters_eq b0 r0 :
  PyStr.characters (String b0 r0)
  = if PyStr.is_ascii b0 then (PyStr.code b0, String b0 "") :: PyStr.characters r0
    else
      match r0 with
      | String b1 r1 =>
          if PyStr.two b0 b1
          then (PyStr.point2 b0 b1, String b0 (String b1 "")) :: PyStr.characters r1
          else
            match r1 with
            | String b2 r2 =>
                if PyStr.three b0 b1 b2
                then (PyStr.point3 b0 b1 b2, String b0 (String b1 (String b2 "")))
                     :: PyStr.characters r2
                else
                  match r2 with
                  | String b3 r3 =>
                      if PyStr.four b0 b1 b2 b3
                      then (PyStr.point4 b0 b1 b2 b3,
                            String b0 (String b1 (String b2 (String b3 ""))))
                           :: PyStr.characters r3
                      else PyStr.stray b0 :: PyStr.characters r0
                  | EmptyString => PyStr.stray b0 :: PyStr.characters r0
                  end
            | EmptyString => PyStr.stray b0 :: PyStr.characters r0
            end
      | EmptyString => PyStr.stray b0 :: PyStr.characters r0
      end.
Proof. reflexivity. Qed.

Lemma stray_not_allowed b : allowed (PyStr.stray b).1 = false.
Proof. vm_compute. reflexivity. Qed.

(** The first character of a string that is not empty, and what is left. *)
Lemma characters_first b0 r0 :
  exists ch r,
    PyStr.characters (String b0 r0) = ch :: PyStr.characters r
    /\ String b0 r0 = ch.2 +:+ r
    /\ (String.length r <= String.length r0)%nat
    /\ spelled ch.
Proof.
  rewrite characters_eq.
  assert (Hs : spelled (PyStr.stray b0)).
  { split; [discriminate|]. rewrite stray_not_allowed. discriminate. }
  destruct (PyStr.is_ascii b0) eqn:E0.
  { eexists _, r0. split; [reflexivity|]. split; [reflexivity|]. split; [lia|].
    split; [discriminate|]. intros _ t. cbn [snd]. rewrite !append_cons, append_nil, characters_eq, E0. reflexivity. }
  destruct r0 as [|b1 r1].
  { eexists _, "". split; [reflexivity|]. split; [reflexivity|]. split; [simpl; lia|]. auto. }
  destruct (PyStr.two b0 b1) eqn:E1.
  { eexists _, r1. split; [reflexivity|]. split; [reflexivity|]. split; [simpl; lia|].
    split; [discriminate|]. intros _ t. cbn [snd]. rewrite !append_cons, append_nil, characters_eq, E0, E1. reflexivity. }
  destruct r1 as [|b2 r2].
  { eexists _, _. split; [reflexivity|]. split; [reflexivity|]. split; [simpl; lia|]. auto. }
  destruct (PyStr.three b0 b1 b2) eqn:E2.
  { eexists _, r2. split; [reflexivity|]. split; [reflexivity|]. split; [simpl; lia|].
    split; [discriminate|]. intros _ t. cbn [snd]. rewrite !append_cons, append_nil, characters_eq, E0, E1, E2.
    reflexivity. }
  destruct r2 as [|b3 r3].
  { eexists _, _. split; [reflexivity|]. split; [reflexivity|]. split; [simpl; lia|]. auto. }
  destruct (PyStr.four b0 b1 b2 b3) eqn:E3.
  { eexists _, r3. split; [reflexivity|]. split; [reflexivity|]. split; [simpl; lia|].
    split; [discriminate|]. intros _ t. cbn [snd]. rewrite !append_cons, append_nil, characters_eq, E0, E1, E2, E3.
    reflexivity. }
  eexists _, _. split; [reflexivity|]. split; [reflexivity|]. split; [simpl; lia|]. auto.
Qed.

(** The bytes of the characters, put together, are the string; and every
    character stands by its own bytes. *)
Lemma characters_spelled s :
  concat_strings (map snd (PyStr.characters s)) = s /\ Forall spelled (PyStr.characters s).
Proof.
  remember (String.length s) as n eqn:Hn.
  assert (Hle : (String.length s <= n)%nat) by lia. clear Hn.
  revert s Hle. induction n as [|n IH]; intros [|b0 r0] Hle; simpl in Hle;
    try (split; [reflexivity|constructor]); [lia|].
  destruct (characters_first b0 r0) as (ch & r & -> & Hb & Hl & Hsp).
  destruct (IH r ltac:(lia)) as [IH1 IH2].
  split; [|constructor; assumption].
  cbn [map concat_strings]. rewrite IH1. symmetry. exact Hb.
Qed.

Lemma characters_bytes s : concat_strings (map snd (PyStr.characters s)) = s.
Proof. apply characters_spelled. Qed.

Lemma characters_not_empty s : s <> "" -> PyStr.characters s <> [].
Proof.
  destruct s as [|b0 r0]; [congruence|]. intros _.
  destruct (characters_first b0 r0) as (ch & r & -> & _). discriminate.
Qed.

(** An ASCII string has one character for each byte. *)
Lemma characters_ascii s :
  PyStr.all_chars PyStr.is_ascii s = true ->
  Forall (fun ch => 0 <= ch.1 < 128) (PyStr.characters s).
Proof.
  induction s as [|c r IH]; [constructor|].
  intros [Hc Hr]%andb_true_iff. rewrite characters_eq, Hc.
  constructor; [|apply IH, Hr]. simpl. unfold PyStr.is_ascii in Hc. unfold PyStr.code in *. lia.
Qed.

Lemma length_append (s t : string) :
  String.length (s +:+ t) = (String.length s + String.length t)%nat.
Proof.
  induction s as [|c r IH]; [reflexivity|]. rewrite append_cons. simpl. now rewrite IH.
Qed.

Lemma append_assoc (s t u : string) : (s +:+ t) +:+ u = s +:+ (t +:+ u).
Proof. induction s as [|c r IH]; [reflexivity|]. rewrite !append_cons. now rewrite IH. Qed.

(* ===================================================================== *)
(** * Facts on the file name *)
(* ===================================================================== *)

Lemma runs_concat l : concat (map snd (runs l)) = l.
Proof.
  induction l as [|ch r IH]; [reflexivity|]. simpl.
  destruct (runs r) as [|[b t] rest]; simpl in *.
  - now rewrite <- IH.
  - destruct (Bool.eqb (allowed ch.1) b); simpl; rewrite <- IH; reflexivity.
Qed.

Lemma runs_alternating l : alternating (runs l).
Proof.
  induction l as [|ch r IH]; [exact I|]. simpl.
  destruct (runs r) as [|[b t] rest]; [exact I|].
  destruct (Bool.eqb (allowed ch.1) b) eqn:E.
  - destruct rest as [|[b' t'] rest']; [exact I|]. exact IH.
  - split; [|exact IH]. intros Heq. rewrite Heq, Bool.eqb_reflx in E. discriminate.
Qed.

Lemma runs_uniform l :
  Forall (fun '(b, t) => t <> [] /\ forallb (fun ch => Bool.eqb (allowed ch.1) b) t = true)
         (runs l).
Proof.
  induction l as [|ch r IH]; [constructor|]. simpl.
  destruct (runs r) as [|[b t] rest].
  - constructor; [|constructor]. simpl. split; [discriminate|].
    rewrite Bool.eqb_reflx. reflexivity.
  - inversion IH as [|? ? Hhead Hrest]; subst. simpl in Hhead. destruct Hhead as [Hne Hall].
    destruct (Bool.eqb (allowed ch.1) b) eqn:E.
    + constructor; [|exact Hrest]. simpl. split; [discriminate|]. rewrite E, Hall. reflexivity.
    + constructor; [|exact IH]. simpl. split; [discriminate|].
      rewrite Bool.eqb_reflx. reflexivity.
Qed.

Lemma re_sub_runs l :
  re_sub_from false l = render (runs l)
  /\ re_sub_from true l = render (after_match (runs l)).
Proof.
  induction l as [|[point bytes] r [IHf IHt]]; [split; reflexivity|]. simpl.
  destruct (allowed point) eqn:Ec.
  - rewrite IHf. unfold render, spelling.
    destruct (runs r) as [|[[] t] rest]; simpl; rewrite ?append_assoc; split; reflexivity.
  - rewrite IHt. destruct (runs r) as [|[[] t] rest]; simpl; split; reflexivity.
Qed.

Lemma re_sub_replace_runs s : re_sub s = replace_runs s.
Proof. apply re_sub_runs. Qed.

Lemma characters_re_sub l : forall b,
  Forall spelled l -> PyStr.characters (re_sub_from b l) = kept b l.
Proof.
  induction l as [|[point bytes] r IH]; intros b Hl; [reflexivity|].
  apply Forall_cons in Hl as [[_ Hsp] Hr]. simpl in *.
  destruct (allowed point) eqn:Ec.
  - rewrite (Hsp eq_refl). now rewrite IH.
  - destruct b; [now apply IH|]. rewrite characters_eq. change (PyStr.is_ascii "_") with true.
    cbv iota. now rewrite IH.
Qed.

Lemma kept_allowed l : forall b, forallb (fun '(point, _) => allowed point) (kept b l) = true.
Proof.
  induction l as [|[point bytes] r IH]; intros b; [reflexivity|]. simpl.
  destruct (allowed point) eqn:Ec; simpl; [rewrite Ec; apply IH|].
  destruct b; simpl; [apply IH|]. change (allowed 95) with true. apply IH.
Qed.

Lemma re_sub_allowed s : all_characters allowed (re_sub s) = true.
Proof.
  unfold all_characters, re_sub. rewrite characters_re_sub by apply characters_spelled.
  apply kept_allowed.
Qed.

Lemma allowed_ascii point :
  allowed point = true -> 0 <= point < 128 -> in_filename_set point = true.
Proof.
  intros H Hr.
  assert (Hn : exists n, (n < 128)%nat /\ point = Z.of_nat n)
    by (exists (Z.to_nat point); lia).
  destruct Hn as (n & Hn & ->). revert H.
  do 128 (destruct n as [|n]; [vm_compute; try reflexivity; discriminate|]). lia.
Qed.

Lemma kept_ascii l : forall b,
  Forall (fun ch => 0 <= ch.1 < 128) l ->
  forallb (fun '(point, _) => in_filename_set point) (kept b l) = true.
Proof.
  induction l as [|[point bytes] r IH]; intros b Hl; [reflexivity|].
  apply Forall_cons in Hl as [Hp Hr]. simpl in *.
  destruct (allowed point) eqn:Ec; simpl.
  - rewrite (allowed_ascii point Ec Hp). now apply IH.
  - destruct b; simpl; now apply IH.
Qed.

Lemma re_sub_ascii s :
  PyStr.all_chars PyStr.is_ascii s = true -> all_characters in_filename_set (re_sub s) = true.
Proof.
  intros H. unfold all_characters, re_sub.
  rewrite characters_re_sub by apply characters_spelled.
  apply kept_ascii, characters_ascii, H.
Qed.

Lemma re_sub_from_fixed l : forall b,
  forallb (fun '(point, _) => allowed point) l = true ->
  re_sub_from b l = concat_strings (map snd l).
Proof.
  induction l as [|[point bytes] r IH]; intros b; simpl; [reflexivity|].
  intros [Hc Hr]%andb_true_iff. rewrite Hc. now rewrite IH.
Qed.

Lemma re_sub_fixed s : all_characters allowed s = true -> re_sub s = s.
Proof.
  intros H. unfold re_sub. rewrite re_sub_from_fixed by exact H. apply characters_bytes.
Qed.

Lemma re_sub_from_length l : forall b,
  Forall spelled l ->
  (String.length (re_sub_from b l) <= String.length (concat_strings (map snd l)))%nat.
Proof.
  induction l as [|[point bytes] r IH]; intros b Hl; simpl; [lia|].
  apply Forall_cons in Hl as [[Hne _] Hr]. simpl in Hne.
  assert (1 <= String.length bytes)%nat by (destruct bytes; [congruence | simpl; lia]).
  rewrite !length_append.
  destruct (allowed point); [|destruct b]; simpl; rewrite ?length_append;
    [specialize (IH false Hr) | specialize (IH true Hr) | specialize (IH true Hr)]; lia.
Qed.

Lemma re_sub_length s : (String.length (re_sub s) <= String.length s)%nat.
Proof.
  unfold re_sub. rewrite <- (characters_bytes s) at 2.
  apply re_sub_from_length, characters_spelled.
Qed.

Lemma re_sub_not_empty s : s <> "" -> re_sub s <> "".
Proof.
  intros Hs. unfold re_sub. pose proof (characters_not_empty s Hs) as Hc.
  destruct (characters_spelled s) as [_ Hsp].
  destruct (PyStr.characters s) as [|[point bytes] r]; [congruence|].
  apply Forall_cons in Hsp as [[Hne _] _]. simpl in *.
  destruct (allowed point); [|discriminate]. destruct bytes; [congruence|discriminate].
Qed.

(* ===================================================================== *)
(** * Facts on the steps of the preparation and on the function *)
(* ===================================================================== *)

#[local] Arguments str_get : simpl never.
#[local] Arguments str_get_empty : simpl never.

Ltac numeric_key := apply (bool_decide_unpack _); vm_compute; exact I.




Lemma is_truthy_token_spec s :
  is_truthy_token s = true <-> PyStr.lower s ∈ ["true"; "on"; "1"; "sim"].
Proof.
  unfold is_truthy_token, truthy_tokens. rewrite existsb_exists. split.
  - intros (t & Hin & Heq). apply String.eqb_eq in Heq. subst t.
    apply list_elem_of_In, Hin.
  - intros Hin. exists (PyStr.lower s). split; [apply list_elem_of_In, Hin|].
    apply String.eqb_refl.
Qed.

Lemma calc_styles_inv (p : params) st :
  coerced_fields p -> calc_styles p = Ok st ->
  char_height st
  = calc_char_height (number p "width" (of_Z 0)) (number p "height" (of_Z 0))
      (number p "diameter" (of_Z 0))
  /\ include_dims st = is_truthy_token (str_get_empty p "include_dims")
  /\ dim_distance st = py_max (of_Z 15) (mul (char_height st) (of_Z 3))
  /\ text_insert_point st = (of_Z 0, mul (neg (char_height st)) (of_Z 2)).
Proof.
  intros Hp. unfold calc_styles.
  rewrite !get_number_coerced by (assumption || numeric_key). unfold_monads.
  destruct (color_of p "contour_color" 7); [|discriminate].
  destruct (color_of p "holes_color" 1); [|discriminate].
  destruct (color_of p "text_color" 2); [|discriminate].
  intros [= <-]. simpl. auto.
Qed.

Lemma map_chars_idem f s :
  (forall c, f (f c) = f c) -> PyStr.map_chars f (PyStr.map_chars f s) = PyStr.map_chars f s.
Proof. intros Hf. induction s as [|c r IH]; simpl; [reflexivity|]. rewrite Hf, IH. reflexivity. Qed.

Lemma replace_char_idem a b s :
  PyStr.replace_char a b (PyStr.replace_char a b s) = PyStr.replace_char a b s.
Proof.
  apply map_chars_idem. intros c.
  destruct (Ascii.eqb c a) eqn:E; [|rewrite E; reflexivity].
  destruct (Ascii.eqb b a); reflexivity.
Qed.

Lemma to_float_comma s d :
  to_float (VStr s) d = to_float (VStr (PyStr.replace_char "," "." s)) d.
Proof. unfold to_float. simpl. rewrite replace_char_idem. reflexivity. Qed.

Lemma to_float_unparsable v d :
  py_float (PyStr.replace_char "," "." (py_str v)) = Raise ValueError ->
  to_float v d = Ok d.
Proof. intros H. unfold to_float. rewrite H. destruct v as [[]| |]; reflexivity. Qed.

Lemma polylines_rectangle_document (p : params) st w h lines :
  polylines (rectangle_document p st w h lines) = [rectangle_polyline w h].
Proof.
  unfold polylines, rectangle_document, dim_entities. simpl.
  rewrite List.filter_app, polylines_text_entities.
  destruct (include_dims st); reflexivity.
Qed.

Lemma polylines_failed_document (p : params) st w h lines :
  polylines (failed_document p st w h lines) = [rectangle_polyline w h].
Proof.
  unfold polylines, failed_document, dims_before_failure. simpl.
  rewrite List.filter_app, polylines_text_entities.
  destruct (no_length _ _); reflexivity.
Qed.

Lemma create_of_document (p : params) r d :
  eval (draw_with_document p) = Ok (r, d) -> eval (create_dxf_drawing p) = Ok r.
Proof.
  unfold create_dxf_drawing. unfold_monads.
  destruct (draw_with_document p []) as [[x|e] log]; simpl; [|discriminate].
  intros [= ->]. reflexivity.
Qed.

(* ===================================================================== *)
(** * The properties of the specification *)
(* ===================================================================== *)

(** ** The drawing of a rectangle *)

(** C1. For every prepared record of shape [rectangle] with a width [w] and
    a height [h], the function places exactly one polyline: closed, with
    the vertices (0,0), (w,0), (w,h), (0,h) in this order, on the contour
    layer, which the program names [CONTORNO]. A document that the function
    returns is the one it has worked on, and it returns one whenever the
    raw record has no [text_lines] field of its own and asks for no
    dimensions. *)
Theorem C1_rectangle_contour (raw : raw_record) (p : params) (w h : float) :
  eval (_prepare_data_for_dxf raw) = Ok (Prepared p) ->
  p !! "shape" = Some (VStr "rectangle") ->
  p !! "width" = Some (VFloat w) ->
  p !! "height" = Some (VFloat h) ->
  exists r d,
    eval (draw_with_document p) = Ok (r, d)
    /\ polylines d
       = [LWPolyline [(of_Z 0, of_Z 0); (w, of_Z 0); (w, h); (of_Z 0, h)] true "CONTORNO"]
    /\ (forall content filename, r = Drawn content filename -> content = d)
    /\ (translate_keys raw !! "text_lines" = None ->
        is_truthy_token (str_get_empty p "include_dims") = false ->
        exists filename, r = Drawn d filename).
Proof.
  intros Hprep Hshape Hw Hh.
  pose proof Hprep as (p1 & st & Hc & Hcs & Hsame & _ & Hstyles & Hlines)%prepared_record.
  pose proof (draw_body_rectangle p st w h Hstyles Hshape Hw Hh) as Hbody.
  unfold draw_with_document. unfold_monads. rewrite Hbody.
  destruct (lines_to_draw p) as [lines|e] eqn:El.
  - destruct (include_dims st && dims_fail w h) eqn:Ef; simpl.
    + eexists _, _. split; [reflexivity|]. split; [apply polylines_failed_document|].
      split; [intros ? ? ?; discriminate|]. intros _ Hd.
      destruct (calc_styles_inv p1 st (coerce_numbers_fields _ _ Hc) Hcs) as (_ & Hi & _).
      rewrite <- (same_str_get_empty _ _ Hsame) in Hi by discriminate.
      rewrite Hd in Hi. rewrite Hi in Ef. discriminate.
    + eexists _, _. split; [reflexivity|]. split; [apply polylines_rectangle_document|].
      split; [intros ? ? [= <- _]; reflexivity|]. eauto.
  - assert (Hnot : translate_keys raw !! "text_lines" <> None).
    { intros Hnone. unfold lines_to_draw in El. rewrite Hlines in El.
      destruct (should_include_text p);
        [simpl in El; destruct (lines_of p); discriminate|].
      destruct (coerce_numbers_lookup (translate_keys raw)) as (p1' & Hc' & Hlook).
      rewrite Hc in Hc'. injection Hc' as <-.
      rewrite Hlook, decide_False, Hnone in El by numeric_key. discriminate. }
    destruct e; simpl; eexists _, _; (split; [reflexivity|]);
      (split; [reflexivity|]); (split; [intros ? ? ?; discriminate|]);
      intros ?; contradiction.
Qed.

(** The rectangle of 100 by 50: the contour (0,0), (100,0), (100,50),
    (0,50). *)
Lemma C1_witness :
  (eval (_prepare_data_for_dxf example_P1) = Ok (Prepared (prepared_of example_P1))
   /\ prepared_of example_P1 !! "shape" = Some (VStr "rectangle")
   /\ prepared_of example_P1 !! "width" = Some (VFloat (of_Z 100))
   /\ prepared_of example_P1 !! "height" = Some (VFloat (of_Z 50)))
  /\ exists d,
       eval (create_dxf_drawing (prepared_of example_P1)) = Ok (Drawn d "P1.dxf")
       /\ polylines d
          = [LWPolyline [(of_Z 0, of_Z 0); (of_Z 100, of_Z 0); (of_Z 100, of_Z 50);
                         (of_Z 0, of_Z 50)] true "CONTORNO"].
Proof.
  assert (H : eval (_prepare_data_for_dxf example_P1) = Ok (Prepared (prepared_of example_P1))
              /\ prepared_of example_P1 !! "shape" = Some (VStr "rectangle")
              /\ prepared_of example_P1 !! "width" = Some (VFloat (of_Z 100))
              /\ prepared_of example_P1 !! "height" = Some (VFloat (of_Z 50)))
    by (vm_compute; repeat split; reflexivity).
  split; [exact H|].
  destruct H as (H1 & H2 & H3 & H4).
  destruct (C1_rectangle_contour example_P1 (prepared_of example_P1) _ _ H1 H2 H3 H4)
    as (r & d & Hr & Hpoly & _ & Hret).
  destruct Hret as [filename ->]; [vm_compute; reflexivity | vm_compute; reflexivity |].
  exists d. split; [|exact Hpoly].
  pose proof (create_of_document _ _ _ Hr) as Hcreate.
  rewrite (create_filename _ _ _ Hcreate) in Hcreate. exact Hcreate.
Defined.

(** ** The coercion of the numeric fields *)

(** C2 does not hold for an absent key. The specification gives it the
    default of the field; the code leaves the key absent, and each later
    read chooses its own fallback: the density of a record without one is
    7850, not 0.0, and the weight printed is that of steel. *)
Lemma C2_counterexample :
  eval (_prepare_data_for_dxf example_no_density)
  = Ok (Prepared (prepared_of example_no_density))
  /\ translate_keys example_no_density !! "material_density" = None
  /\ prepared_of example_no_density !! "material_density"
     <> Some (VFloat (default_of "material_density"))
  /\ get_number (prepared_of example_no_density) "material_density" (of_Z 7850)
     = Ok (of_Z 7850)
  /\ prepared_of example_no_density !! "text_lines"
     = Some (VLines ["P1"; "Espessura: 10.00 mm  (Qtd: 01x)";
                     "Peso Unitario: 78,500 Kg"; "Peso Total: 78,500 Kg"]).
Proof. vm_compute. repeat split; try reflexivity. discriminate. Qed.

(** C2, for the fields a record has. [to_float] never raises; it reads a
    comma as the decimal point, so ["10,5"] gives 10.5; a value that does
    not parse, the empty string and [None] among them, gives the default,
    which is 1.0 for [part_quantity] and 0.0 for the other numeric fields.
    The preparation applies it to every numeric field the record has. It
    stores nothing for an absent field: a later read gets the fallback it
    asks for. *)
Theorem C2_numeric_coercion (raw : raw_record) (p : params) (key : string) :
  eval (_prepare_data_for_dxf raw) = Ok (Prepared p) ->
  key ∈ ["width"; "height"; "diameter"; "material_thickness"; "material_density";
         "part_quantity"] ->
  (forall v d, exists x, to_float v d = Ok x)
  /\ (forall s d, to_float (VStr s) d = to_float (VStr (PyStr.replace_char "," "." s)) d)
  /\ (forall d, to_float (VStr "10,5") d = Ok (div (of_Z 21) (of_Z 2)))
  /\ (forall v d, py_float (PyStr.replace_char "," "." (py_str v)) = Raise ValueError ->
                  to_float v d = Ok d)
  /\ (forall d, to_float (VStr "") d = Ok d /\ to_float VNone d = Ok d)
  /\ default_of key = (if String.eqb key "part_quantity" then of_Z 1 else S754_zero false)
  /\ match translate_keys raw !! key with
     | Some v => exists x, to_float v (default_of key) = Ok x /\ p !! key = Some (VFloat x)
     | None => p !! key = None /\ forall d, get_number p key d = Ok d
     end.
Proof.
  intros (p1 & st & Hc & _ & Hsame & _)%prepared_record Hkey.
  split; [intros v d; exists (coerced v d); apply to_float_ok|].
  split; [apply to_float_comma|].
  split; [intros d; vm_compute; reflexivity|].
  split; [apply to_float_unparsable|].
  split; [intros d; split; reflexivity|].
  split; [unfold default_of; destruct (String.eqb key "part_quantity"); reflexivity|].
  destruct (coerce_numbers_lookup (translate_keys raw)) as (p1' & Hc' & Hlook).
  rewrite Hc in Hc'. injection Hc' as <-.
  assert (Hne : key <> "styles" /\ key <> "text_lines").
  { split; intros ->; revert Hkey; numeric_key. }
  unfold get_number. rewrite (Hsame key) by tauto. rewrite Hlook, decide_True by exact Hkey.
  destruct (translate_keys raw !! key) as [v|]; simpl; [|split; reflexivity].
  exists (coerced v (default_of key)). split; [apply to_float_ok|reflexivity].
Qed.

(** A width of ["10,5"] under the column name [Largura]. *)
Lemma C2_witness :
  (eval (_prepare_data_for_dxf example_comma) = Ok (Prepared (prepared_of example_comma))
   /\ "width" ∈ numeric_keys)
  /\ exists x, to_float (VStr "10,5") (default_of "width") = Ok x
               /\ prepared_of example_comma !! "width" = Some (VFloat x).
Proof.
  assert (Hp : eval (_prepare_data_for_dxf example_comma)
               = Ok (Prepared (prepared_of example_comma)))
    by (vm_compute; reflexivity).
  assert (Hk : "width" ∈ numeric_keys)
    by (apply (bool_decide_eq_true_1 _); vm_compute; reflexivity).
  split; [split; assumption|].
  pose proof (C2_numeric_coercion example_comma (prepared_of example_comma) "width" Hp Hk)
    as (_ & _ & _ & _ & _ & _ & Hw).
  exact Hw.
Defined.

(** ** The text block *)







(** ** The styles *)




(** C6. Both boolean options, [include_dims] and [include_text_info], are
    true exactly when the lowercased string of the value is one of [true],
    [on], [1], [sim]; every other value is false, and so is an absent key.
    A true [include_text_info] is what makes step 5 write the text lines. *)
Theorem C6_boolean_options (raw : raw_record) (p : params) :
  eval (_prepare_data_for_dxf raw) = Ok (Prepared p) ->
  exists st,
    p !! "styles" = Some (VStyles st)
    /\ (include_dims st = true
        <-> PyStr.lower (str_get_empty p "include_dims") ∈ ["true"; "on"; "1"; "sim"])
    /\ (should_include_text p = true
        <-> PyStr.lower (str_get_empty p "include_text_info") ∈ ["true"; "on"; "1"; "sim"])
    /\ (p !! "include_dims" = None -> include_dims st = false)
    /\ (p !! "include_text_info" = None -> should_include_text p = false)
    /\ (should_include_text p = true -> exists lines, p !! "text_lines" = Some (VLines lines))
    /\ (should_include_text p = false ->
        p !! "text_lines" = translate_keys raw !! "text_lines").
Proof.
  intros H.
  pose proof H as (p1 & st & Hc & Hst & Hsame & Hfields & Hstyles & Hlines)%prepared_record.
  exists st. split; [exact Hstyles|].
  destruct (calc_styles_inv p1 st (coerce_numbers_fields _ _ Hc) Hst) as (_ & Hd & _).
  rewrite <- (same_str_get_empty p p1 Hsame) in Hd by discriminate.
  rewrite Hd. unfold should_include_text.
  repeat split; try (apply is_truthy_token_spec).
  - intros Hnone. unfold str_get_empty. rewrite Hnone. reflexivity.
  - intros Hnone. unfold str_get_empty. rewrite Hnone. reflexivity.
  - intros Ht. fold (should_include_text p) in Ht. rewrite Ht in Hlines. eauto.
  - intros Hf. fold (should_include_text p) in Hf. rewrite Hf in Hlines. rewrite Hlines.
    destruct (coerce_numbers_lookup (translate_keys raw)) as (p1' & Hc' & Hlook).
    rewrite Hc in Hc'. injection Hc' as <-.
    rewrite Hlook, decide_False by numeric_key. reflexivity.
Qed.

(** The values [Sim] and [ON] under the column names of the form. *)
Lemma C6_witness :
  eval (_prepare_data_for_dxf example_options)
  = Ok (Prepared (prepared_of example_options))
  /\ exists st,
       prepared_of example_options !! "styles" = Some (VStyles st)
       /\ include_dims st = true
       /\ should_include_text (prepared_of example_options) = true.
Proof.
  assert (Hp : eval (_prepare_data_for_dxf example_options)
               = Ok (Prepared (prepared_of example_options)))
    by (vm_compute; reflexivity).
  split; [exact Hp|].
  destruct (C6_boolean_options example_options (prepared_of example_options) Hp)
    as (st & H1 & H2 & H3 & _).
  exists st. split; [exact H1|].
  split; [apply H2|apply H3]; apply (bool_decide_eq_true_1 _); vm_compute; reflexivity.
Defined.

(** ** The file name *)

(** C7 does not hold where two characters outside the set are neighbours,
    nor where the name has a letter or a digit outside ASCII. The
    specification replaces every character outside its set; the pattern
    ends in [+], so that a run of them gives one underscore, and its class
    is [\w], which has the letters and digits of every script, so that the
    [ç] of [Peça 45°] stays in the file name. *)
Lemma C7_counterexample :
  (eval (_prepare_data_for_dxf example_part_2024)
   = Ok (Prepared (prepared_of example_part_2024))
   /\ exists content,
        eval (create_dxf_drawing (prepared_of example_part_2024))
        = Ok (Drawn content "Part_1_2024.dxf")
        /\ replace_each (str_get (prepared_of example_part_2024) "part_name") +:+ ".dxf"
           = "Part__1_2024.dxf"
        /\ "Part_1_2024.dxf"
           <> replace_each (str_get (prepared_of example_part_2024) "part_name") +:+ ".dxf")
  /\ (eval (_prepare_data_for_dxf example_part_45)
      = Ok (Prepared (prepared_of example_part_45))
      /\ exists content,
           eval (create_dxf_drawing (prepared_of example_part_45))
           = Ok (Drawn content "Peça_45_.dxf")
           /\ all_characters in_filename_set "Peça_45_" = false
           /\ replace_each (str_get (prepared_of example_part_45) "part_name") +:+ ".dxf"
              = "Pe_a_45_.dxf"
           /\ "Peça_45_.dxf"
              <> replace_each (str_get (prepared_of example_part_45) "part_name") +:+ ".dxf").
Proof.
  split; vm_compute; (split; [reflexivity|]); eexists; repeat split; try reflexivity;
    discriminate.
Qed.

(** C7, run by run. The file name of a successful record is the string of
    [part_name] with each maximal run of characters outside the allowed
    class replaced by one underscore, followed by [.dxf]. The class is
    [\w], [.] and [-], where [\w] is the underscore and the letters and
    digits of every script; every character of the result is in it, and
    for an ASCII name every character is one of [A-Z], [a-z], [0-9], [.],
    [_], [-]. *)
Theorem C7_sanitized_filename (p : params) (content : drawing) (filename : string) :
  eval (create_dxf_drawing p) = Ok (Drawn content filename) ->
  exists stem,
    filename = stem +:+ ".dxf"
    /\ stem = replace_runs (str_get p "part_name")
    /\ all_characters allowed stem = true
    /\ (PyStr.all_chars PyStr.is_ascii (str_get p "part_name") = true ->
        all_characters in_filename_set stem = true).
Proof.
  intros ->%create_filename. exists (sanitized_filename p). unfold sanitized_filename.
  split; [reflexivity|]. split; [apply re_sub_replace_runs|].
  split; [apply re_sub_allowed|apply re_sub_ascii].
Qed.

(** The name [Part #1/2024]: the file [Part_1_2024.dxf]. *)
Lemma C7_witness :
  (exists content,
     eval (create_dxf_drawing (prepared_of example_part_2024))
     = Ok (Drawn content "Part_1_2024.dxf"))
  /\ replace_runs (str_get (prepared_of example_part_2024) "part_name") = "Part_1_2024"
  /\ all_characters in_filename_set "Part_1_2024" = true.
Proof.
  set (p := prepared_of example_part_2024).
  assert (H : exists content, eval (create_dxf_drawing p) = Ok (Drawn content "Part_1_2024.dxf"))
    by (eexists; vm_compute; reflexivity).
  split; [exact H|]. destruct H as [content H].
  destruct (C7_sanitized_filename p content _ H) as (stem & Hname & Hstem & _ & Hascii).
  assert (stem = "Part_1_2024") as ->.
  { rewrite Hstem. vm_compute. reflexivity. }
  split; [symmetry; exact Hstem|]. apply Hascii. vm_compute. reflexivity.
Defined.

(** ** The unknown shape *)

(** C8 does not hold for the layers. The specification has no layer
    created for a record of unknown shape; the function creates its layers
    before it looks the shape up. *)
Lemma C8_counterexample :
  eval (_prepare_data_for_dxf example_circle) = Ok (Prepared (prepared_of example_circle))
  /\ lookup_shape shape_creators (prepared_of example_circle !! "shape") = None
  /\ exists d,
       eval (draw_with_document (prepared_of example_circle))
       = Ok (NotDrawn "Forma 'circle' desconhecida.", d)
       /\ layers d = [ {| layer_name := "CONTORNO"; layer_color := 7 |};
                       {| layer_name := "FUROS"; layer_color := 1 |} ]
       /\ layers d <> [].
Proof.
  vm_compute. split; [reflexivity|]. split; [reflexivity|]. eexists.
  repeat split; try reflexivity. discriminate.
Qed.

(** C8, for what is returned and for the entities. For every prepared
    record whose shape is not in the registry, that is every shape but
    [rectangle], the function returns no document and the error of the
    unknown shape; it logs nothing, calls no contour builder and creates no
    entity. The layers it had created by then, [CONTORNO] and [FUROS] and
    with them [TEXTO] and [COTAS] where the record asks for them, each in
    the colour that the library keeps of the colour of the styles, go with
    the working document. *)
Theorem C8_unknown_shape (raw : raw_record) (p : params) :
  eval (_prepare_data_for_dxf raw) = Ok (Prepared p) ->
  p !! "shape" <> Some (VStr "rectangle") ->
  lookup_shape shape_creators (p !! "shape") = None
  /\ exists st d,
       p !! "styles" = Some (VStyles st)
       /\ eval (draw_with_document p)
          = Ok (NotDrawn ("Forma '" +:+ str_get p "shape" +:+ "' desconhecida."), d)
       /\ eval (create_dxf_drawing p)
          = Ok (NotDrawn ("Forma '" +:+ str_get p "shape" +:+ "' desconhecida."))
       /\ logged (create_dxf_drawing p) = []
       /\ modelspace d = []
       /\ layers d
          = ([ {| layer_name := "CONTORNO";
                  layer_color := layer_color_stored (contour_color st) |};
               {| layer_name := "FUROS";
                  layer_color := layer_color_stored (holes_color st) |} ]
             ++ (if truthy_get p "text_lines"
                 then [ {| layer_name := "TEXTO";
                           layer_color := layer_color_stored (text_color st) |} ]
                 else [])
             ++ (if include_dims st
                 then [ {| layer_name := "COTAS";
                           layer_color := layer_color_stored (text_color st) |} ]
                 else []))%list.
Proof.
  intros (p1 & st & _ & _ & _ & _ & Hstyles & _)%prepared_record Hshape.
  assert (Hnone : lookup_shape shape_creators (p !! "shape") = None).
  { unfold lookup_shape. destruct (p !! "shape") as [[[ |s| | ]| | ]|]; try reflexivity.
    rewrite shape_creators_lookup. destruct (String.eqb_spec s "rectangle"); [|reflexivity].
    subst s. contradiction. }
  split; [exact Hnone|]. exists st. eexists.
  pose proof (draw_body_unknown p st Hstyles Hnone) as Hbody.
  split; [exact Hstyles|].
  unfold create_dxf_drawing, draw_with_document. unfold_monads. rewrite Hbody. simpl.
  repeat split; reflexivity.
Qed.

(** A circle: no document, and the message names the shape. *)
Lemma C8_witness :
  (eval (_prepare_data_for_dxf example_circle) = Ok (Prepared (prepared_of example_circle))
   /\ prepared_of example_circle !! "shape" <> Some (VStr "rectangle"))
  /\ eval (create_dxf_drawing (prepared_of example_circle))
     = Ok (NotDrawn "Forma 'circle' desconhecida.").
Proof.
  set (p := prepared_of example_circle).
  assert (H : eval (_prepare_data_for_dxf example_circle) = Ok (Prepared p)
              /\ p !! "shape" <> Some (VStr "rectangle"))
    by (split; [vm_compute; reflexivity|vm_compute; discriminate]).
  split; [exact H|]. destruct H as [H1 H2].
  destruct (C8_unknown_shape example_circle p H1 H2) as (_ & st & d & _ & _ & Hc & _).
  rewrite Hc. vm_compute. reflexivity.
Defined.

(** ** The batch *)

(** Five rows of which two have no shape: three files, two rows ignored,
    nothing raised. *)
Lemma batch_of_five :
  exists a c e,
    eval (generate_dxf_batch batch_of_five_rows [])
    = Ok [("A.dxf", a); ("C.dxf", c); ("E.dxf", e)]
    /\ logged (generate_dxf_batch batch_of_five_rows [])
       = [ RowIgnored 3 "Dados insuficientes: 'part_name' ou 'shape' ausentes.";
           RowIgnored 5 "Dados insuficientes: 'part_name' ou 'shape' ausentes." ].
Proof. vm_compute. eexists _, _, _. split; reflexivity. Qed.

(** C9 fails on the code. A colour that coerces to an infinity or to NaN
    makes [int()] raise in step 4 of the preparation, outside every [try],
    and the loop of the batch does not catch it: the second of three rows
    stops the batch, and the file of the first row is lost with it. A
    colour field of the form does the same to every row. *)
Theorem C9_batch_raises :
  eval (_prepare_data_for_dxf (row_infinite_color "B")) = Raise OverflowError
  /\ eval (generate_dxf_batch batch_with_infinite_color []) = Raise OverflowError
  /\ eval (generate_dxf_batch [(0, good_row "A")] [("text_color", SFloat nan)])
     = Raise ValueError.
Proof. vm_compute. repeat split; reflexivity. Qed.

(* ===================================================================== *)
(** * Further properties of the code *)
(* ===================================================================== *)

(* ===================================================================== *)
(** * Facts on the cleaning of a key *)
(* ===================================================================== *)

Ltac each_char c := destruct c as [[] [] [] [] [] [] [] []]; vm_compute; try reflexivity; try discriminate.

Lemma clean_char_idem c : clean_char (clean_char c) = clean_char c.
Proof. each_char c. Qed.

Lemma clean_char_upper c : clean_char (PyStr.upper_char c) = clean_char c.
Proof. each_char c. Qed.

Lemma clean_char_lower c : clean_char (PyStr.lower_char c) = clean_char c.
Proof. each_char c. Qed.

Lemma is_space_lower c : PyStr.is_space (PyStr.lower_char c) = PyStr.is_space c.
Proof. each_char c. Qed.

Lemma is_space_upper c : PyStr.is_space (PyStr.upper_char c) = PyStr.is_space c.
Proof. each_char c. Qed.

Lemma clean_char_not_space c :
  PyStr.is_space c = false -> PyStr.is_space (clean_char c) = false.
Proof. each_char c. Qed.

Lemma map_chars_map f g s :
  PyStr.map_chars f (PyStr.map_chars g s) = PyStr.map_chars (fun c => f (g c)) s.
Proof. induction s as [|c r IH]; simpl; [reflexivity | now rewrite IH]. Qed.

Lemma map_chars_ext f g s :
  (forall c, f c = g c) -> PyStr.map_chars f s = PyStr.map_chars g s.
Proof. intros E. induction s as [|c r IH]; simpl; [reflexivity | now rewrite IH, E]. Qed.

Lemma clean_key_eq s : clean_key s = PyStr.map_chars clean_char (PyStr.strip s).
Proof. unfold clean_key, PyStr.replace_char, PyStr.lower. rewrite map_chars_map. reflexivity. Qed.

Section strip.

Context (sp : ascii -> bool).

Lemma lstrip_map f s :
  (forall c, sp (f c) = sp c) ->
  PyStr.lstrip_by sp (PyStr.map_chars f s) = PyStr.map_chars f (PyStr.lstrip_by sp s).
Proof.
  intros E. induction s as [|c r IH]; simpl; [reflexivity|].
  rewrite E. destruct (sp c); [exact IH | reflexivity].
Qed.

Lemma rstrip_map f s :
  (forall c, sp (f c) = sp c) ->
  PyStr.rstrip_by sp (PyStr.map_chars f s) = PyStr.map_chars f (PyStr.rstrip_by sp s).
Proof.
  intros E. induction s as [|c r IH]; simpl; [reflexivity|].
  rewrite IH, E. destruct (PyStr.rstrip_by sp r); simpl; [destruct (sp c)|]; reflexivity.
Qed.

Lemma strip_map f s :
  (forall c, sp (f c) = sp c) ->
  PyStr.strip_by sp (PyStr.map_chars f s) = PyStr.map_chars f (PyStr.strip_by sp s).
Proof. intros E. unfold PyStr.strip_by. now rewrite lstrip_map, rstrip_map. Qed.

Lemma lstrip_head s : head_not_space sp (PyStr.lstrip_by sp s).
Proof.
  induction s as [|c r IH]; simpl; [exact I|].
  destruct (sp c) eqn:E; [exact IH | exact E].
Qed.

Lemma rstrip_head s : head_not_space sp s -> head_not_space sp (PyStr.rstrip_by sp s).
Proof.
  destruct s as [|c r]; simpl; [trivial|]. intros E.
  destruct (PyStr.rstrip_by sp r); [rewrite E|]; exact E.
Qed.

Lemma lstrip_fixed s : head_not_space sp s -> PyStr.lstrip_by sp s = s.
Proof. destruct s as [|c r]; simpl; [trivial|]. now intros ->. Qed.

Lemma rstrip_idem s : PyStr.rstrip_by sp (PyStr.rstrip_by sp s) = PyStr.rstrip_by sp s.
Proof.
  induction s as [|c r IH]; simpl; [reflexivity|].
  destruct (PyStr.rstrip_by sp r) as [|c' r'] eqn:E.
  - destruct (sp c) eqn:Ec; simpl; [reflexivity | now rewrite Ec].
  - change (PyStr.rstrip_by sp (String c (String c' r')))
      with (match PyStr.rstrip_by sp (String c' r') with
            | EmptyString => if sp c then EmptyString else String c EmptyString
            | r0 => String c r0
            end).
    now rewrite IH.
Qed.

Lemma head_map f s :
  (forall c, sp c = false -> sp (f c) = false) ->
  head_not_space sp s -> head_not_space sp (PyStr.map_chars f s).
Proof. intros E. destruct s as [|c r]; simpl; [trivial | apply E]. Qed.

Lemma rstrip_map_fixed f s :
  (forall c, sp c = false -> sp (f c) = false) ->
  PyStr.rstrip_by sp s = s ->
  PyStr.rstrip_by sp (PyStr.map_chars f s) = PyStr.map_chars f s.
Proof.
  intros E. induction s as [|c r IH]; simpl; [reflexivity|].
  destruct (PyStr.rstrip_by sp r) as [|c' r'] eqn:Er.
  - destruct (sp c) eqn:Ec; [discriminate|]. intros [= <-]. simpl. now rewrite (E _ Ec).
  - intros [= Hr]. rewrite IH by exact Hr. rewrite <- Hr. reflexivity.
Qed.

Lemma strip_idem s : PyStr.strip_by sp (PyStr.strip_by sp s) = PyStr.strip_by sp s.
Proof.
  unfold PyStr.strip_by.
  rewrite (lstrip_fixed (PyStr.rstrip_by sp (PyStr.lstrip_by sp s)))
    by apply rstrip_head, lstrip_head.
  apply rstrip_idem.
Qed.

Lemma strip_map_fixed f s :
  (forall c, sp c = false -> sp (f c) = false) ->
  PyStr.strip_by sp (PyStr.map_chars f (PyStr.strip_by sp s))
  = PyStr.map_chars f (PyStr.strip_by sp s).
Proof.
  intros E. unfold PyStr.strip_by at 1.
  rewrite lstrip_fixed.
  - apply rstrip_map_fixed; [exact E | apply rstrip_idem].
  - apply head_map; [exact E | apply rstrip_head, lstrip_head].
Qed.

End strip.

Lemma clean_key_idem s : clean_key (clean_key s) = clean_key s.
Proof.
  rewrite !clean_key_eq. unfold PyStr.strip.
  rewrite strip_map_fixed by apply clean_char_not_space.
  rewrite map_chars_map. apply map_chars_ext, clean_char_idem.
Qed.

Lemma column_mapping_value k v :
  COLUMN_MAPPING !! k = Some v -> clean_key v = v /\ COLUMN_MAPPING !! v = None.
Proof.
  intros H. apply elem_of_list_to_map_2 in H.
  repeat (apply elem_of_cons in H as [[= -> ->]|H]; [split; vm_compute; reflexivity|]).
  now apply not_elem_of_nil in H.
Qed.

Lemma clean_key_upper s : clean_key (PyStr.upper s) = clean_key s.
Proof.
  rewrite !clean_key_eq. unfold PyStr.strip, PyStr.upper.
  rewrite strip_map by apply is_space_upper.
  rewrite map_chars_map. apply map_chars_ext, clean_char_upper.
Qed.

Lemma clean_key_lower s : clean_key (PyStr.lower s) = clean_key s.
Proof.
  rewrite !clean_key_eq. unfold PyStr.strip, PyStr.lower.
  rewrite strip_map by apply is_space_lower.
  rewrite map_chars_map. apply map_chars_ext, clean_char_lower.
Qed.

Lemma clean_key_strip s : clean_key (PyStr.strip s) = clean_key s.
Proof. rewrite !clean_key_eq. unfold PyStr.strip. now rewrite strip_idem. Qed.

Lemma translate_keys_rename (f : string -> string) raw :
  (forall k, clean_key (f k) = clean_key k) ->
  translate_keys (rename f raw) = translate_keys raw.
Proof.
  intros Hf.
  assert (E : forall k, internal_key (f k) = internal_key k)
    by (intros k; unfold internal_key; now rewrite Hf).
  unfold translate_keys. generalize (∅ : params).
  induction raw as [|[k v] r IH]; intros p; [reflexivity|].
  cbn [rename map foldl]. cbv beta iota. rewrite E. apply IH.
Qed.

Lemma translate_keys_lookup (raw : raw_record) (k : string) :
  translate_keys raw !! k
  = Scalar <$> last_where (fun old_key => String.eqb (internal_key old_key) k) raw.
Proof.
  unfold translate_keys.
  enough (G : forall p : params,
    foldl (fun (p : params) '(old_key, value) => <[internal_key old_key := Scalar value]> p)
          p raw !! k
    = match last_where (fun old_key => String.eqb (internal_key old_key) k) raw with
      | Some w => Some (Scalar w)
      | None => p !! k
      end).
  { rewrite G. destruct (last_where _ raw); [reflexivity | apply lookup_empty]. }
  induction raw as [|[old v] r IH]; intros p; [reflexivity|].
  cbn [foldl last_where]. rewrite IH. destruct (last_where _ r); [reflexivity|].
  destruct (String.eqb_spec (internal_key old) k) as [->|N].
  - apply lookup_insert_eq.
  - now apply lookup_insert_ne.
Qed.

(* ===================================================================== *)
(** * Step 1: the translation of the keys *)
(* ===================================================================== *)

(** X1. After the translation a key holds the value of the last entry of
    the raw record whose cleaned and translated key it is, and it is absent
    when there is no such entry: of two columns that name the same field
    the later one wins. *)
Theorem translate_keys_last_wins (raw : raw_record) (k : string) :
  translate_keys raw !! k
  = Scalar <$> last_where (fun old_key => String.eqb (internal_key old_key) k) raw.
Proof. apply translate_keys_lookup. Qed.

(** X2. The translation of a key is idempotent: a canonical name, and any
    key that is already clean and is no alias, is translated to itself, so a
    record written with the internal names passes unchanged. *)
Theorem internal_key_idempotent (old_key : string) :
  internal_key (internal_key old_key) = internal_key old_key.
Proof.
  unfold internal_key at 2 3.
  destruct (COLUMN_MAPPING !! clean_key old_key) as [v|] eqn:E; simpl.
  - destruct (column_mapping_value _ _ E) as [Hc Hn].
    unfold internal_key. now rewrite Hc, Hn.
  - unfold internal_key. now rewrite clean_key_idem, E.
Qed.

(** X3. The translation of a key does not depend on the case of its ASCII
    letters nor on white space around it: two keys that are equal up to
    case are translated alike, and a key is translated like its stripped
    form. *)
Theorem internal_key_insensitive (old_key : string) :
  (forall other, PyStr.lower other = PyStr.lower old_key ->
     internal_key other = internal_key old_key)
  /\ internal_key (PyStr.upper old_key) = internal_key old_key
  /\ internal_key (PyStr.strip old_key) = internal_key old_key.
Proof.
  unfold internal_key. rewrite clean_key_upper, clean_key_strip. repeat split.
  intros other E. now rewrite <- (clean_key_lower other), E, clean_key_lower.
Qed.

(* ===================================================================== *)
(** * Facts on the log *)
(* ===================================================================== *)

Lemma appends_ret {A} (a : A) : appends (mret a : App A).
Proof. intros log. unfold_monads. simpl. now rewrite app_nil_r. Qed.

Lemma appends_lift {A} (r : result A) : appends (lift r).
Proof. intros log. unfold_monads. simpl. now rewrite app_nil_r. Qed.

Lemma appends_logger entry : appends (logger entry).
Proof. intros log. reflexivity. Qed.

Lemma appends_bind {A B} (m : App A) (f : A -> App B) :
  appends m -> (forall a, appends (f a)) -> appends (m ≫= f).
Proof.
  intros Hm Hf log. unfold eval, logged, mbind, App_bind.
  rewrite (Hm log), (Hm []). simpl.
  destruct (eval m) as [a|e]; [|reflexivity].
  rewrite (Hf a (log ++ logged m)%list), (Hf a (logged m)). simpl.
  now rewrite app_assoc.
Qed.

Lemma eval_bind {A B} (m : App A) (f : A -> App B) :
  appends m -> (forall a, appends (f a)) ->
  eval (m ≫= f) = match eval m with Ok a => eval (f a) | Raise e => Raise e end.
Proof.
  intros Hm Hf. unfold eval at 1. unfold mbind, App_bind.
  rewrite (Hm []). destruct (eval m) as [a|e]; [|reflexivity].
  now rewrite (Hf a).
Qed.

Lemma logged_bind {A B} (m : App A) (f : A -> App B) :
  appends m -> (forall a, appends (f a)) ->
  logged (m ≫= f)
  = match eval m with Ok a => (logged m ++ logged (f a))%list | Raise e => logged m end.
Proof.
  intros Hm Hf. unfold logged at 1. unfold mbind, App_bind.
  rewrite (Hm []). destruct (eval m) as [a|e]; [|reflexivity].
  now rewrite (Hf a).
Qed.

(* ===================================================================== *)
(** * Facts on the outcome of the preparation *)
(* ===================================================================== *)

Lemma text_block_appends q : appends (text_block q).
Proof.
  unfold text_block. destruct (should_include_text q); [|apply appends_ret].
  destruct (weight_lines q); [apply appends_ret|].
  apply appends_bind; [apply appends_logger | intros; apply appends_ret].
Qed.

Lemma prepare_appends raw : appends (_prepare_data_for_dxf raw).
Proof.
  unfold _prepare_data_for_dxf. destruct (_ || _); [apply appends_ret|].
  repeat (apply appends_bind; [|intros]);
    auto using appends_lift, appends_ret, text_block_appends.
Qed.

Lemma text_block_logged q :
  logged (text_block q)
  = if should_include_text q
    then match weight_lines q with
         | Ok _ => []
         | Raise e => [WeightWarning (q !! "part_name") e]
         end
    else [].
Proof.
  unfold text_block. destruct (should_include_text q); [|reflexivity].
  destruct (weight_lines q); reflexivity.
Qed.

Lemma color_key_not_numeric k : k ∈ color_keys -> k ∉ numeric_keys.
Proof.
  intros H. repeat (apply elem_of_cons in H as [->|H];
                    [apply (bool_decide_unpack _); vm_compute; exact I|]).
  now apply not_elem_of_nil in H.
Qed.

Lemma color_of_field (p : params) key fb :
  fb ∈ [7; 1; 2] -> color_of p key fb = color_field p key fb.
Proof.
  intros Hfb. unfold color_of, color_field. destruct (p !! key) as [v|]; simpl.
  - rewrite to_float_ok. unfold_monads.
    destruct (reads_as_number v) eqn:E; [reflexivity|].
    unfold coerced, to_float. unfold reads_as_number in E.
    destruct v as [[]| |]; try reflexivity;
      destruct (py_float _) as [y|[]]; try discriminate; reflexivity.
  - repeat (apply elem_of_cons in Hfb as [->|Hfb]; [vm_compute; reflexivity|]).
    now apply not_elem_of_nil in Hfb.
Qed.

Lemma colors_fields (p : params) :
  colors p
  = (contour ← color_field p "contour_color" 7;
     holes ← color_field p "holes_color" 1;
     text ← color_field p "text_color" 2;
     Ok (contour, holes, text)).
Proof.
  unfold colors. rewrite !color_of_field; [reflexivity|..];
    apply (bool_decide_unpack _); vm_compute; exact I.
Qed.

Lemma colors_same (p q : params) :
  (forall k, k ∈ color_keys -> p !! k = q !! k) -> colors p = colors q.
Proof.
  intros H. unfold colors, color_of.
  rewrite !H; [reflexivity|..]; apply (bool_decide_unpack _); vm_compute; exact I.
Qed.

Lemma calc_styles_colors (p : params) :
  coerced_fields p ->
  match colors p with
  | Raise e => calc_styles p = Raise e
  | Ok (c, h, t) =>
      exists st, calc_styles p = Ok st
        /\ contour_color st = c /\ holes_color st = h /\ text_color st = t
  end.
Proof.
  intros Hp. unfold calc_styles, colors.
  rewrite !get_number_coerced by (try exact Hp; numeric_key).
  unfold_monads.
  destruct (color_of p "contour_color" 7) as [c|e]; [|reflexivity].
  destruct (color_of p "holes_color" 1) as [h|e]; [|reflexivity].
  destruct (color_of p "text_color" 2) as [t|e]; [|reflexivity].
  eexists. split; [reflexivity|]. simpl. auto.
Qed.

Lemma coerced_record raw :
  exists p1 : params,
    coerce_numbers (translate_keys raw) = Ok p1
    /\ coerced_fields p1
    /\ (forall k, k ∉ numeric_keys -> p1 !! k = translate_keys raw !! k)
    /\ colors p1 = colors (translate_keys raw).
Proof.
  destruct (coerce_numbers_lookup (translate_keys raw)) as (p1 & Hc & Hl).
  exists p1. split; [exact Hc|]. split; [eapply coerce_numbers_fields, Hc|].
  assert (Hk : forall k, k ∉ numeric_keys -> p1 !! k = translate_keys raw !! k).
  { intros k Hk. rewrite Hl. now rewrite decide_False. }
  split; [exact Hk|]. apply colors_same. intros k Hin. apply Hk, color_key_not_numeric, Hin.
Qed.

Lemma no_colors_spec raw k :
  no_colors raw = true -> k ∈ color_keys -> translate_keys raw !! k = None.
Proof.
  unfold no_colors. rewrite forallb_forall. intros H Hk.
  apply list_elem_of_In in Hk. specialize (H k Hk).
  now destruct (translate_keys raw !! k).
Qed.

Lemma valid_true raw :
  valid raw = true ->
  negb (truthy_get (translate_keys raw) "part_name")
  || negb (truthy_get (translate_keys raw) "shape") = false.
Proof. unfold valid. now intros [-> ->]%andb_true_iff. Qed.

Lemma valid_false raw :
  valid raw = false ->
  negb (truthy_get (translate_keys raw) "part_name")
  || negb (truthy_get (translate_keys raw) "shape") = true.
Proof.
  unfold valid. intros H.
  destruct (truthy_get _ "part_name"); [|reflexivity].
  destruct (truthy_get _ "shape"); [discriminate|reflexivity].
Qed.

(** The run of the function on a record that passes the validation. *)
Lemma prepare_valid raw :
  valid raw = true ->
  exists p1 : params,
    coerce_numbers (translate_keys raw) = Ok p1
    /\ coerced_fields p1
    /\ (forall k, k ∉ numeric_keys -> p1 !! k = translate_keys raw !! k)
    /\ colors p1 = colors (translate_keys raw)
    /\ match calc_styles p1 with
       | Raise e =>
           eval (_prepare_data_for_dxf raw) = Raise e
           /\ logged (_prepare_data_for_dxf raw) = []
       | Ok st =>
           let p2 := <["styles" := VStyles st]> p1 in
           eval (_prepare_data_for_dxf raw)
           = Ok (Prepared (if should_include_text p2
                           then <["text_lines" := VLines (lines_of p2)]> p2 else p2))
           /\ logged (_prepare_data_for_dxf raw) = logged (text_block p2)
       end.
Proof.
  intros Hv. destruct (coerced_record raw) as (p1 & Hc & Hf & Hk & Hcol).
  exists p1. repeat (split; [assumption|]).
  unfold _prepare_data_for_dxf. rewrite (valid_true _ Hv).
  pose proof text_block_eval as Ht.
  unfold_monads. rewrite Hc. simpl.
  destruct (calc_styles p1) as [st|e]; [|split; reflexivity].
  cbv zeta. specialize (Ht (<["styles" := VStyles st]> p1)).
  destruct (text_block _ []) as [[q|e] log]; simpl in *; [|discriminate].
  injection Ht as ->. split; reflexivity.
Qed.

Lemma prepare_cases raw :
  valid raw = true ->
  match colors (translate_keys raw) with
  | Raise e =>
      eval (_prepare_data_for_dxf raw) = Raise e
      /\ logged (_prepare_data_for_dxf raw) = []
  | Ok (c, h, t) =>
      exists (p1 : params) (st : styles),
        coerce_numbers (translate_keys raw) = Ok p1
        /\ calc_styles p1 = Ok st
        /\ contour_color st = c /\ holes_color st = h /\ text_color st = t
        /\ (let p2 := <["styles" := VStyles st]> p1 in
            eval (_prepare_data_for_dxf raw)
            = Ok (Prepared (if should_include_text p2
                            then <["text_lines" := VLines (lines_of p2)]> p2 else p2))
            /\ logged (_prepare_data_for_dxf raw) = logged (text_block p2))
  end.
Proof.
  intros Hv. destruct (prepare_valid raw Hv) as (p1 & Hc & Hf & Hk & Hcol & H).
  pose proof (calc_styles_colors p1 Hf) as Hcs. rewrite Hcol in Hcs.
  destruct (colors (translate_keys raw)) as [[[c h] t]|e].
  - destruct Hcs as (st & Hst & Hcolors). rewrite Hst in H.
    exists p1, st. repeat (split; [tauto|]). exact H.
  - rewrite Hcs in H. exact H.
Qed.

Lemma prepare_invalid raw :
  valid raw = false ->
  _prepare_data_for_dxf raw
  = mret (Rejected "Dados insuficientes: 'part_name' ou 'shape' ausentes.").
Proof. intros Hv. unfold _prepare_data_for_dxf. now rewrite (valid_false _ Hv). Qed.

Lemma prepared_valid raw (p : params) :
  eval (_prepare_data_for_dxf raw) = Ok (Prepared p) -> valid raw = true.
Proof.
  intros Hp. destruct (valid raw) eqn:Hv; [reflexivity|].
  rewrite (prepare_invalid raw Hv) in Hp. discriminate.
Qed.

(* ===================================================================== *)
(** * The outcome of the preparation *)
(* ===================================================================== *)

(** X4. The preparation rejects a record exactly when, after the
    translation of the keys, [part_name] or [shape] is absent or false; the
    message is then the fixed one and nothing is logged. The check comes
    before every conversion, so such a record is never the cause of an
    exception. *)
Theorem prepare_rejects_iff (raw : raw_record) :
  (valid raw = false
   <-> eval (_prepare_data_for_dxf raw)
       = Ok (Rejected "Dados insuficientes: 'part_name' ou 'shape' ausentes."))
  /\ (forall msg, eval (_prepare_data_for_dxf raw) = Ok (Rejected msg) ->
        valid raw = false /\ logged (_prepare_data_for_dxf raw) = []).
Proof.
  destruct (valid raw) eqn:Hv.
  - pose proof (prepare_cases raw Hv) as H.
    assert (N : forall msg, eval (_prepare_data_for_dxf raw) <> Ok (Rejected msg)).
    { intros msg. destruct (colors (translate_keys raw)) as [[[c h] t]|e].
      - destruct H as (p1 & st & _ & _ & _ & _ & _ & -> & _). discriminate.
      - destruct H as [-> _]. discriminate. }
    split; [split; [discriminate | intros E; now apply N in E]|].
    intros msg E. now apply N in E.
  - rewrite (prepare_invalid raw Hv). split; [split; reflexivity|]. intros msg _. split; reflexivity.
Qed.

(** X5. The preparation raises exactly when the record passes the
    validation and one of its three colour fields makes [int()] raise; the
    exception is that of the first such field in the order contour, holes,
    text. No other step of the preparation lets an exception out. *)
Theorem prepare_raises_iff (raw : raw_record) (e : exn) :
  eval (_prepare_data_for_dxf raw) = Raise e
  <-> valid raw = true /\ colors (translate_keys raw) = Raise e.
Proof.
  destruct (valid raw) eqn:Hv.
  - pose proof (prepare_cases raw Hv) as H.
    destruct (colors (translate_keys raw)) as [[[c h] t]|e'].
    + destruct H as (p1 & st & _ & _ & _ & _ & _ & -> & _).
      split; [discriminate | intros [_ [=]]].
    + destruct H as [-> _]. split; [intros [= ->]; auto | intros [_ [= ->]]; reflexivity].
  - rewrite (prepare_invalid raw Hv). split; [discriminate | intros [[=] _]].
Qed.

(** X6. The colours of the styles of a prepared record, each from its own
    field of the translated record: the fallback (7 for the contour, 1 for
    the holes, 2 for the text) when the field is absent, 0 (not the
    fallback) when the field is [None] or cannot be read as a number, and
    the number truncated toward zero otherwise. *)
Theorem styles_colors (raw : raw_record) (p : params) (st : styles) :
  eval (_prepare_data_for_dxf raw) = Ok (Prepared p) ->
  p !! "styles" = Some (VStyles st) ->
  color_field (translate_keys raw) "contour_color" 7 = Ok (contour_color st)
  /\ color_field (translate_keys raw) "holes_color" 1 = Ok (holes_color st)
  /\ color_field (translate_keys raw) "text_color" 2 = Ok (text_color st).
Proof.
  intros Hp Hst.
  destruct (prepared_record raw p Hp) as (p1 & st' & Hc & Hcs & _ & _ & Hst' & _).
  rewrite Hst' in Hst. injection Hst as <-.
  destruct (coerced_record raw) as (p1' & Hc' & Hf & _ & Hcol).
  rewrite Hc in Hc'. injection Hc' as <-.
  pose proof (calc_styles_colors p1 Hf) as H. rewrite Hcol, colors_fields in H.
  unfold_monads.
  destruct (color_field _ "contour_color" 7) as [c|e]; [|congruence].
  destruct (color_field _ "holes_color" 1) as [h|e]; [|congruence].
  destruct (color_field _ "text_color" 2) as [t|e]; [|congruence].
  destruct H as (st'' & E & <- & <- & <-). rewrite Hcs in E. injection E as <-. auto.
Qed.

Lemma styles_colors_witness :
  eval (_prepare_data_for_dxf example_bad_color)
  = Ok (Prepared (prepared_of example_bad_color))
  /\ prepared_of example_bad_color !! "styles" = Some (VStyles (styles_of example_bad_color))
  /\ color_field (translate_keys example_bad_color) "contour_color" 7
     = Ok (contour_color (styles_of example_bad_color))
  /\ color_field (translate_keys example_bad_color) "holes_color" 1
     = Ok (holes_color (styles_of example_bad_color))
  /\ color_field (translate_keys example_bad_color) "text_color" 2
     = Ok (text_color (styles_of example_bad_color)).
Proof.
  split; [vm_compute; reflexivity|]. split; [vm_compute; reflexivity|].
  apply (styles_colors example_bad_color (prepared_of example_bad_color));
    vm_compute; reflexivity.
Defined.

(** X7. A record that passes the validation and has no colour field is
    always prepared: the preparation neither raises nor rejects it, and its
    styles carry the colours 7, 1 and 2. *)
Theorem prepare_without_colors (raw : raw_record) :
  valid raw = true ->
  no_colors raw = true ->
  exists (p : params) (st : styles),
    eval (_prepare_data_for_dxf raw) = Ok (Prepared p)
    /\ p !! "styles" = Some (VStyles st)
    /\ contour_color st = 7 /\ holes_color st = 1 /\ text_color st = 2.
Proof.
  intros Hv Hn. pose proof (prepare_cases raw Hv) as H.
  rewrite colors_fields in H. unfold color_field in H.
  rewrite !(no_colors_spec raw _ Hn) in H
    by (apply (bool_decide_unpack _); vm_compute; exact I).
  simpl in H. destruct H as (p1 & st & _ & _ & Hc & Hh & Ht & -> & _).
  eexists _, st. split; [reflexivity|]. split; [|auto].
  destruct (should_include_text _).
  - rewrite lookup_insert_ne by discriminate. apply lookup_insert_eq.
  - apply lookup_insert_eq.
Qed.

Lemma prepare_without_colors_witness :
  valid example_P1 = true
  /\ no_colors example_P1 = true
  /\ exists (p : params) (st : styles),
       eval (_prepare_data_for_dxf example_P1) = Ok (Prepared p)
       /\ p !! "styles" = Some (VStyles st)
       /\ contour_color st = 7 /\ holes_color st = 1 /\ text_color st = 2.
Proof.
  split; [reflexivity|]. split; [reflexivity|].
  apply (prepare_without_colors example_P1); reflexivity.
Defined.

(** X8. The preparation leaves every field alone that is not one of the six
    numeric fields, [styles] or [text_lines]: a prepared record holds under
    such a key what the translated record held, unknown keys included, and
    so its [part_name] and [shape] are true values. *)
Theorem prepare_keeps_fields (raw : raw_record) (p : params) :
  eval (_prepare_data_for_dxf raw) = Ok (Prepared p) ->
  (forall k, k ∉ numeric_keys -> k <> "styles" -> k <> "text_lines" ->
     p !! k = translate_keys raw !! k)
  /\ truthy_get p "part_name" = true
  /\ truthy_get p "shape" = true.
Proof.
  intros Hp.
  destruct (prepare_inv raw p Hp) as (p1 & st & Hn & Hs & Hc & _ & _).
  destruct (prepared_record raw p Hp) as (p1' & _ & Hc' & _ & Hsame & _).
  rewrite Hc in Hc'. injection Hc' as <-.
  destruct (coerced_record raw) as (p1' & Hc' & _ & Hk & _).
  rewrite Hc in Hc'. injection Hc' as <-.
  assert (H : forall k, k ∉ numeric_keys -> k <> "styles" -> k <> "text_lines" ->
                p !! k = translate_keys raw !! k).
  { intros k H1 H2 H3. rewrite Hsame by assumption. apply Hk, H1. }
  split; [exact H|]. unfold truthy_get in *.
  rewrite !H by (try discriminate; apply (bool_decide_unpack _); vm_compute; exact I).
  auto.
Qed.

Lemma prepare_keeps_fields_witness :
  eval (_prepare_data_for_dxf example_headers) = Ok (Prepared (prepared_of example_headers))
  /\ prepared_of example_headers !! "obs" = Some (VStr "urgente")
  /\ prepared_of example_headers !! "part_name" = Some (VStr "P1").
Proof.
  split; [vm_compute; reflexivity|].
  destruct (prepare_keeps_fields example_headers (prepared_of example_headers))
    as (H & _ & _); [vm_compute; reflexivity|].
  split; (rewrite H; [vm_compute; reflexivity | | discriminate | discriminate]);
    apply (bool_decide_unpack _); vm_compute; exact I.
Defined.

(** X9. What the preparation logs: one warning about the weight, with the
    part name and the exception, exactly when the annotation is asked for
    and the weight calculation fails, which is when the two diagnostic
    lines are written; nothing otherwise. *)
Theorem prepare_log (raw : raw_record) (p : params) :
  eval (_prepare_data_for_dxf raw) = Ok (Prepared p) ->
  logged (_prepare_data_for_dxf raw)
  = if should_include_text p
    then match weight_lines p with
         | Ok _ => []
         | Raise e => [WeightWarning (p !! "part_name") e]
         end
    else [].
Proof.
  intros Hp.
  pose proof (prepare_cases raw (prepared_valid raw p Hp)) as H.
  destruct (colors (translate_keys raw)) as [[[c h] t]|e];
    [|destruct H as [H _]; congruence].
  destruct H as (p1 & st & _ & _ & _ & _ & _ & He & Hl). cbv zeta in *.
  rewrite Hl, text_block_logged. rewrite He in Hp. injection Hp as Hp.
  set (p2 := <["styles" := VStyles st]> p1) in *.
  assert (Hsame : same_fields p p2).
  { rewrite <- Hp. destruct (should_include_text p2);
      [apply same_fields_insert_lines | intros k _ _; reflexivity]. }
  rewrite (same_should_include_text _ _ Hsame), (same_weight_lines _ _ Hsame).
  rewrite (Hsame "part_name") by discriminate. reflexivity.
Qed.

Lemma prepare_log_witness :
  eval (_prepare_data_for_dxf example_zero_width)
  = Ok (Prepared (prepared_of example_zero_width))
  /\ logged (_prepare_data_for_dxf example_zero_width)
     = [WeightWarning (Some (VStr "p1")) ValueError].
Proof.
  split; [vm_compute; reflexivity|].
  rewrite (prepare_log example_zero_width (prepared_of example_zero_width));
    vm_compute; reflexivity.
Defined.

(* ===================================================================== *)
(** * Facts on the outcome of the drawing *)
(* ===================================================================== *)

Lemma draw_with_document_appends p : appends (draw_with_document p).
Proof.
  unfold draw_with_document. destruct (draw_body p new_drawing) as [[r|e] d].
  - apply appends_ret.
  - destruct e; try apply appends_ret;
      (apply appends_bind; [apply appends_logger | intros; apply appends_ret]).
Qed.

Lemma create_appends p : appends (create_dxf_drawing p).
Proof.
  unfold create_dxf_drawing.
  apply appends_bind; [apply draw_with_document_appends | intros; apply appends_ret].
Qed.

(** The two handlers of the function, by what its body does. *)
Lemma create_run (p : params) :
  match (draw_body p new_drawing).1 with
  | Ok r => eval (create_dxf_drawing p) = Ok r /\ logged (create_dxf_drawing p) = []
  | Raise (KeyError key) =>
      eval (create_dxf_drawing p) = Ok (NotDrawn (missing_parameter p key))
      /\ logged (create_dxf_drawing p) = []
  | Raise e =>
      eval (create_dxf_drawing p) = Ok (NotDrawn "Erro interno de desenho.")
      /\ logged (create_dxf_drawing p) = [DrawingError e]
  end.
Proof.
  unfold create_dxf_drawing, draw_with_document. unfold_monads.
  destruct (draw_body p new_drawing) as [[r|e] d]; simpl; [auto|].
  destruct e; simpl; auto.
Qed.

Lemma lookup_shape_cases (v : option pyval) :
  (v = Some (VStr "rectangle") /\ lookup_shape shape_creators v = Some rectangle_contour)
  \/ (v <> Some (VStr "rectangle") /\ lookup_shape shape_creators v = None).
Proof.
  destruct v as [[[| s | |]| |]|]; simpl; try (right; split; [discriminate | reflexivity]).
  rewrite shape_creators_lookup. destruct (String.eqb_spec s "rectangle") as [->|N].
  - left. auto.
  - right. split; [congruence | reflexivity].
Qed.

Lemma rectangle_contour_no_width (p : params) d :
  p !! "width" = None -> rectangle_contour p d = (Raise (KeyError "width"), d).
Proof. intros H. unfold rectangle_contour, item. rewrite H. reflexivity. Qed.

Lemma rectangle_contour_no_height (p : params) v d :
  p !! "width" = Some v -> p !! "height" = None ->
  rectangle_contour p d = (Raise (KeyError "height"), d).
Proof. intros Hw Hh. unfold rectangle_contour, item. rewrite Hw, Hh. reflexivity. Qed.

Lemma draw_body_contour_raises (p : params) st e :
  p !! "styles" = Some (VStyles st) ->
  p !! "shape" = Some (VStr "rectangle") ->
  (forall d, rectangle_contour p d = (Raise e, d)) ->
  (draw_body p new_drawing).1 = Raise e.
Proof.
  intros Hst Hsh Hc. unfold draw_body, get_styles, lookup_shape, when.
  rewrite Hst, Hsh. simpl. rewrite shape_creators_lookup. simpl.
  unfold_monads. simpl.
  destruct (truthy_get p "text_lines"); simpl; destruct (include_dims st); simpl;
    rewrite Hc; reflexivity.
Qed.

Lemma lines_to_draw_raises (p : params) e : lines_to_draw p = Raise e -> e = TypeError.
Proof.
  unfold lines_to_draw. destruct (p !! "text_lines") as [v|]; [|discriminate].
  destruct (py_bool v); [|discriminate].
  destruct v as [[]| |]; simpl; congruence.
Qed.

Lemma create_prepared raw (p : params) :
  eval (_prepare_data_for_dxf raw) = Ok (Prepared p) ->
  exists st, p !! "styles" = Some (VStyles st) /\ drawing_case p st.
Proof.
  intros Hp.
  destruct (prepared_record raw p Hp) as (p1 & st & _ & _ & _ & Hf & Hst & _).
  exists st. split; [exact Hst|].
  pose proof (create_run p) as Hrun.
  destruct (lookup_shape_cases (p !! "shape")) as [[Hsh _]|[Hsh Hl]].
  2:{ rewrite (draw_body_unknown p st Hst Hl) in Hrun. simpl in Hrun.
      destruct Hrun. now apply UnknownShape. }
  destruct (Hf "width") as [Hw|[w Hw]]; [numeric_key| |].
  { rewrite (draw_body_contour_raises p st (KeyError "width") Hst Hsh) in Hrun
      by (intros; now apply rectangle_contour_no_width).
    destruct Hrun. now apply MissingWidth. }
  destruct (Hf "height") as [Hh|[h Hh]]; [numeric_key| |].
  { rewrite (draw_body_contour_raises p st (KeyError "height") Hst Hsh) in Hrun
      by (intros; now apply (rectangle_contour_no_height p (VFloat w))).
    destruct Hrun. now apply (MissingHeight p st w). }
  rewrite (draw_body_rectangle p st w h Hst Hsh Hw Hh) in Hrun.
  destruct (lines_to_draw p) as [lines|e] eqn:El.
  - destruct (include_dims st && dims_fail w h) eqn:Ef; simpl in Hrun; destruct Hrun.
    + apply andb_true_iff in Ef as [Ed Ef]. now apply (DimensionFails p st w h lines).
    + now apply (Rectangle p st w h lines).
  - apply lines_to_draw_raises in El as E. subst e. simpl in Hrun.
    destruct Hrun. now apply (BadTextLines p st w h).
Qed.

Lemma text_entities_lookup lines : forall j sp ch ls (i : nat) line,
  lines !! i = Some line ->
  text_entities lines j sp ch ls !! i
  = Some (Text line "TEXTO" ch (sp.1, sub sp.2 (mul (of_Z (j + Z.of_nat i)) ls))).
Proof.
  induction lines as [|l r IH]; intros j sp ch ls i line H; [discriminate|].
  destruct i as [|i].
  - simpl in *. injection H as ->. now rewrite Z.add_0_r.
  - change (text_entities r (j + 1) sp ch ls !! i
            = Some (Text line "TEXTO" ch
                      (sp.1, sub sp.2 (mul (of_Z (j + Z.of_nat (S i))) ls)))).
    rewrite (IH (j + 1) sp ch ls i line H).
    replace (j + 1 + Z.of_nat i) with (j + Z.of_nat (S i)) by lia. reflexivity.
Qed.

Lemma text_items_text_entities lines : forall i sp ch ls,
  List.filter is_text (text_entities lines i sp ch ls) = text_entities lines i sp ch ls.
Proof. induction lines as [|l r IH]; intros; simpl; [reflexivity | now rewrite IH]. Qed.

Lemma dimensions_text_entities lines : forall i sp ch ls,
  List.filter is_dim (text_entities lines i sp ch ls) = [].
Proof. induction lines as [|l r IH]; intros; simpl; auto. Qed.

Lemma texts_rectangle_document (p : params) st w h lines :
  texts (rectangle_document p st w h lines) = lines.
Proof.
  unfold texts, rectangle_document. simpl. rewrite omap_app, texts_text_entities.
  unfold dim_entities. destruct (include_dims st); simpl; now rewrite app_nil_r.
Qed.

Lemma text_items_rectangle_document (p : params) st w h lines :
  text_items (rectangle_document p st w h lines)
  = text_entities lines 0 (text_insert_point st) (char_height st)
      (mul (char_height st) (of_decimal false 15 (-1))).
Proof.
  unfold text_items, rectangle_document. simpl.
  rewrite List.filter_app, text_items_text_entities.
  unfold dim_entities. destruct (include_dims st); simpl; now rewrite app_nil_r.
Qed.

Lemma dimensions_rectangle_document (p : params) st w h lines :
  dimensions (rectangle_document p st w h lines) = dim_entities st w h.
Proof.
  unfold dimensions, rectangle_document. simpl.
  rewrite List.filter_app, dimensions_text_entities.
  unfold dim_entities. destruct (include_dims st); reflexivity.
Qed.

(** The text lines of a prepared record, by the raw record. *)
Lemma prepared_lines raw (p : params) :
  eval (_prepare_data_for_dxf raw) = Ok (Prepared p) ->
  lines_to_draw p
  = if should_include_text p then Ok (lines_of p)
    else match translate_keys raw !! "text_lines" with
         | Some v => if py_bool v then iterate v else Ok []
         | None => Ok []
         end.
Proof.
  intros Hp.
  destruct (prepared_record raw p Hp) as (p1 & st & Hc & _ & _ & _ & _ & Hl).
  destruct (coerced_record raw) as (p1' & Hc' & _ & Hk & _).
  rewrite Hc in Hc'. injection Hc' as <-.
  unfold lines_to_draw. rewrite Hl.
  destruct (should_include_text p).
  - simpl. now destruct (lines_of p).
  - rewrite Hk by numeric_key. reflexivity.
Qed.

Lemma translate_keys_scalar raw k (v : pyval) :
  translate_keys raw !! k = Some v -> exists w : scalar, v = Scalar w.
Proof.
  rewrite translate_keys_lookup. destruct (last_where _ raw) as [w|]; [|discriminate].
  intros [= <-]. now exists w.
Qed.

Lemma prepared_include_dims raw (p : params) st :
  eval (_prepare_data_for_dxf raw) = Ok (Prepared p) ->
  p !! "styles" = Some (VStyles st) ->
  include_dims st = is_truthy_token (str_get_empty p "include_dims").
Proof.
  intros Hp Hst.
  destruct (prepared_record raw p Hp) as (p1 & st' & Hc & Hcs & Hsame & _ & Hst' & _).
  rewrite Hst' in Hst. injection Hst as <-.
  destruct (calc_styles_inv p1 st' (coerce_numbers_fields _ _ Hc) Hcs) as (_ & Hi & _).
  now rewrite (same_str_get_empty _ _ Hsame) by discriminate.
Qed.

(* ===================================================================== *)
(** * The outcome of the drawing *)
(* ===================================================================== *)

(** X10. The drawing function never raises, whatever dictionary it is
    given (its shape being a value that can be looked up): it returns a
    result, and it logs
    nothing unless the result is the internal-error message, in which case
    it has logged exactly the one exception that its body raised. *)
Theorem create_never_raises (p : params) :
  hashable_shape p = true ->
  exists r, eval (create_dxf_drawing p) = Ok r
    /\ (logged (create_dxf_drawing p) = []
        \/ (r = NotDrawn "Erro interno de desenho."
            /\ exists e, logged (create_dxf_drawing p) = [DrawingError e])).
Proof.
  intros _. pose proof (create_run p) as H.
  destruct (draw_body p new_drawing).1 as [r|e].
  - exists r. destruct H. auto.
  - destruct e; destruct H as [H1 H2]; eexists; (split; [exact H1|]); eauto.
Qed.

Lemma create_never_raises_witness :
  hashable_shape (prepared_of example_number_as_text) = true
  /\ exists r, eval (create_dxf_drawing (prepared_of example_number_as_text)) = Ok r
       /\ (logged (create_dxf_drawing (prepared_of example_number_as_text)) = []
           \/ (r = NotDrawn "Erro interno de desenho."
               /\ exists e, logged (create_dxf_drawing (prepared_of example_number_as_text))
                            = [DrawingError e])).
Proof.
  split; [vm_compute; reflexivity|].
  apply (create_never_raises (prepared_of example_number_as_text)).
  vm_compute. reflexivity.
Defined.

(** X11. When a prepared record gives a drawing. A record that is drawn
    is a rectangle that has a width and a height, whose [text_lines] can be
    iterated and, where it asks for dimensions, neither of whose sides is
    zero. The other way round, a rectangle that has a width and a height,
    whose [text_lines] can be iterated and that asks for no dimensions is
    drawn. *)
Theorem create_draws (raw : raw_record) (p : params) :
  eval (_prepare_data_for_dxf raw) = Ok (Prepared p) ->
  ((exists content filename, eval (create_dxf_drawing p) = Ok (Drawn content filename)) ->
   exists w h lines,
     p !! "shape" = Some (VStr "rectangle")
     /\ p !! "width" = Some (VFloat w) /\ p !! "height" = Some (VFloat h)
     /\ lines_to_draw p = Ok lines
     /\ (is_truthy_token (str_get_empty p "include_dims") = true -> zero_side w h = false))
  /\ (p !! "shape" = Some (VStr "rectangle") ->
      is_Some (p !! "width") -> is_Some (p !! "height") ->
      (exists lines, lines_to_draw p = Ok lines) ->
      is_truthy_token (str_get_empty p "include_dims") = false ->
      exists content filename, eval (create_dxf_drawing p) = Ok (Drawn content filename)).
Proof.
  intros Hp. destruct (create_prepared raw p Hp) as (st & Hst & Hcase).
  pose proof (prepared_include_dims raw p st Hp Hst) as Hi.
  destruct Hcase as [Hsh E L|Hsh Hw E L|w Hsh Hw Hh E L|w h Hsh Hw Hh El E L
                     |w h lines Hsh Hw Hh El Ed Ef E L|w h lines Hsh Hw Hh El Ef E L].
  - split; [intros (c & f & E'); congruence | intros E'; contradiction].
  - split; [intros (c & f & E'); congruence | intros _ [x Hx]; congruence].
  - split; [intros (c & f & E'); congruence | intros _ _ [x Hx]; congruence].
  - split; [intros (c & f & E'); congruence | intros _ _ _ [lines E']; congruence].
  - split; [intros (c & f & E'); congruence | intros _ _ _ _ Hd; congruence].
  - split; [|eauto]. intros _. exists w, h, lines. repeat (split; [assumption|]).
    intros Hd. rewrite <- Hi in Hd. rewrite Hd, dims_fail_zero_side in Ef. exact Ef.
Qed.

Lemma create_draws_witness :
  eval (_prepare_data_for_dxf example_text_field)
  = Ok (Prepared (prepared_of example_text_field))
  /\ exists content filename,
       eval (create_dxf_drawing (prepared_of example_text_field))
       = Ok (Drawn content filename).
Proof.
  split; [vm_compute; reflexivity|].
  destruct (create_draws example_text_field (prepared_of example_text_field)) as [_ H];
    [vm_compute; reflexivity|].
  apply H.
  - vm_compute. reflexivity.
  - vm_compute. eexists. reflexivity.
  - vm_compute. eexists. reflexivity.
  - vm_compute. eexists. reflexivity.
  - vm_compute. reflexivity.
Defined.

(** X12. A prepared rectangle without a width or without a height is not
    drawn: the answer names the first of the two that is absent, the width
    before the height, and nothing is logged. *)
Theorem create_missing_parameter (raw : raw_record) (p : params) :
  eval (_prepare_data_for_dxf raw) = Ok (Prepared p) ->
  p !! "shape" = Some (VStr "rectangle") ->
  p !! "width" = None \/ p !! "height" = None ->
  let key := match p !! "width" with None => "width" | Some _ => "height" end in
  eval (create_dxf_drawing p)
  = Ok (NotDrawn ("Parâmetro obrigatório ausente para a forma 'rectangle': '"
                  +:+ key +:+ "'"))
  /\ logged (create_dxf_drawing p) = [].
Proof.
  intros Hp Hsh Hm.
  assert (Hmsg : forall key, key = "width" \/ key = "height" ->
            missing_parameter p key
            = "Parâmetro obrigatório ausente para a forma 'rectangle': '" +:+ key +:+ "'").
  { intros key [->| ->]; unfold missing_parameter, str_get; rewrite Hsh; reflexivity. }
  destruct (create_prepared raw p Hp) as (st & Hst & [| | | | |]); try congruence.
  - match goal with H : p !! "width" = None |- _ => rewrite H end.
    cbv zeta. rewrite <- Hmsg by auto. auto.
  - match goal with H : p !! "width" = Some _ |- _ => rewrite H end.
    cbv zeta. rewrite <- Hmsg by auto. auto.
  - destruct Hm; congruence.
  - destruct Hm; congruence.
  - destruct Hm; congruence.
Qed.

Lemma create_missing_parameter_witness :
  eval (_prepare_data_for_dxf example_no_height)
  = Ok (Prepared (prepared_of example_no_height))
  /\ eval (create_dxf_drawing (prepared_of example_no_height))
     = Ok (NotDrawn "Parâmetro obrigatório ausente para a forma 'rectangle': 'height'")
  /\ logged (create_dxf_drawing (prepared_of example_no_height)) = [].
Proof.
  split; [vm_compute; reflexivity|].
  apply (create_missing_parameter example_no_height (prepared_of example_no_height));
    [vm_compute; reflexivity | vm_compute; reflexivity | right; vm_compute; reflexivity].
Defined.

(** X13. The document of a prepared record that is drawn, in full: the
    layers [CONTORNO] and [FUROS], then [TEXTO] when there are text lines
    and [COTAS] when dimensions are asked for, each in the colour that the
    library keeps of its colour of the styles (the colour itself when it is
    a valid index, 7 otherwise); the dimension style [NOROACO_DIMSTYLE]
    with the character height as text height, only with dimensions; and in
    the model space the contour first, then one text per line, then the two
    aligned dimensions, the first along the top edge at the distance of the
    styles and the second along the left edge at its negation, both on
    [COTAS] and in the style [Standard] of the new document, not in the
    style the program has made. With dimensions neither side is zero. *)
Theorem drawn_document (raw : raw_record) (p : params) (content : drawing)
    (filename : string) :
  eval (_prepare_data_for_dxf raw) = Ok (Prepared p) ->
  eval (create_dxf_drawing p) = Ok (Drawn content filename) ->
  exists st w h lines,
    p !! "styles" = Some (VStyles st)
    /\ p !! "width" = Some (VFloat w)
    /\ p !! "height" = Some (VFloat h)
    /\ lines_to_draw p = Ok lines
    /\ layers content
       = ([ {| layer_name := "CONTORNO";
               layer_color := layer_color_stored (contour_color st) |};
            {| layer_name := "FUROS";
               layer_color := layer_color_stored (holes_color st) |} ]
          ++ (if bool_decide (lines = []) then []
              else [ {| layer_name := "TEXTO";
                        layer_color := layer_color_stored (text_color st) |} ])
          ++ (if include_dims st
              then [ {| layer_name := "COTAS";
                        layer_color := layer_color_stored (text_color st) |} ]
              else []))%list
    /\ dimstyles content
       = (if include_dims st
          then [ {| dimstyle_name := "NOROACO_DIMSTYLE"; dimtxt := char_height st |} ]
          else [])
    /\ modelspace content
       = (LWPolyline [(of_Z 0, of_Z 0); (w, of_Z 0); (w, h); (of_Z 0, h)] true "CONTORNO"
          :: text_items content
          ++ (if include_dims st
              then [ AlignedDim (of_Z 0, h) (w, h) (dim_distance st) "COTAS" "Standard";
                     AlignedDim (of_Z 0, of_Z 0) (of_Z 0, h) (neg (dim_distance st))
                       "COTAS" "Standard" ]
              else []))%list
    /\ texts content = lines
    /\ length (text_items content) = length lines
    /\ (include_dims st = true -> zero_side w h = false).
Proof.
  intros Hp Hd.
  destruct (create_prepared raw p Hp) as (st & Hst & [| | | | |w h lines Hsh Hw Hh El Ef E L]);
    try congruence.
  rewrite E in Hd; injection Hd as <- <-.
  exists st, w, h, lines. repeat (split; [assumption|]).
  rewrite text_items_rectangle_document, texts_rectangle_document.
  split; [|split; [reflexivity|split; [reflexivity|split; [reflexivity|split]]]].
  - simpl. unfold first_layers. do 3 f_equal.
    revert El. unfold lines_to_draw, truthy_get.
    destruct (p !! "text_lines") as [v|]; [|now intros [= <-]].
    destruct (py_bool v) eqn:Eb; [|now intros [= <-]].
    intros Hi. destruct v as [[]|l|]; simpl in *; try discriminate.
    + injection Hi as <-. destruct s; [discriminate|reflexivity].
    + injection Hi as <-. destruct l; [discriminate|reflexivity].
    + injection Hi as <-. reflexivity.
  - clear. generalize 0. generalize (text_insert_point st).
    generalize (mul (char_height st) (of_decimal false 15 (-1))).
    induction lines as [|l r IH]; intros; simpl; [reflexivity | now rewrite IH].
  - intros Hd. rewrite Hd, dims_fail_zero_side in Ef. exact Ef.
Qed.

Lemma drawn_document_witness :
  eval (_prepare_data_for_dxf example_dims_and_text)
  = Ok (Prepared (prepared_of example_dims_and_text))
  /\ eval (create_dxf_drawing (prepared_of example_dims_and_text))
     = Ok (Drawn (document_of example_dims_and_text) (filename_of example_dims_and_text))
  /\ exists st w h lines,
       prepared_of example_dims_and_text !! "styles" = Some (VStyles st)
       /\ prepared_of example_dims_and_text !! "width" = Some (VFloat w)
       /\ prepared_of example_dims_and_text !! "height" = Some (VFloat h)
       /\ lines_to_draw (prepared_of example_dims_and_text) = Ok lines
       /\ texts (document_of example_dims_and_text) = lines
       /\ length (text_items (document_of example_dims_and_text)) = length lines.
Proof.
  split; [vm_compute; reflexivity|]. split; [vm_compute; reflexivity|].
  destruct (drawn_document example_dims_and_text (prepared_of example_dims_and_text)
              (document_of example_dims_and_text) (filename_of example_dims_and_text))
    as (st & w & h & lines & H1 & H2 & H3 & H4 & _ & _ & _ & H5 & H6 & _);
    [vm_compute; reflexivity | vm_compute; reflexivity |].
  exists st, w, h, lines. repeat (split; [assumption|]). assumption.
Defined.

(** X14. Where the text lines of a drawn record stand: line number [i],
    counted from 0, is a text entity on the layer [TEXTO], of the character
    height [c] of the styles, at x = 0 and y = -(2 c) - i (1.5 c), so the
    lines run downward from the insertion point with a spacing of one and
    a half character heights, in the order of the list. *)
Theorem text_positions (raw : raw_record) (p : params) (content : drawing)
    (filename : string) (i : nat) (line : string) :
  eval (_prepare_data_for_dxf raw) = Ok (Prepared p) ->
  eval (create_dxf_drawing p) = Ok (Drawn content filename) ->
  texts content !! i = Some line ->
  exists st,
    p !! "styles" = Some (VStyles st)
    /\ text_items content !! i
       = Some (Text line "TEXTO" (char_height st)
                 (of_Z 0,
                  sub (mul (neg (char_height st)) (of_Z 2))
                      (mul (of_Z (Z.of_nat i))
                           (mul (char_height st) (of_decimal false 15 (-1)))))).
Proof.
  intros Hp Hd Hi.
  destruct (prepared_record raw p Hp) as (p1 & st & Hc & Hcs & _ & _ & Hst & _).
  destruct (calc_styles_inv p1 st (coerce_numbers_fields _ _ Hc) Hcs) as (_ & _ & _ & Hpt).
  destruct (create_prepared raw p Hp) as (st' & Hst' & [| | | | |]); try congruence.
  rewrite Hst in Hst'. injection Hst' as <-.
  match goal with H : eval (create_dxf_drawing p) = Ok (Drawn _ _) |- _ =>
    rewrite H in Hd; injection Hd as <- <- end.
  exists st. split; [exact Hst|].
  rewrite texts_rectangle_document in Hi.
  rewrite text_items_rectangle_document, (text_entities_lookup _ _ _ _ _ _ _ Hi), Hpt.
  reflexivity.
Qed.

Lemma text_positions_witness :
  eval (_prepare_data_for_dxf example_dims_and_text)
  = Ok (Prepared (prepared_of example_dims_and_text))
  /\ eval (create_dxf_drawing (prepared_of example_dims_and_text))
     = Ok (Drawn (document_of example_dims_and_text) (filename_of example_dims_and_text))
  /\ texts (document_of example_dims_and_text) !! 1%nat
     = Some "Espessura: 10.00 mm  (Qtd: 01x)"
  /\ text_items (document_of example_dims_and_text) !! 1%nat
     = Some (Text "Espessura: 10.00 mm  (Qtd: 01x)" "TEXTO" (of_Z 35)
               (of_Z 0, of_decimal true 1225 (-1))).
Proof.
  split; [vm_compute; reflexivity|]. split; [vm_compute; reflexivity|].
  split; [vm_compute; reflexivity|].
  destruct (text_positions example_dims_and_text (prepared_of example_dims_and_text)
              (document_of example_dims_and_text) (filename_of example_dims_and_text)
              1%nat "Espessura: 10.00 mm  (Qtd: 01x)")
    as (st & Hst & H);
    [vm_compute; reflexivity | vm_compute; reflexivity | vm_compute; reflexivity |].
  vm_compute. reflexivity.
Defined.

(** X15. The texts of a drawn record are what the preparation left under
    [text_lines]: the lines of the text block when the annotation is asked
    for; otherwise the field of the raw record itself, a string being
    drawn one character per line, and nothing when it is absent or false. *)
Theorem drawn_texts (raw : raw_record) (p : params) (content : drawing)
    (filename : string) :
  eval (_prepare_data_for_dxf raw) = Ok (Prepared p) ->
  eval (create_dxf_drawing p) = Ok (Drawn content filename) ->
  texts content
  = if should_include_text p then lines_of p
    else match translate_keys raw !! "text_lines" with
         | Some (Scalar (SStr s)) => chars s
         | _ => []
         end.
Proof.
  intros Hp Hd. pose proof (prepared_lines raw p Hp) as Hl.
  destruct (create_prepared raw p Hp) as (st & Hst & [| | | | |]); try congruence.
  match goal with H : eval (create_dxf_drawing p) = Ok (Drawn _ _) |- _ =>
    rewrite H in Hd; injection Hd as <- <- end.
  rewrite texts_rectangle_document.
  match goal with H : lines_to_draw p = Ok lines |- _ => rewrite H in Hl end.
  destruct (should_include_text p); [congruence|].
  destruct (translate_keys raw !! "text_lines") as [v|] eqn:Ev; [|congruence].
  destruct (translate_keys_scalar _ _ _ Ev) as [sc ->].
  destruct sc as [|s|n|x]; simpl in Hl.
  - congruence.
  - destruct s; simpl in *; congruence.
  - destruct (negb (n =? 0)); simpl in Hl; congruence.
  - destruct (truthy x); simpl in Hl; congruence.
Qed.

Lemma drawn_texts_witness :
  eval (_prepare_data_for_dxf example_text_field)
  = Ok (Prepared (prepared_of example_text_field))
  /\ eval (create_dxf_drawing (prepared_of example_text_field))
     = Ok (Drawn (document_of example_text_field) (filename_of example_text_field))
  /\ texts (document_of example_text_field) = ["A"; "B"].
Proof.
  split; [vm_compute; reflexivity|]. split; [vm_compute; reflexivity|].
  rewrite (drawn_texts example_text_field (prepared_of example_text_field)
             (document_of example_text_field) (filename_of example_text_field));
    vm_compute; reflexivity.
Defined.

(** X16. The internal-error answer. A prepared record that gets it is a
    rectangle with a width and a height. A rectangle with a width and a
    height gets it, with a [TypeError] in the log, when its [text_lines]
    is a number left there by the raw record while the annotation is off;
    and it gets it, with a [ZeroDivisionError] in the log, when its
    [text_lines] can be iterated, it asks for dimensions and one of its
    sides is zero. *)
Theorem create_internal_error (raw : raw_record) (p : params) :
  eval (_prepare_data_for_dxf raw) = Ok (Prepared p) ->
  (eval (create_dxf_drawing p) = Ok (NotDrawn "Erro interno de desenho.") ->
   p !! "shape" = Some (VStr "rectangle")
   /\ is_Some (p !! "width") /\ is_Some (p !! "height"))
  /\ (p !! "shape" = Some (VStr "rectangle") ->
      is_Some (p !! "width") -> is_Some (p !! "height") ->
      should_include_text p = false ->
      (exists v, translate_keys raw !! "text_lines" = Some v
                 /\ py_bool v = true /\ iterate v = Raise TypeError) ->
      eval (create_dxf_drawing p) = Ok (NotDrawn "Erro interno de desenho.")
      /\ logged (create_dxf_drawing p) = [DrawingError TypeError])
  /\ (forall w h,
      p !! "shape" = Some (VStr "rectangle") ->
      p !! "width" = Some (VFloat w) -> p !! "height" = Some (VFloat h) ->
      (exists lines, lines_to_draw p = Ok lines) ->
      is_truthy_token (str_get_empty p "include_dims") = true ->
      zero_side w h = true ->
      eval (create_dxf_drawing p) = Ok (NotDrawn "Erro interno de desenho.")
      /\ logged (create_dxf_drawing p) = [DrawingError ZeroDivisionError]).
Proof.
  intros Hp. pose proof (prepared_lines raw p Hp) as Hl.
  assert (Hmiss : forall key, NotDrawn (missing_parameter p key)
                              <> NotDrawn "Erro interno de desenho.")
    by (intros key; unfold missing_parameter; discriminate).
  destruct (create_prepared raw p Hp) as (st & Hst & Hcase).
  pose proof (prepared_include_dims raw p st Hp Hst) as Hi.
  destruct Hcase as [Hsh E L|Hsh Hw E L|w Hsh Hw Hh E L|w h Hsh Hw Hh El E L
                     |w h lines Hsh Hw Hh El Ed Ef E L|w h lines Hsh Hw Hh El Ef E L];
    rewrite E.
  - split; [discriminate|]. split; [intros; contradiction | intros; contradiction].
  - split; [intros [= F]; now apply Hmiss in F|].
    split; [intros _ [x Hx]; congruence | intros; congruence].
  - split; [intros [= F]; exfalso; eapply Hmiss; now rewrite F|].
    split; [intros _ _ [x Hx]; congruence | intros; congruence].
  - split; [eauto|]. split; [auto|]. intros w' h' _ _ _ [lines E']. congruence.
  - split; [eauto|]. split; [|auto].
    intros _ _ _ Ht (v & Ev & Eb & Ei). rewrite El, Ht, Ev, Eb, Ei in Hl. discriminate.
  - split; [discriminate|]. split.
    + intros _ _ _ Ht (v & Ev & Eb & Ei). rewrite El, Ht, Ev, Eb, Ei in Hl. discriminate.
    + intros w' h' _ Hw' Hh' _ Hd Hz. exfalso.
      rewrite Hw in Hw'. rewrite Hh in Hh'. injection Hw' as <-. injection Hh' as <-.
      rewrite <- Hi in Hd. rewrite Hd, dims_fail_zero_side, Hz in Ef. discriminate.
Qed.

Lemma create_internal_error_witness :
  eval (_prepare_data_for_dxf example_zero_width_dims)
  = Ok (Prepared (prepared_of example_zero_width_dims))
  /\ eval (create_dxf_drawing (prepared_of example_zero_width_dims))
     = Ok (NotDrawn "Erro interno de desenho.")
  /\ logged (create_dxf_drawing (prepared_of example_zero_width_dims))
     = [DrawingError ZeroDivisionError].
Proof.
  split; [vm_compute; reflexivity|].
  destruct (create_internal_error example_zero_width_dims
              (prepared_of example_zero_width_dims)) as (_ & _ & H);
    [vm_compute; reflexivity|].
  apply (H (of_Z 0) (of_Z 50)).
  - vm_compute. reflexivity.
  - vm_compute. reflexivity.
  - vm_compute. reflexivity.
  - vm_compute. eexists. reflexivity.
  - vm_compute. reflexivity.
  - vm_compute. reflexivity.
Defined.

(* ===================================================================== *)
(** * Facts on ordered dictionaries *)
(* ===================================================================== *)

Lemma dict_set_get d k v k' :
  dict_get (dict_set d k v) k' = if String.eqb k k' then Some v else dict_get d k'.
Proof.
  induction d as [|[k0 v0] r IH]; simpl; [reflexivity|].
  destruct (String.eqb_spec k0 k) as [->|N]; simpl.
  - destruct (String.eqb k k'); reflexivity.
  - rewrite IH. destruct (String.eqb_spec k0 k') as [->|N'];
      [now rewrite (proj2 (String.eqb_neq k k')) by congruence | reflexivity].
Qed.

Lemma dict_update_cons d k v o : dict_update d ((k, v) :: o) = dict_update (dict_set d k v) o.
Proof. reflexivity. Qed.

Lemma dict_set_keys_prefix d k v : dict_keys d `prefix_of` dict_keys (dict_set d k v).
Proof.
  induction d as [|[k0 v0] r IH]; simpl; [apply prefix_nil|].
  destruct (String.eqb k0 k); simpl; [reflexivity | now apply prefix_cons].
Qed.

Lemma dict_set_keys_elem d k v k' :
  k' ∈ dict_keys (dict_set d k v) <-> k' = k \/ k' ∈ dict_keys d.
Proof.
  induction d as [|[k0 v0] r IH]; simpl.
  - split; [intros [->|H]%elem_of_cons; [auto | now apply not_elem_of_nil in H]|].
    intros [->|H]; [apply list_elem_of_here | now apply not_elem_of_nil in H].
  - destruct (String.eqb_spec k0 k) as [->|N]; simpl; rewrite !elem_of_cons.
    + tauto.
    + unfold dict_keys in IH. rewrite IH. tauto.
Qed.

Lemma dict_set_new d k v : k ∉ dict_keys d -> dict_set d k v = (d ++ [(k, v)])%list.
Proof.
  induction d as [|[k0 v0] r IH]; simpl; [reflexivity|].
  rewrite not_elem_of_cons. intros [N H].
  rewrite (proj2 (String.eqb_neq k0 k)) by congruence. now rewrite IH.
Qed.

Lemma last_where_app test d d' :
  last_where test (d ++ d')
  = match last_where test d' with Some v => Some v | None => last_where test d end.
Proof.
  induction d as [|[k v] r IH]; simpl; [now destruct (last_where test d')|].
  rewrite IH. destruct (last_where test d'); reflexivity.
Qed.

Lemma last_where_dict_set_other test d k v :
  test k = false -> last_where test (dict_set d k v) = last_where test d.
Proof.
  intros Hk. induction d as [|[k0 v0] r IH]; simpl; [now rewrite Hk|].
  destruct (String.eqb_spec k0 k) as [->|N]; simpl.
  - now rewrite Hk.
  - now rewrite IH.
Qed.

Lemma last_where_dict_update test o : forall d,
  NoDup (dict_keys o) ->
  (forall k, k ∈ dict_keys d -> test k = true -> k ∉ dict_keys o) ->
  last_where test (dict_update d o)
  = match last_where test o with Some v => Some v | None => last_where test d end.
Proof.
  induction o as [|[k v] o IH]; intros d Hnd Hd; [reflexivity|].
  rewrite dict_update_cons. simpl in Hnd. apply NoDup_cons in Hnd as [Hk Hnd].
  rewrite IH; [|exact Hnd|].
  - simpl. destruct (last_where test o); [reflexivity|].
    destruct (test k) eqn:Ek.
    + rewrite dict_set_new, last_where_app; [simpl; now rewrite Ek|].
      intros Hin. apply (Hd k Hin Ek). apply list_elem_of_here.
    + now apply last_where_dict_set_other.
  - intros k' [->|Hin]%dict_set_keys_elem Ht; [exact Hk|].
    intros Ho. apply (Hd k' Hin Ht). now apply list_elem_of_further.
Qed.

Lemma last_where_none test d :
  (forall k, k ∈ dict_keys d -> test k = false) -> last_where test d = None.
Proof.
  induction d as [|[k v] r IH]; intros H; simpl; [reflexivity|].
  rewrite IH by (intros k' Hk'; apply H; now apply list_elem_of_further).
  rewrite (H k); [reflexivity | apply list_elem_of_here].
Qed.

(* ===================================================================== *)
(** * The fields of the form on top of a row *)
(* ===================================================================== *)

(** X17. [raw_data.update(request.form)]: in the record of a row, a key of
    the form holds the value of the form and every other key holds the
    value of the row; the columns of the row keep their places and the new
    keys of the form come after them. *)
Theorem dict_update_get (row form : raw_record) (key : string) :
  dict_get (dict_update row form) key
  = match last_where (fun k => String.eqb k key) form with
    | Some v => Some v
    | None => dict_get row key
    end
  /\ dict_keys row `prefix_of` dict_keys (dict_update row form).
Proof.
  split.
  - revert row. induction form as [|[k v] o IH]; intros row; [reflexivity|].
    rewrite dict_update_cons, IH, dict_set_get. simpl.
    destruct (last_where _ o); [reflexivity|]. destruct (String.eqb k key); reflexivity.
  - revert row. induction form as [|[k v] o IH]; intros row; [reflexivity|].
    rewrite dict_update_cons. etransitivity; [apply dict_set_keys_prefix | apply IH].
Qed.

(** X18. A field of the form decides a parameter of every row whose sheet
    has no column for that parameter: when no key of the row translates to
    the internal key, the record of the row holds under it what the last
    field of the form that translates to it holds, and it is absent when
    the form has no such field either. *)
Theorem form_field_applies (row form : raw_record) (key : string) :
  NoDup (dict_keys form) ->
  (forall k, k ∈ dict_keys row -> internal_key k <> key) ->
  translate_keys (dict_update row form) !! key
  = Scalar <$> last_where (fun k => String.eqb (internal_key k) key) form.
Proof.
  intros Hnd Hrow. rewrite translate_keys_lookup. f_equal.
  rewrite last_where_dict_update; [|exact Hnd|].
  - rewrite (last_where_none _ row); [now destruct (last_where _ form)|].
    intros k Hk. apply String.eqb_neq, Hrow, Hk.
  - intros k Hk Ht. apply String.eqb_eq in Ht. now apply Hrow in Hk.
Qed.

Lemma form_field_applies_witness :
  NoDup (dict_keys example_form)
  /\ translate_keys (dict_update (row_without_shape "A") example_form)
       !! "material_thickness"
     = Scalar <$> last_where (fun k => String.eqb (internal_key k) "material_thickness")
                    example_form.
Proof.
  split; [apply (bool_decide_unpack _); vm_compute; exact I|].
  apply (form_field_applies (row_without_shape "A") example_form "material_thickness").
  - apply (bool_decide_unpack _). vm_compute. exact I.
  - intros k Hk. repeat (apply elem_of_cons in Hk as [->|Hk]; [vm_compute; discriminate|]).
    now apply not_elem_of_nil in Hk.
Defined.

(* ===================================================================== *)
(** * Facts on the loop of the batch *)
(* ===================================================================== *)

Lemma batch_row_appends form zf index row : appends (batch_row form zf index row).
Proof.
  unfold batch_row. apply appends_bind; [apply prepare_appends|].
  intros [p|error].
  - apply appends_bind; [apply create_appends|].
    intros [c f|m]; [apply appends_ret|].
    apply appends_bind; [apply appends_logger | intros; apply appends_ret].
  - apply appends_bind; [apply appends_logger | intros; apply appends_ret].
Qed.

Lemma batch_loop_appends form rows : forall zf, appends (batch_loop form zf rows).
Proof.
  induction rows as [|[index row] rest IH]; intros zf; simpl; [apply appends_ret|].
  apply appends_bind; [apply batch_row_appends | intros; apply IH].
Qed.

Lemma create_returns (p : params) : exists r, eval (create_dxf_drawing p) = Ok r.
Proof.
  pose proof (create_run p) as H. destruct (draw_body p new_drawing).1 as [r|e].
  - exists r. tauto.
  - destruct e; eexists; apply H.
Qed.

Lemma create_log_no_skip (p : params) :
  List.filter is_skip (logged (create_dxf_drawing p)) = [].
Proof.
  pose proof (create_run p) as H. destruct (draw_body p new_drawing).1 as [r|e].
  - destruct H as [_ ->]. reflexivity.
  - destruct e; destruct H as [_ ->]; reflexivity.
Qed.

Lemma prepare_log_no_skip raw :
  List.filter is_skip (logged (_prepare_data_for_dxf raw)) = [].
Proof.
  destruct (valid raw) eqn:Hv.
  - pose proof (prepare_cases raw Hv) as H.
    destruct (colors (translate_keys raw)) as [[[c h] t]|e].
    + destruct H as (p1 & st & _ & _ & _ & _ & _ & _ & ->).
      rewrite text_block_logged. destruct (should_include_text _); [|reflexivity].
      now destruct (weight_lines _).
    + destruct H as [_ ->]. reflexivity.
  - rewrite (prepare_invalid raw Hv). reflexivity.
Qed.

(** One turn of the loop, by what the row gives on its own. *)
Lemma batch_row_eval form zf index row :
  eval (batch_row form zf index row)
  = match row_file form row with
    | Raise e => Raise e
    | Ok None => Ok zf
    | Ok (Some file) => Ok (zf ++ [file])%list
    end.
Proof.
  unfold batch_row, row_file.
  rewrite eval_bind; [|apply prepare_appends|].
  2:{ intros [p|error].
      - apply appends_bind; [apply create_appends|].
        intros [c f|m]; [apply appends_ret|].
        apply appends_bind; [apply appends_logger | intros; apply appends_ret].
      - apply appends_bind; [apply appends_logger | intros; apply appends_ret]. }
  destruct (eval (_prepare_data_for_dxf (dict_update row form))) as [[p|error]|e];
    [|reflexivity|reflexivity].
  rewrite eval_bind; [|apply create_appends|].
  2:{ intros [c f|m]; [apply appends_ret|].
      apply appends_bind; [apply appends_logger | intros; apply appends_ret]. }
  destruct (eval (create_dxf_drawing p)) as [[c f|m]|e]; reflexivity.
Qed.

Lemma batch_loop_eval form rows : forall zf,
  eval (batch_loop form zf rows)
  = match collect (map (fun '(_, row) => row_file form row) rows) with
    | Raise e => Raise e
    | Ok files => Ok (zf ++ files)%list
    end.
Proof.
  induction rows as [|[index row] rest IH]; intros zf; simpl.
  - unfold eval. simpl. now rewrite app_nil_r.
  - rewrite eval_bind by (try apply batch_row_appends; intros; apply batch_loop_appends).
    rewrite batch_row_eval.
    destruct (row_file form row) as [[file|]|e]; [| |reflexivity]; rewrite IH;
      destruct (collect _) as [files|e]; try reflexivity.
    now rewrite <- app_assoc.
Qed.

(** The log of one turn: one report when the row gives no file. *)
Lemma batch_row_skips form zf index row zf' :
  eval (batch_row form zf index row) = Ok zf' ->
  (length zf' + length (List.filter is_skip (logged (batch_row form zf index row)))
   = S (length zf))%nat.
Proof.
  intros H. pose proof H as H'. rewrite batch_row_eval in H'.
  unfold batch_row in *. unfold row_file in H'.
  rewrite logged_bind; [|apply prepare_appends|].
  2:{ intros [p|error].
      - apply appends_bind; [apply create_appends|].
        intros [c f|m]; [apply appends_ret|].
        apply appends_bind; [apply appends_logger | intros; apply appends_ret].
      - apply appends_bind; [apply appends_logger | intros; apply appends_ret]. }
  destruct (eval (_prepare_data_for_dxf (dict_update row form))) as [[p|error]|e];
    [| |discriminate].
  - rewrite logged_bind; [|apply create_appends|].
    2:{ intros [c f|m]; [apply appends_ret|].
        apply appends_bind; [apply appends_logger | intros; apply appends_ret]. }
    rewrite List.filter_app, prepare_log_no_skip. simpl.
    destruct (eval (create_dxf_drawing p)) as [[c f|m]|e]; [| |discriminate];
      injection H' as <-; rewrite List.filter_app, create_log_no_skip; simpl.
    + rewrite length_app. simpl. lia.
    + lia.
  - injection H' as <-. rewrite List.filter_app, prepare_log_no_skip. simpl. lia.
Qed.

Lemma batch_loop_skips form rows : forall zf zf',
  eval (batch_loop form zf rows) = Ok zf' ->
  (length zf' + length (List.filter is_skip (logged (batch_loop form zf rows)))
   = length zf + length rows)%nat.
Proof.
  induction rows as [|[index row] rest IH]; intros zf zf' H; simpl in *.
  - unfold eval in H. simpl in H. injection H as <-. unfold logged. simpl. lia.
  - rewrite eval_bind in H by (try apply batch_row_appends; intros; apply batch_loop_appends).
    rewrite logged_bind by (try apply batch_row_appends; intros; apply batch_loop_appends).
    destruct (eval (batch_row form zf index row)) as [zf1|e] eqn:E; [|discriminate].
    rewrite List.filter_app, length_app.
    pose proof (batch_row_skips _ _ _ _ _ E). pose proof (IH _ _ H). lia.
Qed.

Lemma collect_length {A} (l : list (result (option A))) files :
  collect l = Ok files -> (length files <= length l)%nat.
Proof.
  revert files. induction l as [|[o|e] l IH]; intros files; simpl.
  - intros [= <-]. simpl. lia.
  - destruct (collect l) as [fs|e]; [|discriminate]. intros [= <-].
    specialize (IH fs eq_refl). destruct o; simpl; lia.
  - discriminate.
Qed.

Lemma collect_returns {A} (l : list (result (option A))) :
  Forall (fun r => exists o, r = Ok o) l -> exists files, collect l = Ok files.
Proof.
  induction 1 as [|r l [o ->] _ [files IH]]; simpl; [eauto|].
  rewrite IH. eauto.
Qed.

Lemma row_file_without_colors form row :
  no_colors (dict_update row form) = true -> exists o, row_file form row = Ok o.
Proof.
  intros Hn. unfold row_file. destruct (valid (dict_update row form)) eqn:Hv.
  - pose proof (prepare_cases _ Hv) as H. rewrite colors_fields in H.
    unfold color_field in H.
    rewrite !(no_colors_spec _ _ Hn) in H
      by (apply (bool_decide_unpack _); vm_compute; exact I).
    simpl in H. destruct H as (p1 & st & _ & _ & _ & _ & _ & -> & _).
    match goal with |- context [create_dxf_drawing ?p] =>
      destruct (create_returns p) as [[c f|m] ->] end; eauto.
  - rewrite (prepare_invalid _ Hv). unfold eval. simpl. eauto.
Qed.

Lemma batch_row_rejected form zf index row :
  valid (dict_update row form) = false ->
  logged (batch_row form zf index row)
  = [RowIgnored (index + 2) "Dados insuficientes: 'part_name' ou 'shape' ausentes."].
Proof. intros Hv. unfold batch_row. rewrite (prepare_invalid _ Hv). reflexivity. Qed.

Lemma batch_loop_reports form rows : forall zf zf' index row,
  eval (batch_loop form zf rows) = Ok zf' ->
  (index, row) ∈ rows ->
  valid (dict_update row form) = false ->
  RowIgnored (index + 2) "Dados insuficientes: 'part_name' ou 'shape' ausentes."
  ∈ logged (batch_loop form zf rows).
Proof.
  induction rows as [|[i r] rest IH]; intros zf zf' index row H Hin Hv;
    [now apply not_elem_of_nil in Hin|].
  cbn [batch_loop] in *.
  rewrite eval_bind in H by (try apply batch_row_appends; intros; apply batch_loop_appends).
  rewrite logged_bind by (try apply batch_row_appends; intros; apply batch_loop_appends).
  destruct (eval (batch_row form zf i r)) as [zf1|e]; [|discriminate].
  apply elem_of_app. apply elem_of_cons in Hin as [[= <- <-]|Hin].
  - left. rewrite (batch_row_rejected _ _ _ _ Hv). apply list_elem_of_here.
  - right. eapply IH; eassumption.
Qed.

Lemma form_eval form :
  eval (generate_dxf_from_form form)
  = match eval (_prepare_data_for_dxf form) with
    | Raise e => Raise e
    | Ok (Rejected error) => Ok (Status 400 ("Erro nos dados enviados: " +:+ error))
    | Ok (Prepared p) =>
        match eval (create_dxf_drawing p) with
        | Raise e => Raise e
        | Ok (NotDrawn filename) => Ok (Status 500 ("Erro ao gerar o desenho: " +:+ filename))
        | Ok (Drawn dxf_content filename) => Ok (SendFile filename dxf_content)
        end
    end.
Proof.
  unfold generate_dxf_from_form. cbv zeta.
  rewrite eval_bind; [|apply prepare_appends|].
  2:{ intros [p|error]; [|apply appends_ret].
      apply appends_bind; [apply create_appends|].
      intros [c f|m]; apply appends_ret. }
  destruct (eval (_prepare_data_for_dxf form)) as [[p|error]|e]; try reflexivity.
  rewrite eval_bind; [|apply create_appends|intros [c f|m]; apply appends_ret].
  destruct (eval (create_dxf_drawing p)) as [[c f|m]|e]; reflexivity.
Qed.

Lemma dict_update_nil d : dict_update d [] = d.
Proof. reflexivity. Qed.

(* ===================================================================== *)
(** * The batch *)
(* ===================================================================== *)

(** X19. The loop of the batch handles each row on its own: its result is
    the list of the files of the rows that give one, in the order of the
    rows, whatever the indices of the rows and whatever was logged before;
    the first row whose preparation raises ends the batch with that
    exception, and then there is no archive. *)
Theorem batch_by_rows (rows : list (Z * raw_record)) (form : raw_record) :
  eval (generate_dxf_batch rows form)
  = collect (map (fun '(_, row) => row_file form row) rows).
Proof.
  unfold generate_dxf_batch. rewrite batch_loop_eval.
  now destruct (collect _).
Qed.

(** X20. When no row, with the fields of the form on top, has a colour
    field, the batch does not raise: it returns an archive, with at most
    one file for each row. *)
Theorem batch_without_colors (rows : list (Z * raw_record)) (form : raw_record) :
  forallb (fun '(_, row) => no_colors (dict_update row form)) rows = true ->
  exists zf, eval (generate_dxf_batch rows form) = Ok zf
             /\ (length zf <= length rows)%nat.
Proof.
  intros H. unfold generate_dxf_batch. rewrite batch_loop_eval.
  destruct (collect_returns (map (fun '(_, row) => row_file form row) rows)) as [files E].
  - rewrite forallb_forall in H.
    apply Forall_forall. intros r [[index row] [-> Hin]]%list_elem_of_fmap.
    apply row_file_without_colors. apply list_elem_of_In in Hin. apply (H _ Hin).
  - rewrite E. exists files. split; [reflexivity|].
    apply collect_length in E. now rewrite length_map in E.
Qed.

Lemma batch_without_colors_witness :
  forallb (fun '(_, row) => no_colors (dict_update row [])) batch_of_five_rows = true
  /\ exists zf, eval (generate_dxf_batch batch_of_five_rows []) = Ok zf
                /\ (length zf <= length batch_of_five_rows)%nat.
Proof.
  split; [vm_compute; reflexivity|].
  apply (batch_without_colors batch_of_five_rows []). vm_compute. reflexivity.
Defined.

(** X21. A batch that returns accounts for every row: the number of files
    in the archive and the number of log entries that report a row (ignored
    for its data, or not drawn) add up to the number of rows. *)
Theorem batch_accounts_for_rows (rows : list (Z * raw_record)) (form : raw_record)
    (zf : archive) :
  eval (generate_dxf_batch rows form) = Ok zf ->
  (length zf + length (List.filter is_skip (logged (generate_dxf_batch rows form)))
   = length rows)%nat.
Proof. intros H. apply (batch_loop_skips form rows [] zf H). Qed.

Lemma batch_accounts_for_rows_witness :
  eval (generate_dxf_batch batch_of_five_rows [])
  = Ok [("A.dxf", document_of (good_row "A")); ("C.dxf", document_of (good_row "C"));
        ("E.dxf", document_of (good_row "E"))]
  /\ (3 + length (List.filter is_skip (logged (generate_dxf_batch batch_of_five_rows [])))
      = length batch_of_five_rows)%nat.
Proof.
  split; [vm_compute; reflexivity|].
  apply (batch_accounts_for_rows batch_of_five_rows []
           [("A.dxf", document_of (good_row "A")); ("C.dxf", document_of (good_row "C"));
            ("E.dxf", document_of (good_row "E"))]).
  vm_compute. reflexivity.
Defined.

(** X22. In a batch that returns, every row without a true [part_name] or
    [shape] is reported in the log with the number of its line in the
    sheet, which is its index plus 2, and with the message of the
    validation. *)
Theorem batch_reports_rejected (rows : list (Z * raw_record)) (form : raw_record)
    (zf : archive) (index : Z) (row : raw_record) :
  eval (generate_dxf_batch rows form) = Ok zf ->
  In (index, row) rows ->
  valid (dict_update row form) = false ->
  In (RowIgnored (index + 2) "Dados insuficientes: 'part_name' ou 'shape' ausentes.")
     (logged (generate_dxf_batch rows form)).
Proof.
  intros H Hin Hv. apply list_elem_of_In. apply list_elem_of_In in Hin.
  eapply batch_loop_reports; eassumption.
Qed.

Lemma batch_reports_rejected_witness :
  eval (generate_dxf_batch batch_of_five_rows [])
  = Ok [("A.dxf", document_of (good_row "A")); ("C.dxf", document_of (good_row "C"));
        ("E.dxf", document_of (good_row "E"))]
  /\ In (RowIgnored 5 "Dados insuficientes: 'part_name' ou 'shape' ausentes.")
        (logged (generate_dxf_batch batch_of_five_rows [])).
Proof.
  split; [vm_compute; reflexivity|].
  apply (batch_reports_rejected batch_of_five_rows []
           [("A.dxf", document_of (good_row "A")); ("C.dxf", document_of (good_row "C"));
            ("E.dxf", document_of (good_row "E"))] 3 (row_without_shape "D")).
  - vm_compute. reflexivity.
  - simpl. tauto.
  - vm_compute. reflexivity.
Defined.

(* ===================================================================== *)
(** * The single record *)
(* ===================================================================== *)

(** X23. The view of the single record answers with status 400 exactly when
    the form has no true [part_name] or [shape] after the translation of
    its keys, and the text of that answer is the prefix of the view followed
    by the message of the validation. *)
Theorem form_rejected_iff (form : raw_record) :
  (valid form = false
   <-> eval (generate_dxf_from_form form)
       = Ok (Status 400 "Erro nos dados enviados: Dados insuficientes: 'part_name' ou 'shape' ausentes."))
  /\ (forall body, eval (generate_dxf_from_form form) = Ok (Status 400 body) ->
        valid form = false).
Proof.
  rewrite form_eval. destruct (valid form) eqn:Hv.
  - pose proof (prepare_cases form Hv) as H.
    assert (N : forall body,
              match eval (_prepare_data_for_dxf form) with
              | Raise e => Raise e
              | Ok (Rejected error) => Ok (Status 400 ("Erro nos dados enviados: " +:+ error))
              | Ok (Prepared p) =>
                  match eval (create_dxf_drawing p) with
                  | Raise e => Raise e
                  | Ok (NotDrawn filename) =>
                      Ok (Status 500 ("Erro ao gerar o desenho: " +:+ filename))
                  | Ok (Drawn dxf_content filename) => Ok (SendFile filename dxf_content)
                  end
              end <> Ok (Status 400 body)).
    { intros body. destruct (colors (translate_keys form)) as [[[c h] t]|e].
      - destruct H as (p1 & st & _ & _ & _ & _ & _ & -> & _).
        destruct (eval (create_dxf_drawing _)) as [[? ?|?]|?]; discriminate.
      - destruct H as [-> _]. discriminate. }
    split; [split; [discriminate | intros E; now apply N in E]|].
    intros body E. now apply N in E.
  - rewrite (prepare_invalid form Hv). split; [split; reflexivity | reflexivity].
Qed.

(** X24. The view of the single record and a batch of that one record with
    an empty form agree: the file that the view sends is the one file of
    the archive, under the same name; an answer with an error status goes
    with an empty archive; and the one raises what the other raises. *)
Theorem form_agrees_with_batch (form : raw_record) (index : Z) :
  eval (generate_dxf_batch [(index, form)] [])
  = match eval (generate_dxf_from_form form) with
    | Raise e => Raise e
    | Ok (Status _ _) => Ok []
    | Ok (SendFile download_name dxf_content) => Ok [(download_name, dxf_content)]
    end.
Proof.
  unfold generate_dxf_batch. rewrite batch_loop_eval, form_eval. simpl. unfold row_file. rewrite dict_update_nil.
  destruct (eval (_prepare_data_for_dxf form)) as [[p|error]|e]; try reflexivity.
  destruct (eval (create_dxf_drawing p)) as [[c f|m]|e]; reflexivity.
Qed.

(** X25. The view of the single record lets an exception out exactly when
    the form passes the validation and one of its three colour fields makes
    [int()] raise; the drawing never adds one. *)
Theorem form_raises_iff (form : raw_record) (e : exn) :
  eval (generate_dxf_from_form form) = Raise e
  <-> valid form = true /\ colors (translate_keys form) = Raise e.
Proof.
  rewrite form_eval. destruct (valid form) eqn:Hv.
  - pose proof (prepare_cases form Hv) as H.
    destruct (colors (translate_keys form)) as [[[c h] t]|e'].
    + destruct H as (p1 & st & _ & _ & _ & _ & _ & -> & _).
      match goal with |- context [create_dxf_drawing ?p] =>
        destruct (create_returns p) as [[? ?|?] ->] end;
        (split; [discriminate | intros [_ [=]]]).
    + destruct H as [-> _]. split; [intros [= ->]; auto | intros [_ [= ->]]; reflexivity].
  - rewrite (prepare_invalid form Hv). split; [discriminate | intros [[=] _]].
Qed.

(** X26. The headers of a sheet may be written in upper case and with
    white space around them: the preparation of a record whose keys are put
    in upper case, or are stripped, is the preparation of the record. *)
Theorem prepare_rename (raw : raw_record) :
  _prepare_data_for_dxf (rename PyStr.upper raw) = _prepare_data_for_dxf raw
  /\ _prepare_data_for_dxf (rename PyStr.strip raw) = _prepare_data_for_dxf raw.
Proof.
  unfold _prepare_data_for_dxf.
  rewrite !translate_keys_rename by (apply clean_key_upper || apply clean_key_strip).
  split; reflexivity.
Qed.

(* ===================================================================== *)
(** * The file name *)
(* ===================================================================== *)

(** X27. The file name is stable: a part name all of whose characters
    are in the class of the pattern, which is [\w], [.] and [-], is used as
    it is, and so a name that the function has made, given back as the part
    name, comes out unchanged. *)
Theorem sanitized_filename_stable (p : params) :
  (forall name, p !! "part_name" = Some (VStr name) ->
     all_characters allowed name = true -> sanitized_filename p = name)
  /\ sanitized_filename (<["part_name" := VStr (sanitized_filename p)]> p)
     = sanitized_filename p.
Proof.
  split.
  - intros name Hn Ha. unfold sanitized_filename, str_get. rewrite Hn. simpl.
    now apply re_sub_fixed.
  - unfold sanitized_filename at 1. unfold str_get. rewrite lookup_insert_eq. simpl.
    apply re_sub_fixed, re_sub_allowed.
Qed.

(** X28. For a prepared record whose part name is a string, the stem of
    the file name is not empty and is not longer than the part name. *)
Theorem sanitized_filename_length (raw : raw_record) (p : params) (name : string) :
  eval (_prepare_data_for_dxf raw) = Ok (Prepared p) ->
  p !! "part_name" = Some (VStr name) ->
  sanitized_filename p <> ""
  /\ (String.length (sanitized_filename p) <= String.length name)%nat.
Proof.
  intros Hp Hn.
  destruct (prepare_inv raw p Hp) as (p1 & st & Ht & _).
  destruct (prepared_record raw p Hp) as (p1' & _ & Hc & _ & Hsame & _).
  destruct (coerced_record raw) as (p1'' & Hc' & _ & Hk & _).
  rewrite Hc in Hc'. injection Hc' as <-.
  assert (E : translate_keys raw !! "part_name" = Some (VStr name)).
  { rewrite <- Hk by numeric_key. rewrite <- Hsame by discriminate. exact Hn. }
  unfold truthy_get in Ht. rewrite E in Ht. simpl in Ht.
  unfold sanitized_filename, str_get. rewrite Hn. simpl. split.
  - apply re_sub_not_empty. intros ->. discriminate.
  - apply re_sub_length.
Qed.

Lemma sanitized_filename_length_witness :
  eval (_prepare_data_for_dxf example_part_2024)
  = Ok (Prepared (prepared_of example_part_2024))
  /\ prepared_of example_part_2024 !! "part_name" = Some (VStr "Part #1/2024")
  /\ sanitized_filename (prepared_of example_part_2024) <> ""
  /\ (String.length (sanitized_filename (prepared_of example_part_2024))
      <= String.length "Part #1/2024")%nat.
Proof.
  split; [vm_compute; reflexivity|]. split; [vm_compute; reflexivity|].
  apply (sanitized_filename_length example_part_2024); vm_compute; reflexivity.
Defined.
